(** * cummw: an agent-based epidemic simulation, embedded and verified

    The notebook [cummw.ipynb] defines a three-state disease automaton
    ([StudentAgent]), a quadratic contagion step ([randomly_infect]), a
    classroom assignment ([assign_to_classrooms]) and the driver
    ([run_simulation]).  This file embeds those definitions as executable
    Rocq functions over an explicit object store and an explicit random
    source, and proves properties of them. *)

From Stdlib Require Import ZArith QArith Lia Bool.
From stdpp Require Import base list.

Local Open Scope nat_scope.

(** ** Python's floats

    A float is an IEEE 754 binary64 number.  A finite one is written
    [mant * 2 ^ expo] with two integers; an arithmetic operation computes
    the exact result and rounds it to 53 significant bits, ties to even.
    The exponent is left unbounded: the floats the notebook computes lie
    between 2^-53 and 10, far from overflow and from the subnormal
    numbers. *)

(** [round(x)], [x] given by the rational it denotes: to the nearest
    integer, ties to even. *)
Definition py_round (x : Q) : Z :=
  let n := Qnum x in
  let d := Zpos (Qden x) in
  let f := (n / d)%Z in
  let r2 := (2 * (n mod d))%Z in
  if (r2 <? d)%Z then f
  else if (d <? r2)%Z then (f + 1)%Z
  else if Z.even f then f else (f + 1)%Z.

Record float : Type := mkFloat { mant : Z; expo : Z }.

(** The rational a float denotes. *)
Definition F2Q (x : float) : Q :=
  (mant x * 2 ^ Z.max 0 (expo x))%Z # Z.to_pos (2 ^ Z.max 0 (- expo x)).

(** Rounding of an exact result to 53 significant bits: a mantissa of
    more bits loses the [s] bits in excess, rounded to nearest, ties to
    even. *)
Definition round53 (x : float) : float :=
  if (Z.abs (mant x) <? 2 ^ 53)%Z then x
  else
    let s := (Z.log2 (Z.abs (mant x)) - 52)%Z in
    mkFloat (py_round (mant x # Z.to_pos (2 ^ s))) (expo x + s).

(** [float(n)], the conversion an [int] operand of a float operation
    undergoes. *)
Definition Fof_Z (n : Z) : float := round53 (mkFloat n 0).

(** [x * y] *)
Definition Fmul (x y : float) : float :=
  round53 (mkFloat (mant x * mant y) (expo x + expo y)).

(** [x + y] *)
Definition Fadd (x y : float) : float :=
  let e := Z.min (expo x) (expo y) in
  round53 (mkFloat (mant x * 2 ^ (expo x - e) + mant y * 2 ^ (expo y - e)) e).

(** ** Python's [random] module

    The generator is represented by the sequence of raw draws it is going
    to produce ([tape]) together with the number of draws consumed so far
    ([pos]).  The library functions the notebook imports ([uniform],
    [choice], [shuffle]) are written over it the way CPython writes them
    over its own generator. *)
Module Random.

Record rng : Type := mkRng { tape : nat -> N; pos : nat }.

Definition getrand (g : rng) : N * rng :=
  (tape g (pos g), mkRng (tape g) (S (pos g))).

(** [random()]: a 53-bit fraction in the half-open interval from 0 to 1. *)
Definition random (g : rng) : float * rng :=
  let '(r, g') := getrand g in
  (mkFloat (Z.of_N (r mod 2 ^ 53)) (-53), g').

(** [uniform(a, b)] is [a + (b - a) * random()].  The notebook passes two
    [int]s: the difference is exact, the product and the sum are float
    operations. *)
Definition uniform (a b : Z) (g : rng) : float * rng :=
  let '(r, g') := random g in (Fadd (Fof_Z a) (Fmul (Fof_Z (b - a)) r), g').

(** [_randbelow(n)]: an index below [n], for [n > 0].  CPython draws
    until a draw falls below [n]; here one raw draw is reduced modulo
    [n].  Either way the index is below [n] and determined by the draws,
    which is all the proofs below use. *)
Definition randbelow (n : nat) (g : rng) : nat * rng :=
  let '(r, g') := getrand g in (N.to_nat (r mod N.of_nat n), g').

(** [x[i], x[j] = x[j], x[i]] *)
Definition swap {A} (x : list A) (i j : nat) : list A :=
  match x !! i, x !! j with
  | Some xi, Some xj => <[j := xi]> (<[i := xj]> x)
  | _, _ => x
  end.

(** [for i in reversed(range(1, len(x))): j = randbelow(i + 1); swap] *)
Fixpoint shuffle_loop {A} (i : nat) (x : list A) (g : rng) : list A * rng :=
  match i with
  | 0 => (x, g)
  | S i' =>
      let '(j, g') := randbelow (S i) g in
      shuffle_loop i' (swap x i j) g'
  end.

Definition shuffle {A} (x : list A) (g : rng) : list A * rng :=
  shuffle_loop (length x - 1) x g.

(** [choice(seq)]: [None] stands for the [IndexError] raised on an empty
    sequence (no draw is made then). *)
Definition choice {A} (seq : list A) (g : rng) : option A * rng :=
  match seq with
  | [] => (None, g)
  | _ => let '(i, g') := randbelow (length seq) g in (seq !! i, g')
  end.

End Random.
Import Random.

(** ** Python values used by the notebook

    Integers are unbounded.  The two probabilities are given by the
    rationals they denote; the only operation on them is a comparison,
    which is exact on floats. *)

(** [x < y] on numbers. *)
Definition Qltb (x y : Q) : bool :=
  (Qnum x * Zpos (Qden y) <? Qnum y * Zpos (Qden x))%Z.

(** The exceptions the notebook's code can raise, named by what raises
    them: a list subscript out of range, [choice] on an empty list, a
    slice whose step is zero and the read of an attribute never set. *)
Inductive exn : Type :=
| IndexError_subscript
| IndexError_choice
| ValueError_slice_step
| AttributeError_infectious_end.

Inductive result (A : Type) : Type :=
| Ok (a : A)
| Raise (e : exn).
Arguments Ok {A} a.
Arguments Raise {A} e.

(** ** The [StudentAgent] class *)

(** [round(uniform(7,10))] *)
Definition generate_infectious_time (g : rng) : Z * rng :=
  let '(u, g') := uniform 7 10 g in (py_round (F2Q u), g').

Inductive State : Type := HEALTHY | INFECTIOUS | IMMUNE.

(** The values the [Enum] gives its members. *)
Definition State_value (s : State) : nat :=
  match s with HEALTHY => 1 | INFECTIOUS => 2 | IMMUNE => 3 end.

Definition State_eqb (s t : State) : bool :=
  match s, t with
  | HEALTHY, HEALTHY | INFECTIOUS, INFECTIOUS | IMMUNE, IMMUNE => true
  | _, _ => false
  end.

(** [infectious_end] is [None] until [simulate_disease] sets the
    attribute. *)
Record StudentAgent : Type := mkAgent {
  state : State;
  _infected : bool;
  infectious_end : option Z
}.

(** [__init__] *)
Definition StudentAgent_init : StudentAgent :=
  {| state := HEALTHY; _infected := false; infectious_end := None |}.

Definition simulate_disease (self : StudentAgent) (day : Z) (g : rng)
  : result StudentAgent * rng :=
  match state self with
  | HEALTHY =>
      if _infected self then
        let '(t, g') := generate_infectious_time g in
        (Ok {| state := INFECTIOUS;
               _infected := _infected self;
               infectious_end := Some (day + t)%Z |}, g')
      else (Ok self, g)
  | INFECTIOUS =>
      match infectious_end self with
      | None => (Raise AttributeError_infectious_end, g)
      | Some e =>
          if (day =? e)%Z then
            (Ok {| state := IMMUNE;
                   _infected := _infected self;
                   infectious_end := infectious_end self |}, g)
          else (Ok self, g)
      end
  | IMMUNE => (Ok self, g)
  end.

Definition infect (self : StudentAgent) : StudentAgent :=
  {| state := state self; _infected := true;
     infectious_end := infectious_end self |}.

Definition infectious (self : StudentAgent) : bool :=
  State_eqb (state self) INFECTIOUS.

Definition have_been_sick (self : StudentAgent) : bool :=
  negb (State_eqb (state self) HEALTHY).

(** A sequence of method calls on one agent. *)
Inductive agent_op : Type :=
| OpInfect
| OpSimulateDisease (day : Z).

Definition apply_op (op : agent_op) (a : StudentAgent) (g : rng)
  : result StudentAgent * rng :=
  match op with
  | OpInfect => (Ok (infect a), g)
  | OpSimulateDisease day => simulate_disease a day g
  end.

Fixpoint apply_ops (ops : list agent_op) (a : StudentAgent) (g : rng)
  : result StudentAgent * rng :=
  match ops with
  | [] => (Ok a, g)
  | op :: ops' =>
      match apply_op op a g with
      | (Ok a', g') => apply_ops ops' a' g'
      | (Raise e, g') => (Raise e, g')
      end
  end.

(** One method call moves the state along HEALTHY, INFECTIOUS, IMMUNE by
    at most one place. *)
Definition step_ok (s s' : State) : Prop :=
  s' = s \/ (s = HEALTHY /\ s' = INFECTIOUS) \/ (s = INFECTIOUS /\ s' = IMMUNE).

(** The attribute is there whenever the automaton reads it. *)
Definition agent_wf (a : StudentAgent) : Prop :=
  state a = INFECTIOUS -> infectious_end a <> None.

(** ** The interpreter state and its monad

    Agents are objects: lists hold references to them, and a method call
    through any reference is seen through all.  The store [w_agents]
    holds the agents, a reference is an index into it.  [w_log] is a
    ghost trace: it records each Bernoulli trial and each pair of metrics
    appended, and no code reads it. *)

Inductive event : Type := EvTrial | EvRecord.

Record world : Type := mkWorld {
  w_rng : rng;
  w_agents : list StudentAgent;
  w_log : list event
}.

Definition Py (A : Type) : Type := world -> result A * world.

Definition ret {A} (a : A) : Py A := fun w => (Ok a, w).

Definition raise {A} (e : exn) : Py A := fun w => (Raise e, w).

Definition bind {A B} (m : Py A) (k : A -> Py B) : Py B :=
  fun w =>
    match m w with
    | (Ok a, w') => k a w'
    | (Raise e, w') => (Raise e, w')
    end.

Declare Scope py_scope.
Delimit Scope py_scope with py.
Notation "x <- m ;; k" := (bind m (fun x => k))
  (at level 100, m at next level, right associativity) : py_scope.
Notation "m ;;; k" := (bind m (fun _ => k))
  (at level 100, right associativity) : py_scope.
Local Open Scope py_scope.

(** [for x in l: body x] *)
Fixpoint for_each {A} (l : list A) (body : A -> Py unit) : Py unit :=
  match l with
  | [] => ret tt
  | x :: l' => body x ;;; for_each l' body
  end.

(** A [for] loop that updates local variables [s]. *)
Fixpoint for_fold {A S} (l : list A) (body : A -> S -> Py S) (s : S) : Py S :=
  match l with
  | [] => ret s
  | x :: l' => s' <- body x s ;; for_fold l' body s'
  end.

(** [[f x for x in l]] *)
Fixpoint comprehension {A B} (l : list A) (f : A -> Py B) : Py (list B) :=
  match l with
  | [] => ret []
  | x :: l' => y <- f x ;; ys <- comprehension l' f ;; ret (y :: ys)
  end.

(** [l[i]] for an index that is not negative. *)
Definition subscript {A} (l : list A) (i : nat) : Py A :=
  match l !! i with
  | Some x => ret x
  | None => raise IndexError_subscript
  end.

Definition py_shuffle {A} (x : list A) : Py (list A) :=
  fun w =>
    let '(x', g') := shuffle x (w_rng w) in
    (Ok x', mkWorld g' (w_agents w) (w_log w)).

Definition py_choice {A} (seq : list A) : Py A :=
  fun w =>
    match choice seq (w_rng w) with
    | (Some x, g') => (Ok x, mkWorld g' (w_agents w) (w_log w))
    | (None, g') => (Raise IndexError_choice, mkWorld g' (w_agents w) (w_log w))
    end.

(** [uniform(0, 1) < prob]; each call is logged as a trial. *)
Definition bernoulli (prob : Q) : Py bool :=
  fun w =>
    let '(u, g') := uniform 0 1 (w_rng w) in
    (Ok (Qltb (F2Q u) prob), mkWorld g' (w_agents w) (EvTrial :: w_log w)).

(** *** Agents in the store *)

Abbreviation agent_ref := nat.

(** The agent a reference points to.  Python has no dangling reference;
    for an index outside the store the model answers a fresh agent, and
    updates through such an index change nothing. *)
Definition agent_at (agents : list StudentAgent) (a : agent_ref)
  : StudentAgent :=
  match agents !! a with
  | Some x => x
  | None => StudentAgent_init
  end.

Definition deref (w : world) (a : agent_ref) : StudentAgent :=
  agent_at (w_agents w) a.

(** [StudentAgent()] *)
Definition StudentAgent_new : Py agent_ref :=
  fun w =>
    (Ok (length (w_agents w)),
     mkWorld (w_rng w) (w_agents w ++ [StudentAgent_init]) (w_log w)).

Definition call_infect (a : agent_ref) : Py unit :=
  fun w =>
    (Ok tt, mkWorld (w_rng w) (<[a := infect (deref w a)]> (w_agents w)) (w_log w)).

Definition call_infectious (a : agent_ref) : Py bool :=
  fun w => (Ok (infectious (deref w a)), w).

Definition call_have_been_sick (a : agent_ref) : Py bool :=
  fun w => (Ok (have_been_sick (deref w a)), w).

Definition call_simulate_disease (a : agent_ref) (day : Z) : Py unit :=
  fun w =>
    match simulate_disease (deref w a) day (w_rng w) with
    | (Ok a', g') => (Ok tt, mkWorld g' (<[a := a']> (w_agents w)) (w_log w))
    | (Raise e, g') => (Raise e, mkWorld g' (w_agents w) (w_log w))
    end.

(** ** Helper classes and functions *)

Record Apartment : Type := mkApartment {
  occupants : list agent_ref;
  capacity : nat
}.

Definition Apartment_init (capacity : nat) : Apartment :=
  {| occupants := []; capacity := capacity |}.

Definition add_occupant (occupant : agent_ref) (self : Apartment) : Apartment :=
  {| occupants := occupants self ++ [occupant]; capacity := capacity self |}.

Definition is_full (self : Apartment) : bool :=
  length (occupants self) =? capacity self.

Inductive Days : Type :=
| MONDAY | TUESDAY | WEDNESDAY | THURSDAY | FRIDAY | SATURDAY | SUNDAY.

(** Iterating over the [Enum] gives its members in definition order. *)
Definition all_Days : list Days :=
  [MONDAY; TUESDAY; WEDNESDAY; THURSDAY; FRIDAY; SATURDAY; SUNDAY].

(** [day not in [Days.SATURDAY, Days.SUNDAY]] *)
Definition not_weekend (day : Days) : bool :=
  match day with SATURDAY | SUNDAY => false | _ => true end.

(** The body of the two loops of [randomly_infect]; [and] evaluates its
    second operand only when the first is true. *)
Definition infection_event (prob : Q) (agent1 agent2 : agent_ref) : Py unit :=
  i1 <- call_infectious agent1 ;;
  if i1 then
    i2 <- call_infectious agent2 ;;
    if negb i2 then
      b <- bernoulli prob ;;
      if b then call_infect agent2 else ret tt
    else ret tt
  else ret tt.

Definition randomly_infect (group : list agent_ref) (prob : Q) : Py unit :=
  for_each group (fun agent1 =>
    for_each group (fun agent2 => infection_event prob agent1 agent2)).

(** The elements of [l] at positions [c], [c + k], [c + 2 k], ...: [c]
    counts the elements still to skip before the next one is taken. *)
Fixpoint every_kth {A} (k c : nat) (l : list A) : list A :=
  match l with
  | [] => []
  | x :: l' =>
      match c with
      | 0 => x :: every_kth k (k - 1) l'
      | S c' => every_kth k c' l'
      end
  end.

(** [l[i::k]] for [i >= 0] and [k >= 0]; a zero step raises. *)
Definition slice_from_step {A} (l : list A) (i k : nat) : Py (list A) :=
  match k with
  | 0 => raise ValueError_slice_step
  | S _ => ret (every_kth k i l)
  end.

(** The slicing step reads the module-level name [K], not the parameter;
    [K_module] is the value that name is bound to when the function runs.
    [shuffle] reorders the caller's list in place, so the new order is
    returned next to the classrooms. *)
Definition assign_to_classrooms (K_module : nat)
    (students : list agent_ref) (number_of_classrooms : nat)
  : Py (list agent_ref * list (list agent_ref)) :=
  students' <- py_shuffle students ;;
  classrooms <- comprehension (seq 0 number_of_classrooms)
                  (fun i => slice_from_step students' i K_module) ;;
  ret (students', classrooms).

(** The binding of [K] in the notebook's parameter cell. *)
Definition K_notebook : nat := 100.

(** ** The main simulation loop *)

(** [np.sum] of a list of booleans. *)
Definition np_sum (l : list bool) : Z :=
  fold_right (fun (b : bool) acc => ((if b then 1 else 0) + acc)%Z) 0%Z l.

(** [np.diff]: [l[i+1] - l[i]]. *)
Fixpoint np_diff (l : list Z) : list Z :=
  match l with
  | x :: (y :: _) as l' => (y - x)%Z :: np_diff l'
  | _ => []
  end.

(** The apartments that are not full, as positions in [apartments]. *)
Definition apartments_with_space (apartments : list Apartment) : list nat :=
  map fst
    (List.filter (fun ja => negb (is_full (snd ja)))
       (combine (seq 0 (length apartments)) apartments)).

(** One turn of the allocation loop. *)
Definition allocate_student (student : agent_ref) (apartments : list Apartment)
  : Py (list Apartment) :=
  random_apartment <- py_choice (apartments_with_space apartments) ;;
  ret (alter (add_occupant student) random_apartment apartments).

Definition allocate_students (students : list agent_ref)
    (apartments : list Apartment) : Py (list Apartment) :=
  for_fold students allocate_student apartments.

(** [for i in range(10): students[i].infect()] *)
Definition infect_first_ten (students : list agent_ref) : Py unit :=
  for_each (seq 0 10) (fun i => s <- subscript students i ;; call_infect s).

(** Everything [run_simulation] does before the first day. *)
Definition setup (N M B : nat) : Py (list agent_ref * list Apartment) :=
  students <- comprehension (seq 0 N) (fun _ => StudentAgent_new) ;;
  let apartments := map (fun _ => Apartment_init B) (seq 0 M) in
  infect_first_ten students ;;;
  students <- py_shuffle students ;;
  apartments <- allocate_students students apartments ;;
  ret (students, apartments).

(** The local variables the day loop updates. *)
Record locals : Type := mkLocals {
  students : list agent_ref;
  infected_count : list Z;
  sick_count : list Z;
  day_number : Z
}.

(** Ghost: logs that the two counts of a day were appended. *)
Definition log_record : Py unit :=
  fun w => (Ok tt, mkWorld (w_rng w) (w_agents w) (EvRecord :: w_log w)).

(** The classroom rounds of a day, on weekdays only.  Returns the order
    [students] is left in. *)
Definition classroom_rounds (K_module K : nat) (q : Q) (day : Days)
    (students : list agent_ref) : Py (list agent_ref) :=
  if not_weekend day then
    sc <- assign_to_classrooms K_module students K ;;
    for_each (snd sc) (fun classroom => randomly_infect classroom q) ;;;
    ret (fst sc)
  else ret students.

(** The household rounds of a day. *)
Definition household_rounds (apartments : list Apartment) (p : Q) : Py unit :=
  for_each apartments (fun apartment => randomly_infect (occupants apartment) p).

(** The contagion rounds of one day: classrooms, then apartments. *)
Definition contagion_rounds (K_module : nat) (apartments : list Apartment)
    (K : nat) (p q : Q) (day : Days) (students : list agent_ref)
  : Py (list agent_ref) :=
  students <- classroom_rounds K_module K q day students ;;
  household_rounds apartments p ;;;
  ret students.

(** The second half of a day: append the two counts, advance the day
    counter and step every agent's disease. *)
Definition record_and_advance (l : locals) (students : list agent_ref)
  : Py locals :=
  inf <- comprehension students call_infectious ;;
  sick <- comprehension students call_have_been_sick ;;
  log_record ;;;
  let day_number := (day_number l + 1)%Z in
  for_each students (fun agent => call_simulate_disease agent day_number) ;;;
  ret {| students := students;
         infected_count := infected_count l ++ [np_sum inf];
         sick_count := sick_count l ++ [np_sum sick];
         day_number := day_number |}.

(** The body of the loop over the days of a week. *)
Definition simulate_day (K_module : nat) (apartments : list Apartment)
    (K : nat) (p q : Q) (day : Days) (l : locals) : Py locals :=
  students <- contagion_rounds K_module apartments K p q day (students l) ;;
  record_and_advance l students.

Definition simulate_week (K_module : nat) (apartments : list Apartment)
    (K : nat) (p q : Q) (l : locals) : Py locals :=
  for_fold all_Days (simulate_day K_module apartments K p q) l.

Record outputs : Type := mkOutputs {
  total_sick : Z;
  out_infected_count : list Z;
  infected_count_daily_change : list Z;
  out_sick_count : list Z;
  sick_count_daily_change : list Z
}.

(** What [run_simulation] returns, from the two series. *)
Definition summarize (l : locals) : Py outputs :=
  total <- match last (sick_count l) with
           | Some x => ret x
           | None => raise IndexError_subscript
           end ;;
  ret {| total_sick := total;
         out_infected_count := infected_count l;
         infected_count_daily_change := np_diff (infected_count l);
         out_sick_count := sick_count l;
         sick_count_daily_change := np_diff (sick_count l) |}.

(** [N], [M], [B] and [K] are counts, taken as natural numbers; [p] and
    [q] are the two probabilities.  [K_module] is the module-level [K]
    that [assign_to_classrooms] reads, which the parameter [K] does not
    rebind. *)
Definition run_simulation (K_module : nat) (N M B K : nat) (p q : Q)
  : Py outputs :=
  sa <- setup N M B ;;
  let l0 := {| students := fst sa; infected_count := [];
               sick_count := []; day_number := 0 |} in
  l <- for_fold (seq 0 12)
         (fun _week l => simulate_week K_module (snd sa) K p q l) l0 ;;
  summarize l.

(** A fresh interpreter: no agents yet, nothing logged. *)
Definition init_world (g : rng) : world :=
  {| w_rng := g; w_agents := []; w_log := [] |}.

(** A generator for the examples: draw [i] is [7 * i + 3]. *)
Definition demo_rng : rng := mkRng (fun i => N.of_nat (7 * i + 3)) 0.

(** ** Predicates used in the statements *)

(** How many members of [l] satisfy [f]. *)
Definition count_where {A} (f : A -> bool) (l : list A) : nat :=
  length (List.filter f l).

(** What a contagion round may change: flags that were unset may get set;
    the store keeps its size and every agent its state and end day. *)
Record contagion_rel (w w' : world) : Prop := mkContagionRel {
  cr_length : length (w_agents w') = length (w_agents w);
  cr_state : forall a, state (deref w' a) = state (deref w a);
  cr_end : forall a, infectious_end (deref w' a) = infectious_end (deref w a);
  cr_flag : forall a, _infected (deref w a) = true -> _infected (deref w' a) = true
}.

(** The allocation loop's invariant: every apartment has capacity [B] and
    at most [B] occupants, and the occupants are the students placed so
    far, each once. *)
Definition housing_inv (B : nat) (placed : list agent_ref)
    (apartments : list Apartment) : Prop :=
  Forall (fun a => capacity a = B /\ length (occupants a) <= B) apartments /\
  concat (map occupants apartments) ≡ₚ placed.

(** [a'] is what one call of [simulate_disease] on day [day] makes of
    [a]. *)
Definition disease_step (day : Z) (a a' : StudentAgent) : Prop :=
  exists g g', simulate_disease a day g = (Ok a', g').

(** What the second half of a day does to the store: it logs the record
    and steps each student once. *)
Record advanced (day : Z) (students : list agent_ref) (w w' : world)
  : Prop := mkAdvanced {
  adv_length : length (w_agents w') = length (w_agents w);
  adv_log : w_log w' = EvRecord :: w_log w;
  adv_wf : Forall agent_wf (w_agents w');
  adv_in : forall a, a ∈ students ->
                     disease_step day (deref w a) (deref w' a);
  adv_out : forall a, a ∉ students -> deref w' a = deref w a
}.

(** A weekday on which the slicing step is zero while there is a
    classroom to fill: the only day on which the loop body raises. *)
Definition day_raises (K_module K : nat) (day : Days) : bool :=
  not_weekend day && (K_module =? 0) && negb (K =? 0).

(** The two counts of a day, read off the store. *)
Definition infectious_now (w : world) (students : list agent_ref) : Z :=
  np_sum (map (fun a => infectious (deref w a)) students).

Definition sick_so_far (w : world) (students : list agent_ref) : Z :=
  np_sum (map (fun a => have_been_sick (deref w a)) students).

(** The store [run_simulation] starts the first day with: [N] healthy
    agents, the first ten of them flagged. *)
Definition seeded_store (N : nat) : list StudentAgent :=
  replicate (N `min` 10) (infect StudentAgent_init)
  ++ replicate (N - 10) StudentAgent_init.

Definition nondecreasing (l : list Z) : Prop :=
  forall i x y, l !! i = Some x -> l !! (S i) = Some y -> (x <= y)%Z.

(** The day loop's invariant on the two series. *)
Record metrics_inv (l : locals) (w : world) : Prop := mkMetricsInv {
  mi_nodup : NoDup (students l);
  mi_wf : Forall agent_wf (w_agents w);
  mi_below : Forall2 Z.le (infected_count l) (sick_count l);
  mi_mono : nondecreasing (sick_count l);
  mi_bound : Forall (fun x => (x <= sick_so_far w (students l))%Z) (sick_count l)
}.

(** What the days after the first keep: distinct students, well-formed
    agents, and the entries [pre] already in the cumulative series. *)
Definition days_inv (pre : list Z) (l : locals) (w : world) : Prop :=
  NoDup (students l) /\ Forall agent_wf (w_agents w) /\
  exists ext, sick_count l = pre ++ ext.

(** The only exception the day loop can raise, and when. *)
Definition slice_step_error (K_module : nat) (e : exn) : Prop :=
  e = ValueError_slice_step /\ K_module = 0.

(** The store after the first day: the ten seeds are INFECTIOUS, until
    one of the days 8 to 11, and everybody else is HEALTHY. *)
Definition after_day_one (N : nat) (w : world) : Prop :=
  length (w_agents w) = N /\ Forall agent_wf (w_agents w) /\
  forall a, a < N ->
    if decide (a < 10)
    then state (deref w a) = INFECTIOUS /\
         exists e, infectious_end (deref w a) = Some e /\ (8 <= e <= 11)%Z
    else state (deref w a) = HEALTHY.

Definition all_infectious (N : nat) (w : world) : Prop :=
  length (w_agents w) = N /\ Forall agent_wf (w_agents w) /\
  forall a, a < N -> state (deref w a) = INFECTIOUS.


(** ** Further predicates and helpers for the statements *)


(** What links the three fields of an agent: the end day is there
    exactly when the agent has left HEALTHY, and only a flagged agent
    leaves it. *)
Definition exposure_inv (a : StudentAgent) : Prop :=
  (state a = HEALTHY -> infectious_end a = None) /\
  (state a <> HEALTHY -> _infected a = true /\ infectious_end a <> None).

(** [add_occupant] called for each of [os] in turn. *)
Definition add_occupants (os : list agent_ref) (apt : Apartment) : Apartment :=
  foldl (fun a o => add_occupant o a) apt os.

Definition sumZ (l : list Z) : Z := fold_right Z.add 0%Z l.

(** What holds after [k] simulated days of a run over [N] agents. *)
Record series_inv (N k : nat) (l : locals) (w : world) : Prop := mkSeriesInv {
  si_students : students l ≡ₚ seq 0 N;
  si_wf : Forall agent_wf (w_agents w);
  si_store : length (w_agents w) = N;
  si_day : day_number l = Z.of_nat k;
  si_len_inf : length (infected_count l) = k;
  si_len_sick : length (sick_count l) = k;
  si_bounds : Forall2 (fun i s => (0 <= i <= s)%Z /\ (s <= Z.of_nat N)%Z)
                (infected_count l) (sick_count l);
  si_first : forall x, sick_count l !! 0 = Some x -> x = 0%Z;
  si_later : forall i x, sick_count l !! (S i) = Some x -> (10 <= x)%Z;
  si_flagged : forall a, a < 10 -> _infected (deref w a) = true;
  si_fresh : k = 0 -> forall a, state (deref w a) = HEALTHY;
  si_seeds : 1 <= k -> forall a, a < 10 -> have_been_sick (deref w a) = true
}.

(** The slicing step is zero while a classroom is asked for. *)
Definition zero_step (K_module K : nat) : Prop := K_module = 0 /\ K <> 0.

(** The number of immune agents among [students]. *)
Definition immune_now (w : world) (students : list agent_ref) : Z :=
  np_sum (map (fun a => State_eqb (state (deref w a)) IMMUNE) students).

(** The day loop's invariant on the recovered count, the cumulative
    count less the infectious count. *)
Record recovered_inv (l : locals) (w : world) : Prop := mkRecoveredInv {
  ri_nodup : NoDup (students l);
  ri_wf : Forall agent_wf (w_agents w);
  ri_len : length (infected_count l) = length (sick_count l);
  ri_mono : nondecreasing (zip_with Z.sub (sick_count l) (infected_count l));
  ri_bound : Forall (fun x => (x <= immune_now w (students l))%Z)
               (zip_with Z.sub (sick_count l) (infected_count l))
}.

(** A computation that leaves every agent as it is. *)
Definition keeps_agents {A} (m : Py A) : Prop :=
  forall w, w_agents (snd (m w)) = w_agents w.

(** Nobody but the ten seeds has caught anything, and every entry of
    the cumulative series after the first is 10. *)
Record only_seeds (l : locals) (w : world) : Prop := mkOnlySeeds {
  os_others : forall a, 10 <= a ->
                state (deref w a) = HEALTHY /\ _infected (deref w a) = false;
  os_series : forall i y, sick_count l !! (S i) = Some y -> y = 10%Z
}.

(** * Properties *)

(** ** The disease automaton *)

Section Automaton.

Lemma State_eqb_eq (s t : State) : State_eqb s t = true <-> s = t.
Proof. destruct s, t; simpl; split; congruence. Qed.

Lemma infect_state (a : StudentAgent) : state (infect a) = state a.
Proof. reflexivity. Qed.

Lemma infect_wf (a : StudentAgent) : agent_wf a -> agent_wf (infect a).
Proof. unfold agent_wf. simpl. auto. Qed.

Lemma init_wf : agent_wf StudentAgent_init.
Proof. unfold agent_wf. simpl. discriminate. Qed.

(** On a well-formed agent [simulate_disease] returns, keeps the agent
    well formed, moves the state by at most one place and leaves the
    pending flag alone. *)
Lemma simulate_disease_ok (a : StudentAgent) (day : Z) (g : rng) :
  agent_wf a ->
  exists a' g', simulate_disease a day g = (Ok a', g') /\
    agent_wf a' /\ step_ok (state a) (state a') /\
    _infected a' = _infected a.
Proof.
  intros Hwf. unfold simulate_disease, step_ok.
  destruct a as [s f e]. simpl in *.
  destruct s; simpl.
  - destruct f.
    + destruct (generate_infectious_time g) as [t g'].
      eexists _, _. split; [reflexivity|].
      simpl. repeat split; auto. unfold agent_wf. simpl. discriminate.
    + eexists _, _. split; [reflexivity|]. simpl. auto.
  - destruct e as [e|].
    + destruct (day =? e)%Z; eexists _, _; (split; [reflexivity|]);
        simpl; repeat split; auto.
      unfold agent_wf. simpl. discriminate.
    + exfalso. apply Hwf; reflexivity.
  - eexists _, _. split; [reflexivity|]. simpl. auto.
Qed.

Lemma simulate_disease_IMMUNE (a : StudentAgent) (day : Z) (g : rng) :
  state a = IMMUNE -> simulate_disease a day g = (Ok a, g).
Proof. intros H. unfold simulate_disease. rewrite H. reflexivity. Qed.

Lemma step_ok_value (s s' : State) :
  step_ok s s' -> State_value s <= State_value s'.
Proof.
  intros [-> | [[-> ->] | [-> ->]]]; simpl; lia.
Qed.

Lemma apply_op_ok (op : agent_op) (a : StudentAgent) (g : rng) :
  agent_wf a ->
  exists a' g', apply_op op a g = (Ok a', g') /\
    agent_wf a' /\ step_ok (state a) (state a').
Proof.
  intros Hwf. destruct op as [|day]; simpl.
  - eexists _, _. split; [reflexivity|]. split; [by apply infect_wf|].
    left. reflexivity.
  - destruct (simulate_disease_ok a day g Hwf) as (a' & g' & E & W & S & _).
    eauto.
Qed.

Lemma apply_ops_ok (ops : list agent_op) (a : StudentAgent) (g : rng) :
  agent_wf a ->
  exists a' g', apply_ops ops a g = (Ok a', g') /\
    agent_wf a' /\ State_value (state a) <= State_value (state a').
Proof.
  revert a g. induction ops as [|op ops IH]; intros a g Hwf; simpl.
  - eauto.
  - destruct (apply_op_ok op a g Hwf) as (a1 & g1 & E & W & S).
    rewrite E.
    destruct (IH a1 g1 W) as (a2 & g2 & E2 & W2 & S2).
    exists a2, g2. split; [done|]. split; [done|].
    apply step_ok_value in S. lia.
Qed.

End Automaton.

(** C6.  Whatever calls of [infect] and [simulate_disease] an agent has
    received since its creation ([ops1]) and receives afterwards
    ([ops2]): every call returns; one call moves the state by at most one
    place along HEALTHY, INFECTIOUS, IMMUNE and never backward; the state
    after [ops2] is not before the state after [ops1]; and once the agent
    is IMMUNE it stays IMMUNE, [have_been_sick] answers true and
    [simulate_disease] changes nothing. *)
Theorem disease_state_monotone :
  forall (ops1 ops2 : list agent_op) (g : rng),
  exists a1 g1 a2 g2,
    apply_ops ops1 StudentAgent_init g = (Ok a1, g1) /\
    apply_ops ops2 a1 g1 = (Ok a2, g2) /\
    (forall op g', exists a' g'',
        apply_op op a1 g' = (Ok a', g'') /\ step_ok (state a1) (state a')) /\
    State_value (state a1) <= State_value (state a2) /\
    (state a1 = IMMUNE ->
       state a2 = IMMUNE /\ have_been_sick a2 = true /\
       forall day g', simulate_disease a2 day g' = (Ok a2, g')).
Proof.
  intros ops1 ops2 g.
  destruct (apply_ops_ok ops1 _ g init_wf) as (a1 & g1 & E1 & W1 & _).
  destruct (apply_ops_ok ops2 a1 g1 W1) as (a2 & g2 & E2 & W2 & S2).
  exists a1, g1, a2, g2. repeat split; try done.
  - intros op g'. destruct (apply_op_ok op a1 g' W1) as (a' & g'' & E & _ & S).
    eauto.
  - destruct (state a1), (state a2); simpl in *; try done; lia.
  - unfold have_been_sick.
    destruct (state a1), (state a2); simpl in *; try done; lia.
  - intros day g'. apply simulate_disease_IMMUNE.
    destruct (state a1), (state a2); simpl in *; try done; lia.
Qed.

(** ** Reasoning about [Py] computations *)

Section PyMonad.

Context {A B : Type}.

Lemma bind_Ok (m : Py A) (k : A -> Py B) (w w1 : world) (a : A) :
  m w = (Ok a, w1) -> bind m k w = k a w1.
Proof. intros H. unfold bind. by rewrite H. Qed.

Lemma bind_Raise (m : Py A) (k : A -> Py B) (w w1 : world) (e : exn) :
  m w = (Raise e, w1) -> bind m k w = (Raise e, w1).
Proof. intros H. unfold bind. by rewrite H. Qed.

Lemma bind_Ok_inv (m : Py A) (k : A -> Py B) (w w' : world) (b : B) :
  bind m k w = (Ok b, w') ->
  exists a w1, m w = (Ok a, w1) /\ k a w1 = (Ok b, w').
Proof.
  unfold bind. destruct (m w) as [[a|e] w1]; intros H.
  - eauto.
  - discriminate.
Qed.

Lemma bind_assoc {C} (m : Py A) (k : A -> Py B) (k' : B -> Py C) (w : world) :
  bind (bind m k) k' w = bind m (fun x => bind (k x) k') w.
Proof. unfold bind. by destruct (m w) as [[a|e] w1]. Qed.

Lemma bind_ret_l (a : A) (k : A -> Py B) (w : world) :
  bind (ret a) k w = k a w.
Proof. reflexivity. Qed.

End PyMonad.

Section Loops.

Context {A : Type}.

(** A loop whose body always returns and keeps [I], returns and keeps [I]. *)
Lemma for_each_total (I : world -> Prop) (l : list A) (body : A -> Py unit) :
  (forall x w, x ∈ l -> I w -> exists w', body x w = (Ok tt, w') /\ I w') ->
  forall w, I w -> exists w', for_each l body w = (Ok tt, w') /\ I w'.
Proof.
  induction l as [|x l IH]; intros Hbody w Hw; simpl.
  - by exists w.
  - destruct (Hbody x w) as (w1 & E & Hw1); [by left|done|].
    rewrite (bind_Ok _ _ _ _ _ E).
    apply IH; [|done]. intros y w2 Hy. apply Hbody. by right.
Qed.

(** The same, with a property [V x] established by the turn for [x] and
    kept by the later turns. *)
Lemma for_each_visited (I : world -> Prop) (V : A -> world -> Prop)
    (l : list A) (body : A -> Py unit) :
  (forall x w, x ∈ l -> I w ->
     exists w', body x w = (Ok tt, w') /\ I w' /\ V x w' /\
       forall y, V y w -> V y w') ->
  forall w, I w ->
  exists w', for_each l body w = (Ok tt, w') /\ I w' /\
    (forall x, x ∈ l -> V x w') /\ (forall y, V y w -> V y w').
Proof.
  induction l as [|x l IH]; intros Hbody w Hw; simpl.
  - exists w. repeat split; try done. intros x Hx. by apply elem_of_nil in Hx.
  - destruct (Hbody x w) as (w1 & E & Hw1 & Vx & Keep); [by left|done|].
    rewrite (bind_Ok _ _ _ _ _ E).
    destruct (IH (fun y w2 Hy => Hbody y w2 (list_elem_of_further _ _ _ Hy)) w1 Hw1)
      as (w' & E' & Hw' & Vl & Keep').
    exists w'. repeat split; try done.
    + intros y [->|Hy]%elem_of_cons; auto.
    + auto.
Qed.

Context {S : Type}.

Lemma for_fold_total (I : S -> world -> Prop) (l : list A)
    (body : A -> S -> Py S) :
  (forall x s w, x ∈ l -> I s w ->
     exists s' w', body x s w = (Ok s', w') /\ I s' w') ->
  forall s w, I s w ->
  exists s' w', for_fold l body s w = (Ok s', w') /\ I s' w'.
Proof.
  induction l as [|x l IH]; intros Hbody s w Hw; simpl.
  - by exists s, w.
  - destruct (Hbody x s w) as (s1 & w1 & E & Hw1); [by left|done|].
    rewrite (bind_Ok _ _ _ _ _ E).
    apply IH; [|done]. intros y s2 w2 Hy. apply Hbody. by right.
Qed.

(** Partial correctness: if the loop returns, [I] holds at the end. *)
Lemma for_fold_partial (I : S -> world -> Prop) (l : list A)
    (body : A -> S -> Py S) :
  (forall x s w s' w', x ∈ l -> I s w ->
     body x s w = (Ok s', w') -> I s' w') ->
  forall s w s' w', I s w ->
  for_fold l body s w = (Ok s', w') -> I s' w'.
Proof.
  induction l as [|x l IH]; intros Hbody s w s' w' Hw; simpl.
  - unfold ret. intros [= <- <-]. done.
  - intros (s1 & w1 & E1 & E2)%bind_Ok_inv.
    eapply IH; [|eapply Hbody; [by left|exact Hw|exact E1]|exact E2].
    intros y s2 w2 s3 w3 Hy. apply Hbody. by right.
Qed.

End Loops.

(** ** The contagion step *)

Section Contagion.

Lemma agent_at_insert (ags : list StudentAgent) (a b : agent_ref)
    (x : StudentAgent) :
  agent_at (<[a := x]> ags) b
  = if decide (a = b /\ a < length ags) then x else agent_at ags b.
Proof.
  unfold agent_at. destruct (decide (a = b)) as [->|Hne].
  - destruct (decide (b < length ags)) as [Hlt|Hge].
    + rewrite list_lookup_insert_eq by done. by rewrite decide_True.
    + rewrite list_insert_ge by lia.
      rewrite decide_False; [done|]. intros [_ ?]. done.
  - rewrite list_lookup_insert_ne by done.
    rewrite decide_False; [done|]. intros [? _]. done.
Qed.

(** Replacing an agent by one that agrees with it on [f] changes [f]
    nowhere. *)
Lemma agent_at_insert_proj {T} (f : StudentAgent -> T)
    (ags : list StudentAgent) (a b : agent_ref) (x : StudentAgent) :
  f x = f (agent_at ags a) ->
  f (agent_at (<[a := x]> ags) b) = f (agent_at ags b).
Proof.
  intros H. rewrite agent_at_insert. case_decide as Hd; [|done].
  destruct Hd as [-> _]. done.
Qed.

Lemma contagion_rel_refl (w : world) : contagion_rel w w.
Proof. by constructor. Qed.

Lemma contagion_rel_trans (w1 w2 w3 : world) :
  contagion_rel w1 w2 -> contagion_rel w2 w3 -> contagion_rel w1 w3.
Proof.
  intros [L1 S1 E1 F1] [L2 S2 E2 F2]. constructor.
  - congruence.
  - intros a. by rewrite S2.
  - intros a. by rewrite E2.
  - auto.
Qed.

Lemma contagion_rel_infectious (w w' : world) (a : agent_ref) :
  contagion_rel w w' -> infectious (deref w' a) = infectious (deref w a).
Proof. intros H. unfold infectious. by rewrite (cr_state _ _ H). Qed.

Lemma count_where_ext {A} (f g : A -> bool) (l : list A) :
  (forall x, f x = g x) -> count_where f l = count_where g l.
Proof.
  intros H. unfold count_where. induction l as [|x l IH]; simpl; [done|].
  rewrite H. destruct (g x); simpl; congruence.
Qed.

Lemma count_where_cons {A} (f : A -> bool) (x : A) (l : list A) :
  count_where f (x :: l) = (if f x then 1 else 0) + count_where f l.
Proof. unfold count_where. simpl. by destruct (f x). Qed.

Lemma replicate_middle {A} (n : nat) (x : A) (l : list A) :
  replicate n x ++ x :: l = x :: replicate n x ++ l.
Proof. induction n as [|n IH]; simpl; [done|]. by rewrite IH. Qed.

Lemma bernoulli_spec (prob : Q) (w : world) :
  exists b g',
    bernoulli prob w
    = (Ok b, mkWorld g' (w_agents w) (EvTrial :: w_log w)).
Proof.
  unfold bernoulli. destruct (uniform 0 1 (w_rng w)) as [u g']. eauto.
Qed.

(** One pair: a trial is drawn exactly when [agent1] is infectious and
    [agent2] is not, and only [agent2]'s flag can change. *)
Lemma infection_event_spec (prob : Q) (a1 a2 : agent_ref) (w : world) :
  exists w', infection_event prob a1 a2 w = (Ok tt, w') /\
    contagion_rel w w' /\
    (forall b, _infected (deref w' b) <> _infected (deref w b) ->
       b = a2 /\ infectious (deref w a1) = true /\
       infectious (deref w a2) = false) /\
    w_log w'
    = (if infectious (deref w a1) && negb (infectious (deref w a2))
       then [EvTrial] else []) ++ w_log w.
Proof.
  unfold infection_event.
  rewrite (bind_Ok _ _ w w (infectious (deref w a1))) by reflexivity.
  destruct (infectious (deref w a1)) eqn:I1; cbn [andb].
  2:{ exists w. unfold ret. split; [done|].
      split; [apply contagion_rel_refl|]. split; [|done].
      intros b Hb. by destruct Hb. }
  rewrite (bind_Ok _ _ w w (infectious (deref w a2))) by reflexivity.
  destruct (infectious (deref w a2)) eqn:I2; cbn [negb].
  { exists w. unfold ret. split; [done|].
    split; [apply contagion_rel_refl|]. split; [|done].
    intros b Hb. by destruct Hb. }
  destruct (bernoulli_spec prob w) as (b & g' & Eb).
  rewrite (bind_Ok _ _ _ _ _ Eb).
  destruct b.
  - unfold call_infect, deref. cbn [w_agents w_rng w_log].
    eexists. split; [reflexivity|].
    split; [|split]; cbn [w_agents w_rng w_log].
    + constructor; unfold deref; cbn [w_agents].
      * by rewrite length_insert.
      * intros a. by apply agent_at_insert_proj.
      * intros a. by apply agent_at_insert_proj.
      * intros a Ha. rewrite agent_at_insert. case_decide; [done|done].
    + intros b. rewrite agent_at_insert.
      case_decide as Hd; [|done]. destruct Hd as [-> _]. done.
    + done.
  - unfold ret. eexists. split; [reflexivity|].
    split; [|split]; cbn [w_agents w_rng w_log].
    + by constructor.
    + intros b Hb. by destruct Hb.
    + done.
Qed.

(** The inner loop, for one [agent1]. *)
Lemma inner_loop_spec (prob : Q) (a1 : agent_ref) (l2 : list agent_ref)
    (w : world) :
  exists w', for_each l2 (infection_event prob a1) w = (Ok tt, w') /\
    contagion_rel w w' /\
    (forall b, _infected (deref w' b) <> _infected (deref w b) ->
       b ∈ l2 /\ infectious (deref w a1) = true /\
       infectious (deref w b) = false) /\
    w_log w'
    = replicate
        (if infectious (deref w a1)
         then count_where (fun b => negb (infectious (deref w b))) l2
         else 0) EvTrial ++ w_log w.
Proof.
  revert w. induction l2 as [|a2 l2 IH]; intros w; simpl.
  - exists w. unfold ret. split; [done|]. split; [apply contagion_rel_refl|].
    split; [intros b Hb; by destruct Hb|]. by destruct (infectious _).
  - destruct (infection_event_spec prob a1 a2 w) as (w1 & E1 & R1 & F1 & L1).
    rewrite (bind_Ok _ _ _ _ _ E1).
    destruct (IH w1) as (w' & E' & R' & F' & L').
    exists w'. split; [done|]. split; [by eapply contagion_rel_trans|].
    split.
    + intros b Hb.
      destruct (bool_decide (_infected (deref w1 b) = _infected (deref w b)))
        eqn:Hd.
      * apply bool_decide_eq_true in Hd. rewrite <- Hd in Hb.
        destruct (F' b Hb) as (Hin & Ha & Hb').
        rewrite !(contagion_rel_infectious _ _ _ R1) in *.
        split; [by right|done].
      * apply bool_decide_eq_false in Hd.
        destruct (F1 b Hd) as (-> & Ha & Hb'). split; [by left|done].
    + rewrite L', L1. rewrite (contagion_rel_infectious _ _ _ R1).
      rewrite (count_where_ext _ (fun b => negb (infectious (deref w b))));
        [|intros x; by rewrite (contagion_rel_infectious _ _ _ R1)].
      rewrite count_where_cons.
      destruct (infectious (deref w a1)); simpl; [|done].
      destruct (infectious (deref w a2)); simpl; [done|].
      apply replicate_middle.
Qed.

(** The outer loop over a prefix [l1] of the group. *)
Lemma outer_loop_spec (prob : Q) (group l1 : list agent_ref) (w : world) :
  exists w',
    for_each l1 (fun agent1 => for_each group (infection_event prob agent1)) w
    = (Ok tt, w') /\
    contagion_rel w w' /\
    (forall b, _infected (deref w' b) <> _infected (deref w b) ->
       b ∈ group /\ infectious (deref w b) = false /\
       exists a, a ∈ l1 /\ infectious (deref w a) = true) /\
    w_log w'
    = replicate
        (count_where (fun a => infectious (deref w a)) l1
         * count_where (fun b => negb (infectious (deref w b))) group)
        EvTrial ++ w_log w.
Proof.
  revert w. induction l1 as [|a1 l1 IH]; intros w; simpl.
  - exists w. unfold ret. split; [done|]. split; [apply contagion_rel_refl|].
    split; [intros b Hb; by destruct Hb|done].
  - destruct (inner_loop_spec prob a1 group w) as (w1 & E1 & R1 & F1 & L1).
    rewrite (bind_Ok _ _ _ _ _ E1).
    destruct (IH w1) as (w' & E' & R' & F' & L').
    exists w'. split; [done|]. split; [by eapply contagion_rel_trans|].
    split.
    + intros b Hb.
      destruct (bool_decide (_infected (deref w1 b) = _infected (deref w b)))
        eqn:Hd.
      * apply bool_decide_eq_true in Hd. rewrite <- Hd in Hb.
        destruct (F' b Hb) as (Hin & Hb' & a & Ha & Hinf).
        rewrite !(contagion_rel_infectious _ _ _ R1) in *.
        split; [done|]. split; [done|]. exists a. split; [by right|done].
      * apply bool_decide_eq_false in Hd.
        destruct (F1 b Hd) as (Hin & Ha & Hb').
        split; [done|]. split; [done|]. exists a1. split; [by left|done].
    + rewrite L', L1.
      rewrite (count_where_ext (fun a => infectious (deref w1 a))
                 (fun a => infectious (deref w a)));
        [|intros x; by rewrite (contagion_rel_infectious _ _ _ R1)].
      rewrite (count_where_ext (fun b => negb (infectious (deref w1 b)))
                 (fun b => negb (infectious (deref w b))));
        [|intros x; by rewrite (contagion_rel_infectious _ _ _ R1)].
      rewrite count_where_cons, app_assoc, <- replicate_add. f_equal. f_equal.
      destruct (infectious (deref w a1)); simpl; lia.
Qed.

End Contagion.

(** C8.  A call of [randomly_infect] returns and changes no agent's
    disease state.  An agent whose pending flag the call changes is a
    member of the group that was not infectious at entry, and the group
    has a member that was infectious at entry.  The number of trials
    drawn is the number of members infectious at entry times the number
    of members not infectious at entry: members marked during the call
    add no trial. *)
Theorem randomly_infect_sources_at_entry :
  forall (group : list agent_ref) (prob : Q) (w : world),
  exists w', randomly_infect group prob w = (Ok tt, w') /\
    (forall a, state (deref w' a) = state (deref w a)) /\
    (forall b, _infected (deref w' b) <> _infected (deref w b) ->
       b ∈ group /\ infectious (deref w b) = false /\
       exists a, a ∈ group /\ infectious (deref w a) = true) /\
    w_log w'
    = replicate
        (count_where (fun a => infectious (deref w a)) group
         * count_where (fun b => negb (infectious (deref w b))) group)
        EvTrial ++ w_log w.
Proof.
  intros group prob w. unfold randomly_infect.
  destruct (outer_loop_spec prob group group w) as (w' & E & R & F & L).
  exists w'. split; [exact E|]. split; [apply (cr_state _ _ R)|]. by split.
Qed.

(** ** Creating and seeding the agents *)

Section Seeding.

Lemma agent_at_ext (ags ags' : list StudentAgent) :
  length ags = length ags' ->
  (forall b, b < length ags -> agent_at ags b = agent_at ags' b) ->
  ags = ags'.
Proof.
  intros Hlen H. apply list_eq. intros i.
  destruct (decide (i < length ags)) as [Hlt|Hge].
  - specialize (H i Hlt). unfold agent_at in H.
    destruct (lookup_lt_is_Some_2 ags i Hlt) as [x Hx].
    destruct (lookup_lt_is_Some_2 ags' i) as [y Hy]; [lia|].
    rewrite Hx, Hy in *. simpl in H. congruence.
  - rewrite !lookup_ge_None_2 by lia. done.
Qed.

Lemma agent_at_lt (ags : list StudentAgent) (b : agent_ref) (x : StudentAgent) :
  ags !! b = Some x -> agent_at ags b = x.
Proof. intros H. unfold agent_at. by rewrite H. Qed.

Lemma agent_at_ge (ags : list StudentAgent) (b : agent_ref) :
  length ags <= b -> agent_at ags b = StudentAgent_init.
Proof. intros H. unfold agent_at. by rewrite lookup_ge_None_2. Qed.

(** [[StudentAgent() for _ in l]] appends one fresh agent per element and
    returns their references in order. *)
Lemma create_students {T} (l : list T) (w : world) :
  comprehension l (fun _ => StudentAgent_new) w
  = (Ok (seq (length (w_agents w)) (length l)),
     mkWorld (w_rng w)
       (w_agents w ++ replicate (length l) StudentAgent_init) (w_log w)).
Proof.
  revert w. induction l as [|x l IH]; intros w; simpl.
  - unfold ret. rewrite app_nil_r. by destruct w.
  - rewrite (bind_Ok StudentAgent_new _ w _ _ eq_refl).
    rewrite (bind_Ok _ _ _ _ _ (IH _)). unfold ret. simpl.
    rewrite length_app, Nat.add_1_r, <- app_assoc. done.
Qed.

(** The seeding loop from index [s] on, over [N] agents: it flags the
    agents it reaches and raises at the first index that is not there. *)
Lemma seed_range (N k s : nat) (w : world) :
  length (w_agents w) = N -> s <= N ->
  exists w',
    for_each (seq s k)
      (fun i => x <- subscript (seq 0 N) i ;; call_infect x) w
    = (if decide (s + k <= N) then Ok tt else Raise IndexError_subscript, w') /\
    w_rng w' = w_rng w /\ w_log w' = w_log w /\
    length (w_agents w') = N /\
    forall b, agent_at (w_agents w') b
              = if decide (s <= b < s + k /\ b < N)
                then infect (agent_at (w_agents w) b)
                else agent_at (w_agents w) b.
Proof.
  revert s w. induction k as [|k IH]; intros s w Hlen Hs; simpl.
  - exists w. rewrite decide_True by lia. unfold ret.
    repeat split; try done. intros b. rewrite decide_False; [done|lia].
  - destruct (decide (s < N)) as [Hlt|Hge].
    + unfold subscript at 1. rewrite lookup_seq_lt by done. simpl.
      set (w1 := mkWorld (w_rng w)
                   (<[s := infect (deref w s)]> (w_agents w)) (w_log w)).
      rewrite (bind_Ok _ _ w w1 tt) by reflexivity.
      destruct (IH (S s) w1) as (w' & E & Hr & Hl & Hn & Hag);
        [simpl; by rewrite length_insert|lia|].
      rewrite E. subst w1.
      exists w'. split.
      { destruct (decide (S s + k <= N)), (decide (s + S k <= N)); done || lia. }
      simpl in *. repeat split; try done.
      intros b. rewrite Hag, agent_at_insert. unfold deref.
      repeat case_decide; try done; try lia.
      all: destruct_and?; subst; try lia; done.
    + assert (s = N) as -> by lia.
      unfold subscript at 1. rewrite lookup_seq_ge by done.
      rewrite (bind_Raise _ _ w w IndexError_subscript) by reflexivity.
      exists w. rewrite decide_False by lia.
      repeat split; try done. intros b. rewrite decide_False; [done|lia].
Qed.

(** The store after seeding the first [min N 10] of [N] fresh agents. *)
Lemma seeded_store_eq (N : nat) (ags : list StudentAgent) :
  length ags = N ->
  (forall b, agent_at ags b
             = if decide (0 <= b < 0 + 10 /\ b < N)
               then infect (agent_at (replicate N StudentAgent_init) b)
               else agent_at (replicate N StudentAgent_init) b) ->
  ags = replicate (N `min` 10) (infect StudentAgent_init)
        ++ replicate (N - 10) StudentAgent_init.
Proof.
  intros Hlen H. apply agent_at_ext.
  - rewrite length_app, !length_replicate. lia.
  - intros b Hb. rewrite H. case_decide as Hd.
    + rewrite (agent_at_lt (replicate N _) b StudentAgent_init)
        by (apply lookup_replicate_2; lia).
      symmetry. apply agent_at_lt. rewrite lookup_app_l
        by (rewrite length_replicate; lia).
      apply lookup_replicate_2. lia.
    + rewrite (agent_at_lt (replicate N _) b StudentAgent_init)
        by (apply lookup_replicate_2; lia).
      symmetry. apply agent_at_lt. rewrite lookup_app_r
        by (rewrite length_replicate; lia).
      apply lookup_replicate_2. rewrite length_replicate. lia.
Qed.

(** Seeding [N] fresh agents in a fresh interpreter. *)
Lemma infect_first_ten_fresh (N : nat) (g : rng) :
  infect_first_ten (seq 0 N) (mkWorld g (replicate N StudentAgent_init) [])
  = (if decide (10 <= N) then Ok tt else Raise IndexError_subscript,
     mkWorld g
       (replicate (N `min` 10) (infect StudentAgent_init)
        ++ replicate (N - 10) StudentAgent_init) []).
Proof.
  set (w0 := mkWorld g (replicate N StudentAgent_init) []).
  destruct (seed_range N 10 0 w0) as (w' & E & Hr & Hl & Hn & Hag);
    [apply length_replicate|lia|].
  unfold infect_first_ten. rewrite E.
  destruct w' as [g' ags' lg']. simpl in *. subst g' lg'.
  f_equal. f_equal. by apply seeded_store_eq.
Qed.

Lemma setup_unfold (N M B : nat) (g : rng) :
  setup N M B (init_world g)
  = (infect_first_ten (seq 0 N) ;;;
     students <- py_shuffle (seq 0 N) ;;
     apartments <- allocate_students students
                     (map (fun _ => Apartment_init B) (seq 0 M)) ;;
     ret (students, apartments))
      (mkWorld g (replicate N StudentAgent_init) []).
Proof.
  unfold setup. rewrite (bind_Ok _ _ _ _ _ (create_students _ _)).
  by rewrite length_seq.
Qed.

Lemma setup_seed_fail (N M B : nat) (g : rng) :
  N < 10 ->
  setup N M B (init_world g)
  = (Raise IndexError_subscript,
     mkWorld g (replicate N (infect StudentAgent_init)) []).
Proof.
  intros HN. rewrite setup_unfold.
  rewrite (bind_Raise _ _ _ _ _
             (eq_trans (infect_first_ten_fresh N g)
                ltac:(rewrite decide_False by lia; reflexivity))).
  replace (N `min` 10) with N by lia. replace (N - 10) with 0 by lia.
  simpl. by rewrite app_nil_r.
Qed.

End Seeding.

(** ** The random primitives *)

Section RandomFacts.

Lemma randbelow_lt (n : nat) (g : rng) : 0 < n -> fst (randbelow n g) < n.
Proof.
  intros Hn. unfold randbelow, getrand. simpl.
  pose proof (N.mod_lt (tape g (pos g)) (N.of_nat n)). lia.
Qed.

Lemma swap_Permutation {A} (x : list A) (i j : nat) : swap x i j ≡ₚ x.
Proof.
  unfold swap. destruct (x !! i) as [xi|] eqn:Hi; [|done].
  destruct (x !! j) as [xj|] eqn:Hj; [|done].
  by apply Permutation_insert_swap.
Qed.

Lemma shuffle_loop_Permutation {A} (i : nat) (x : list A) (g : rng) :
  fst (shuffle_loop i x g) ≡ₚ x.
Proof.
  revert x g. induction i as [|i IH]; intros x g; [done|].
  cbn [shuffle_loop]. destruct (randbelow (S (S i)) g) as [j g'].
  rewrite IH. apply swap_Permutation.
Qed.

Lemma shuffle_Permutation {A} (x : list A) (g : rng) :
  fst (shuffle x g) ≡ₚ x.
Proof. apply shuffle_loop_Permutation. Qed.

(** [shuffle] returns a permutation and touches only the generator. *)
Lemma py_shuffle_spec {A} (x : list A) (w : world) :
  exists x' g',
    py_shuffle x w = (Ok x', mkWorld g' (w_agents w) (w_log w)) /\ x' ≡ₚ x.
Proof.
  unfold py_shuffle. pose proof (shuffle_Permutation x (w_rng w)) as H.
  destruct (shuffle x (w_rng w)) as [x' g']. eauto.
Qed.

Lemma choice_spec {A} (l : list A) (g : rng) :
  l <> [] -> exists x g', choice l g = (Some x, g') /\ x ∈ l.
Proof.
  intros Hne. destruct l as [|y l]; [done|]. unfold choice.
  pose proof (randbelow_lt (length (y :: l)) g) as Hlt.
  destruct (randbelow (length (y :: l)) g) as [i g']. simpl in Hlt.
  destruct (lookup_lt_is_Some_2 (y :: l) i) as [x Hx]; [simpl; lia|].
  exists x, g'. split; [by rewrite Hx|]. by eapply list_elem_of_lookup_2.
Qed.

End RandomFacts.

(** ** The housing allocation *)

Section Housing.

Lemma with_space_aux (s : nat) (l : list Apartment) (j : nat) :
  j ∈ map fst (List.filter (fun ja => negb (is_full (snd ja)))
                 (combine (seq s (length l)) l))
  <-> exists a, s <= j /\ l !! (j - s) = Some a /\ is_full a = false.
Proof.
  revert s. induction l as [|a l IH]; intros s; simpl.
  - split; [intros H; by apply elem_of_nil in H|]. by intros (a & _ & H & _).
  - destruct (is_full a) eqn:Hf; simpl.
    + rewrite IH. split.
      * intros (b & Hs & Hb & Hfb). exists b. split; [lia|]. split; [|done].
        replace (j - s) with (S (j - S s)) by lia. done.
      * intros (b & Hs & Hb & Hfb).
        destruct (decide (j = s)) as [->|Hne].
        { rewrite Nat.sub_diag in Hb. simpl in Hb. congruence. }
        exists b. split; [lia|]. split; [|done].
        replace (j - s) with (S (j - S s)) in Hb by lia. done.
    + rewrite elem_of_cons, IH. split.
      * intros [->|(b & Hs & Hb & Hfb)].
        { exists a. rewrite Nat.sub_diag. done. }
        exists b. split; [lia|]. split; [|done].
        replace (j - s) with (S (j - S s)) by lia. done.
      * intros (b & Hs & Hb & Hfb).
        destruct (decide (j = s)) as [->|Hne]; [by left|right].
        exists b. split; [lia|]. split; [|done].
        replace (j - s) with (S (j - S s)) in Hb by lia. done.
Qed.

(** [apartments_with_space] lists exactly the apartments that are not
    full. *)
Lemma elem_of_apartments_with_space (apts : list Apartment) (j : nat) :
  j ∈ apartments_with_space apts
  <-> exists a, apts !! j = Some a /\ is_full a = false.
Proof.
  unfold apartments_with_space. rewrite with_space_aux.
  rewrite Nat.sub_0_r. split.
  - intros (a & _ & H1 & H2). eauto.
  - intros (a & H1 & H2). exists a. split; [lia|done].
Qed.

Lemma occupants_le (B : nat) (apts : list Apartment) :
  Forall (fun a => capacity a = B /\ length (occupants a) <= B) apts ->
  length (concat (map occupants apts)) <= length apts * B.
Proof.
  induction 1 as [|a apts [_ Ha] _ IH]; simpl; [done|].
  rewrite length_app. lia.
Qed.

Lemma housing_inv_bound (B : nat) (placed : list agent_ref)
    (apts : list Apartment) :
  housing_inv B placed apts -> length placed <= length apts * B.
Proof.
  intros [HF HP]. rewrite <- HP. by apply occupants_le.
Qed.

(** When no apartment has space, all [M * B] places are taken. *)
Lemma housing_full (B : nat) (placed : list agent_ref)
    (apts : list Apartment) :
  housing_inv B placed apts -> apartments_with_space apts = [] ->
  length placed = length apts * B.
Proof.
  intros [HF HP] Hnone. rewrite <- HP.
  assert (Forall (fun a => is_full a = true) apts) as Hfull.
  { apply Forall_lookup. intros j a Hj.
    destruct (is_full a) eqn:Hf; [done|].
    assert (j ∈ apartments_with_space apts) as Hin
      by (apply elem_of_apartments_with_space; eauto).
    rewrite Hnone in Hin. by apply elem_of_nil in Hin. }
  clear HP Hnone. induction HF as [|a apts [Hc _] _ IH]; simpl; [done|].
  apply Forall_cons in Hfull as [Hfa Hfull].
  rewrite length_app, (IH Hfull). unfold is_full in Hfa.
  apply Nat.eqb_eq in Hfa. lia.
Qed.

Lemma concat_alter_occupants (student : agent_ref) (apts : list Apartment)
    (j : nat) (a : Apartment) :
  apts !! j = Some a ->
  concat (map occupants (alter (add_occupant student) j apts))
  ≡ₚ student :: concat (map occupants apts).
Proof.
  revert j. induction apts as [|a0 apts IH]; intros j Hj; [done|].
  destruct j as [|j]; simpl in *.
  - rewrite <- app_assoc. simpl. by rewrite <- Permutation_middle.
  - rewrite (IH j Hj). by rewrite <- Permutation_middle.
Qed.

(** One turn of the loop when some apartment has space. *)
Lemma allocate_student_spec (B : nat) (placed : list agent_ref)
    (apts : list Apartment) (student : agent_ref) (w : world) :
  housing_inv B placed apts -> apartments_with_space apts <> [] ->
  exists apts' g',
    allocate_student student apts w
    = (Ok apts', mkWorld g' (w_agents w) (w_log w)) /\
    housing_inv B (student :: placed) apts' /\
    length apts' = length apts.
Proof.
  intros [HF HP] Hne. unfold allocate_student, py_choice, bind.
  destruct (choice_spec _ (w_rng w) Hne) as (j & g' & E & Hin).
  rewrite E. unfold ret. eexists _, g'. split; [reflexivity|].
  apply elem_of_apartments_with_space in Hin as (a & Hj & Hfa).
  split; [split|].
  - apply Forall_lookup. intros i b Hb.
    rewrite list_lookup_alter in Hb. case_decide as Hd.
    + subst i. rewrite Hj in Hb. simpl in Hb. injection Hb as <-.
      destruct (proj1 (Forall_lookup _ _) HF j a Hj) as [Hc Hl].
      unfold is_full in Hfa. apply Nat.eqb_neq in Hfa.
      simpl. rewrite length_app. simpl. split; [done|lia].
    + by apply (proj1 (Forall_lookup _ _) HF i b).
  - rewrite (concat_alter_occupants _ _ _ _ Hj). by rewrite HP.
  - apply length_alter.
Qed.

Lemma allocate_student_none (apts : list Apartment) (student : agent_ref)
    (w : world) :
  apartments_with_space apts = [] ->
  allocate_student student apts w
  = (Raise IndexError_choice, mkWorld (w_rng w) (w_agents w) (w_log w)).
Proof.
  intros H. unfold allocate_student, py_choice, bind. by rewrite H.
Qed.

(** With room for everybody the loop returns, with everybody placed. *)
Lemma allocate_students_ok (B : nat) (students : list agent_ref) :
  forall (placed : list agent_ref) (apts : list Apartment) (w : world),
  housing_inv B placed apts ->
  length placed + length students <= length apts * B ->
  exists apts' g',
    allocate_students students apts w
    = (Ok apts', mkWorld g' (w_agents w) (w_log w)) /\
    housing_inv B (students ++ placed) apts' /\
    length apts' = length apts.
Proof.
  induction students as [|s students IH]; intros placed apts w Hinv Hlen.
  - exists apts, (w_rng w). simpl. unfold ret. by destruct w.
  - simpl in Hlen.
    assert (apartments_with_space apts <> []) as Hne.
    { intros Hnone. pose proof (housing_full _ _ _ Hinv Hnone). lia. }
    destruct (allocate_student_spec B placed apts s w Hinv Hne)
      as (apts1 & g1 & E1 & Hinv1 & Hlen1).
    unfold allocate_students. cbn [for_fold].
    rewrite (bind_Ok _ _ _ _ _ E1).
    destruct (IH (s :: placed) apts1 (mkWorld g1 (w_agents w) (w_log w)))
      as (apts' & g' & E' & Hinv' & Hlen'); [done|simpl; lia|].
    exists apts', g'. split; [exact E'|]. split; [|congruence].
    destruct Hinv' as [HF HP]. split; [done|].
    rewrite HP. simpl. by rewrite <- Permutation_middle.
Qed.

(** Without room for everybody the loop raises, having touched only the
    generator. *)
Lemma allocate_students_fail (B : nat) (students : list agent_ref) :
  forall (placed : list agent_ref) (apts : list Apartment) (w : world),
  housing_inv B placed apts ->
  length apts * B < length placed + length students ->
  exists g',
    allocate_students students apts w
    = (Raise IndexError_choice, mkWorld g' (w_agents w) (w_log w)).
Proof.
  induction students as [|s students IH]; intros placed apts w Hinv Hlen.
  - pose proof (housing_inv_bound _ _ _ Hinv). simpl in Hlen. lia.
  - unfold allocate_students. cbn [for_fold].
    destruct (apartments_with_space apts) eqn:Hsp.
    + rewrite (bind_Raise _ _ _ _ _ (allocate_student_none _ s w Hsp)). eauto.
    + destruct (allocate_student_spec B placed apts s w Hinv)
        as (apts1 & g1 & E1 & Hinv1 & Hlen1); [by rewrite Hsp|].
      rewrite (bind_Ok _ _ _ _ _ E1).
      destruct (IH (s :: placed) apts1 (mkWorld g1 (w_agents w) (w_log w)))
        as (g' & E'); [done|simpl in *; lia|].
      exists g'. exact E'.
Qed.

Lemma housing_inv_init (B M : nat) :
  housing_inv B [] (map (fun _ => Apartment_init B) (seq 0 M)).
Proof.
  generalize 0. induction M as [|M IH]; intros s; simpl.
  - by split.
  - destruct (IH (S s)) as [HF HP]. split.
    + constructor; [simpl; split; [done|lia]|done].
    + simpl. done.
Qed.

Lemma length_init_apartments (B M : nat) :
  length (map (fun _ => Apartment_init B) (seq 0 M)) = M.
Proof. by rewrite length_map, length_seq. Qed.

(** In disjoint lists an element determines the list it is in. *)
Lemma NoDup_concat_unique {A} (ls : list (list A)) (i j : nat)
    (l l' : list A) (x : A) :
  NoDup (concat ls) -> ls !! i = Some l -> ls !! j = Some l' ->
  x ∈ l -> x ∈ l' -> i = j.
Proof.
  revert i j. induction ls as [|l0 ls IH]; intros i j Hnd Hi Hj Hx Hx'; [done|].
  simpl in Hnd. apply NoDup_app in Hnd as (Hnd0 & Hdisj & Hnd).
  destruct i as [|i], j as [|j]; simpl in *; [done| | |].
  - injection Hi as ->. exfalso. apply (Hdisj x Hx).
    apply list_elem_of_In, in_concat. exists l'.
    split; apply list_elem_of_In; [by eapply list_elem_of_lookup_2|done].
  - injection Hj as ->. exfalso. apply (Hdisj x Hx').
    apply list_elem_of_In, in_concat. exists l.
    split; apply list_elem_of_In; [by eapply list_elem_of_lookup_2|done].
  - f_equal. by eapply IH.
Qed.

End Housing.

(** C7.  The allocation loop of [run_simulation], run on [M] empty
    apartments of capacity [B] and on distinct students that fit
    ([len(students) <= M * B]), returns; every student is then among the
    occupants of exactly one apartment, the occupants of all apartments
    together are the students, each once, and no apartment has more than
    [B] occupants.  Only the generator is touched. *)
Theorem housing_allocation_invariant :
  forall (M B : nat) (students : list agent_ref) (w : world),
    NoDup students ->
    length students <= M * B ->
    exists apartments g',
      allocate_students students
        (map (fun _ => Apartment_init B) (seq 0 M)) w
      = (Ok apartments, mkWorld g' (w_agents w) (w_log w)) /\
      length apartments = M /\
      concat (map occupants apartments) ≡ₚ students /\
      (forall s, s ∈ students ->
         exists j a, apartments !! j = Some a /\ s ∈ occupants a /\
           forall j' a', apartments !! j' = Some a' ->
                         s ∈ occupants a' -> j' = j) /\
      Forall (fun a => length (occupants a) <= B) apartments.
Proof.
  intros M B students w Hnd Hlen.
  destruct (allocate_students_ok B students [] _ w (housing_inv_init B M))
    as (apts & g' & E & [HF HP] & HM).
  { rewrite length_init_apartments. simpl. lia. }
  rewrite app_nil_r in HP. rewrite length_init_apartments in HM.
  exists apts, g'. split; [exact E|]. split; [exact HM|]. split; [exact HP|].
  split.
  - intros s Hs. rewrite <- HP in Hs.
    apply list_elem_of_In, in_concat in Hs as (l & Hl & Hsl).
    apply in_map_iff in Hl as (a & <- & Ha).
    apply list_elem_of_In, list_elem_of_lookup in Ha as (j & Hj).
    apply list_elem_of_In in Hsl.
    exists j, a. split; [done|]. split; [done|].
    intros j' a' Hj' Hs'.
    apply (NoDup_concat_unique (map occupants apts) j' j
             (occupants a') (occupants a) s); try done.
    + by rewrite HP.
    + change (map occupants apts) with (occupants <$> apts).
      by rewrite list_lookup_fmap, Hj'.
    + change (map occupants apts) with (occupants <$> apts).
      by rewrite list_lookup_fmap, Hj.
  - eapply Forall_impl; [exact HF|]. by intros a [_ ?].
Qed.

Lemma housing_allocation_invariant_witness :
  exists apartments g',
    allocate_students [0; 1; 2]
      (map (fun _ => Apartment_init 2) (seq 0 2)) (init_world demo_rng)
    = (Ok apartments, mkWorld g' [] []) /\
    length apartments = 2 /\
    concat (map occupants apartments) ≡ₚ [0; 1; 2] /\
    (forall s, s ∈ [0; 1; 2] ->
       exists j a, apartments !! j = Some a /\ s ∈ occupants a /\
         forall j' a', apartments !! j' = Some a' ->
                       s ∈ occupants a' -> j' = j) /\
    Forall (fun a => length (occupants a) <= 2) apartments.
Proof.
  apply (housing_allocation_invariant 2 2 [0; 1; 2] (init_world demo_rng)).
  - apply (bool_decide_unpack (NoDup [0; 1; 2])). vm_compute. exact I.
  - simpl. lia.
Defined.

(** ** One simulated day *)

Section Day.

Lemma world_eta (w : world) : mkWorld (w_rng w) (w_agents w) (w_log w) = w.
Proof. by destruct w. Qed.

(** A comprehension over calls that only read the store. *)
Lemma comprehension_pure {A B} (f : A -> B) (l : list A) (m : A -> Py B)
    (w : world) :
  (forall x, m x w = (Ok (f x), w)) ->
  comprehension l m w = (Ok (map f l), w).
Proof.
  intros H. induction l as [|x l IH]; simpl; [done|].
  rewrite (bind_Ok _ _ _ _ _ (H x)), (bind_Ok _ _ _ _ _ IH). done.
Qed.

(** The comprehension of slices raises exactly when it has a slice to
    take and the step is zero. *)
Lemma classrooms_comprehension {A} (x : list A) (K_module : nat)
    (l : list nat) (w : world) :
  comprehension l (fun i => slice_from_step x i K_module) w
  = (if (K_module =? 0) && negb (length l =? 0)
     then Raise ValueError_slice_step
     else Ok (map (fun i => every_kth K_module i x) l), w).
Proof.
  destruct K_module as [|k].
  - destruct l as [|i l]; simpl; [done|].
    by rewrite (bind_Raise _ _ w w ValueError_slice_step).
  - simpl. apply comprehension_pure. done.
Qed.

Lemma assign_to_classrooms_spec (K_module : nat) (students : list agent_ref)
    (K : nat) (w : world) :
  exists students' g',
    students' ≡ₚ students /\
    assign_to_classrooms K_module students K w
    = (if (K_module =? 0) && negb (K =? 0)
       then Raise ValueError_slice_step
       else Ok (students',
                map (fun i => every_kth K_module i students') (seq 0 K)),
       mkWorld g' (w_agents w) (w_log w)).
Proof.
  destruct (py_shuffle_spec students w) as (students' & g' & E & HP).
  exists students', g'. split; [done|].
  unfold assign_to_classrooms. rewrite (bind_Ok _ _ _ _ _ E).
  pose proof (classrooms_comprehension students' K_module (seq 0 K)
                (mkWorld g' (w_agents w) (w_log w))) as Hc.
  rewrite length_seq in Hc.
  destruct ((K_module =? 0) && negb (K =? 0)).
  - by rewrite (bind_Raise _ _ _ _ _ Hc).
  - by rewrite (bind_Ok _ _ _ _ _ Hc).
Qed.

Lemma randomly_infect_rel (group : list agent_ref) (prob : Q) (w : world) :
  exists w', randomly_infect group prob w = (Ok tt, w') /\ contagion_rel w w'.
Proof.
  destruct (outer_loop_spec prob group group w) as (w' & E & R & _). eauto.
Qed.

(** With nobody infectious a contagion round changes nothing and draws
    nothing. *)
Lemma randomly_infect_quiet (group : list agent_ref) (prob : Q) (w : world) :
  (forall a, infectious (deref w a) = false) ->
  randomly_infect group prob w = (Ok tt, w).
Proof.
  intros Hno. unfold randomly_infect.
  assert (forall l a1, for_each l (infection_event prob a1) w = (Ok tt, w))
    as Hinner.
  { intros l a1. induction l as [|a2 l IH]; simpl; [done|].
    rewrite (bind_Ok _ _ w w tt); [done|].
    unfold infection_event.
    rewrite (bind_Ok _ _ w w (infectious (deref w a1))) by reflexivity.
    by rewrite Hno. }
  induction group as [|a1 l IH] in |- * at 1; simpl; [done|].
  by rewrite (bind_Ok _ _ _ _ _ (Hinner group a1)).
Qed.

(** Contagion rounds over a list of groups. *)
Lemma for_each_randomly_infect {A} (l : list A) (f : A -> list agent_ref)
    (prob : Q) (w : world) :
  exists w',
    for_each l (fun x => randomly_infect (f x) prob) w = (Ok tt, w') /\
    contagion_rel w w' /\
    ((forall a, infectious (deref w a) = false) -> w' = w).
Proof.
  apply (for_each_total
           (fun w' => contagion_rel w w' /\
                      ((forall a, infectious (deref w a) = false) -> w' = w))).
  - intros x w1 _ [R Hq].
    destruct (randomly_infect_rel (f x) prob w1) as (w' & E & R').
    exists w'. split; [done|]. split; [by eapply contagion_rel_trans|].
    intros Hno. specialize (Hq Hno). subst w1.
    rewrite (randomly_infect_quiet _ _ _ Hno) in E. congruence.
  - split; [apply contagion_rel_refl|done].
Qed.

Lemma classroom_rounds_spec (K_module K : nat) (q : Q) (day : Days)
    (students : list agent_ref) (w : world) :
  exists students' w1,
    students' ≡ₚ students /\ contagion_rel w w1 /\
    ((forall a, infectious (deref w a) = false) ->
       w_agents w1 = w_agents w /\ w_log w1 = w_log w) /\
    classroom_rounds K_module K q day students w
    = (if day_raises K_module K day
       then Raise ValueError_slice_step else Ok students', w1).
Proof.
  unfold classroom_rounds, day_raises.
  destruct (not_weekend day); cbn [andb].
  - destruct (assign_to_classrooms_spec K_module students K w)
      as (students' & g' & HP & E).
    set (w0 := mkWorld g' (w_agents w) (w_log w)) in *.
    assert (contagion_rel w w0) as R0 by by constructor.
    revert E. destruct ((K_module =? 0) && negb (K =? 0)); intros E.
    + exists students', w0. split; [done|]. split; [done|]. split; [done|].
      by rewrite (bind_Raise _ _ _ _ _ E).
    + rewrite (bind_Ok _ _ _ _ _ E). cbn [fst snd].
      destruct (for_each_randomly_infect
                  (map (fun i => every_kth K_module i students') (seq 0 K))
                  id q w0) as (w1 & E1 & R1 & Q1).
      unfold id in E1. rewrite (bind_Ok _ _ _ _ _ E1). unfold ret.
      exists students', w1. split; [done|].
      split; [eauto using contagion_rel_trans|]. split; [|done].
      intros Hno. by rewrite Q1.
  - exists students, w. unfold ret. split; [done|].
    split; [apply contagion_rel_refl|]. done.
Qed.

Lemma household_rounds_spec (apartments : list Apartment) (p : Q) (w : world) :
  exists w',
    household_rounds apartments p w = (Ok tt, w') /\ contagion_rel w w' /\
    ((forall a, infectious (deref w a) = false) -> w' = w).
Proof. apply for_each_randomly_infect. Qed.

Lemma contagion_rounds_spec (K_module : nat) (apartments : list Apartment)
    (K : nat) (p q : Q) (day : Days) (students : list agent_ref) (w : world) :
  exists students' w1,
    students' ≡ₚ students /\ contagion_rel w w1 /\
    ((forall a, infectious (deref w a) = false) ->
       w_agents w1 = w_agents w /\ w_log w1 = w_log w) /\
    contagion_rounds K_module apartments K p q day students w
    = (if day_raises K_module K day
       then Raise ValueError_slice_step else Ok students', w1).
Proof.
  unfold contagion_rounds.
  destruct (classroom_rounds_spec K_module K q day students w)
    as (students' & w1 & HP & R1 & Q1 & E1).
  revert E1. destruct (day_raises K_module K day); intros E1.
  - exists students', w1. split; [done|]. split; [done|]. split; [done|].
    by rewrite (bind_Raise _ _ _ _ _ E1).
  - rewrite (bind_Ok _ _ _ _ _ E1).
    destruct (household_rounds_spec apartments p w1) as (w2 & E2 & R2 & Q2).
    rewrite (bind_Ok _ _ _ _ _ E2). unfold ret.
    exists students', w2. split; [done|].
    split; [eauto using contagion_rel_trans|]. split; [|done].
    intros Hno. destruct (Q1 Hno) as [Ha Hl].
    rewrite Q2; [done|]. intros a. rewrite (contagion_rel_infectious _ _ _ R1).
    apply Hno.
Qed.

Lemma deref_wf (w : world) (a : agent_ref) :
  Forall agent_wf (w_agents w) -> agent_wf (deref w a).
Proof.
  intros HF. unfold deref, agent_at.
  destruct (w_agents w !! a) as [x|] eqn:Hx; [|apply init_wf].
  by eapply (proj1 (Forall_lookup _ _) HF).
Qed.

(** One call of [simulate_disease] through a reference. *)
Lemma call_simulate_disease_spec (s : agent_ref) (day : Z) (w : world) :
  Forall agent_wf (w_agents w) ->
  exists w',
    call_simulate_disease s day w = (Ok tt, w') /\
    length (w_agents w') = length (w_agents w) /\
    w_log w' = w_log w /\
    Forall agent_wf (w_agents w') /\
    disease_step day (deref w s) (deref w' s) /\
    forall b, b <> s -> deref w' b = deref w b.
Proof.
  intros HF. unfold call_simulate_disease.
  destruct (simulate_disease_ok (deref w s) day (w_rng w) (deref_wf w s HF))
    as (a' & g' & E & Wa & _ & _).
  rewrite E. eexists. split; [reflexivity|]. cbn [w_agents w_log].
  split; [by rewrite length_insert|]. split; [done|].
  split; [|split].
  - apply Forall_insert; done.
  - unfold deref at 2. cbn [w_agents]. rewrite agent_at_insert.
    case_decide as Hd; [by exists (w_rng w), g'|].
    assert (length (w_agents w) <= s) as Hge by lia.
    unfold deref in *. rewrite (agent_at_ge _ _ Hge) in *.
    exists (w_rng w), g'. rewrite E. f_equal. f_equal.
    unfold simulate_disease in E. simpl in E. congruence.
  - intros b Hb. unfold deref. cbn [w_agents]. rewrite agent_at_insert.
    case_decide as Hd; [|done]. destruct Hd as [-> _]. done.
Qed.

(** The loop that steps every student, over distinct students. *)
Lemma advance_loop (day : Z) (students : list agent_ref) :
  forall w, Forall agent_wf (w_agents w) -> NoDup students ->
  exists w',
    for_each students (fun a => call_simulate_disease a day) w = (Ok tt, w') /\
    length (w_agents w') = length (w_agents w) /\
    w_log w' = w_log w /\
    Forall agent_wf (w_agents w') /\
    (forall a, a ∈ students -> disease_step day (deref w a) (deref w' a)) /\
    (forall a, a ∉ students -> deref w' a = deref w a).
Proof.
  induction students as [|s students IH]; intros w HF Hnd; simpl.
  - exists w. unfold ret. repeat split; try done.
    intros a Ha. by apply elem_of_nil in Ha.
  - apply NoDup_cons in Hnd as [Hs Hnd].
    destruct (call_simulate_disease_spec s day w HF)
      as (w1 & E1 & L1 & Lg1 & HF1 & St1 & Ot1).
    rewrite (bind_Ok _ _ _ _ _ E1).
    destruct (IH w1 HF1 Hnd) as (w' & E' & L' & Lg' & HF' & In' & Out').
    exists w'. split; [done|]. split; [congruence|]. split; [congruence|].
    split; [done|]. split.
    + intros a [->|Ha]%elem_of_cons.
      * by rewrite (Out' s Hs).
      * rewrite <- (Ot1 a); [by apply In'|]. intros ->. done.
    + intros a Ha. apply not_elem_of_cons in Ha as [Hne Ha].
      by rewrite (Out' a Ha), (Ot1 a Hne).
Qed.

Lemma record_and_advance_spec (l : locals) (students : list agent_ref)
    (w : world) :
  Forall agent_wf (w_agents w) -> NoDup students ->
  exists w',
    record_and_advance l students w
    = (Ok {| students := students;
             infected_count := infected_count l ++ [infectious_now w students];
             sick_count := sick_count l ++ [sick_so_far w students];
             day_number := (day_number l + 1)%Z |}, w') /\
    advanced (day_number l + 1) students w w'.
Proof.
  intros HF Hnd. unfold record_and_advance.
  rewrite (bind_Ok _ _ _ _ _
             (comprehension_pure (fun a => infectious (deref w a)) students
                call_infectious w (fun x => eq_refl))).
  rewrite (bind_Ok _ _ _ _ _
             (comprehension_pure (fun a => have_been_sick (deref w a)) students
                call_have_been_sick w (fun x => eq_refl))).
  set (w0 := mkWorld (w_rng w) (w_agents w) (EvRecord :: w_log w)).
  rewrite (bind_Ok log_record _ w w0 tt) by reflexivity.
  destruct (advance_loop (day_number l + 1) students w0 HF Hnd)
    as (w' & E & L & Lg & HF' & In' & Out').
  rewrite (bind_Ok _ _ _ _ _ E). unfold ret.
  exists w'. split; [done|]. by constructor.
Qed.

End Day.

(** ** Setting up *)

Section Setup.

Lemma seeded_store_wf (N : nat) : Forall agent_wf (seeded_store N).
Proof.
  unfold seeded_store. apply Forall_app. split; apply Forall_replicate.
  - apply infect_wf, init_wf.
  - apply init_wf.
Qed.

Lemma setup_housing_fail (N M B : nat) (g : rng) :
  10 <= N -> M * B < N ->
  exists g',
    setup N M B (init_world g)
    = (Raise IndexError_choice, mkWorld g' (seeded_store N) []).
Proof.
  intros H10 Hcap. rewrite setup_unfold.
  pose proof (infect_first_ten_fresh N g) as Eseed.
  rewrite decide_True in Eseed by done.
  rewrite (bind_Ok _ _ _ _ _ Eseed). fold (seeded_store N).
  destruct (py_shuffle_spec (seq 0 N) (mkWorld g (seeded_store N) []))
    as (students & g1 & Esh & HP).
  rewrite (bind_Ok _ _ _ _ _ Esh). cbn [w_agents w_log].
  destruct (allocate_students_fail B students [] _
              (mkWorld g1 (seeded_store N) []) (housing_inv_init B M))
    as (g' & E).
  { rewrite length_init_apartments, HP, length_seq. simpl. lia. }
  rewrite (bind_Raise _ _ _ _ _ E). eauto.
Qed.

Lemma setup_ok (N M B : nat) (g : rng) :
  10 <= N -> N <= M * B ->
  exists students apartments g',
    setup N M B (init_world g)
    = (Ok (students, apartments), mkWorld g' (seeded_store N) []) /\
    students ≡ₚ seq 0 N /\
    housing_inv B students apartments /\
    length apartments = M.
Proof.
  intros H10 Hcap. rewrite setup_unfold.
  pose proof (infect_first_ten_fresh N g) as Eseed.
  rewrite decide_True in Eseed by done.
  rewrite (bind_Ok _ _ _ _ _ Eseed). fold (seeded_store N).
  destruct (py_shuffle_spec (seq 0 N) (mkWorld g (seeded_store N) []))
    as (students & g1 & Esh & HP).
  rewrite (bind_Ok _ _ _ _ _ Esh). cbn [w_agents w_log].
  destruct (allocate_students_ok B students [] _
              (mkWorld g1 (seeded_store N) []) (housing_inv_init B M))
    as (apts & g' & E & Hinv & HM).
  { rewrite length_init_apartments, HP, length_seq. simpl. lia. }
  rewrite (bind_Ok _ _ _ _ _ E). cbn [w_agents w_log].
  rewrite app_nil_r in Hinv. rewrite length_init_apartments in HM.
  exists students, apts, g'. done.
Qed.

(** If [setup] returns, the arguments were in range and the result is as
    [setup_ok] says. *)
Lemma setup_Ok_inv (N M B : nat) (g : rng) sa (w1 : world) :
  setup N M B (init_world g) = (Ok sa, w1) ->
  10 <= N /\ N <= M * B /\
  w_agents w1 = seeded_store N /\ w_log w1 = [] /\
  fst sa ≡ₚ seq 0 N /\ housing_inv B (fst sa) (snd sa) /\
  length (snd sa) = M.
Proof.
  intros E.
  destruct (decide (N < 10)) as [Hlt|H10].
  { rewrite (setup_seed_fail N M B g Hlt) in E. discriminate. }
  destruct (decide (M * B < N)) as [Hlt|Hcap].
  { destruct (setup_housing_fail N M B g) as (g' & E'); [lia|done|].
    rewrite E' in E. discriminate. }
  destruct (setup_ok N M B g) as (st & apts & g' & E' & HP & Hinv & HM);
    [lia|lia|].
  rewrite E' in E. injection E as <- <-. simpl.
  split; [lia|]. split; [lia|]. done.
Qed.

End Setup.

(** ** The two series *)

Section Metrics.

Lemma np_sum_Permutation (l l' : list bool) :
  l ≡ₚ l' -> np_sum l = np_sum l'.
Proof.
  induction 1 as [|b l l' _ IH|b c l|l1 l2 l3 _ IH1 _ IH2]; simpl.
  - done.
  - by rewrite IH.
  - lia.
  - congruence.
Qed.

Lemma np_sum_le (f f' : agent_ref -> bool) (l : list agent_ref) :
  (forall a, f a = true -> f' a = true) ->
  (np_sum (map f l) <= np_sum (map f' l))%Z.
Proof.
  intros H. induction l as [|a l IH]; simpl; [done|].
  specialize (H a). destruct (f a), (f' a); lia.
Qed.

Lemma np_sum_ext (f f' : agent_ref -> bool) (l : list agent_ref) :
  (forall a, f a = f' a) -> np_sum (map f l) = np_sum (map f' l).
Proof.
  intros H. induction l as [|a l IH]; simpl; [done|]. by rewrite H, IH.
Qed.

Lemma sick_so_far_Permutation (w : world) (l l' : list agent_ref) :
  l ≡ₚ l' -> sick_so_far w l = sick_so_far w l'.
Proof.
  intros H. unfold sick_so_far. apply np_sum_Permutation.
  by apply Permutation_map.
Qed.

Lemma infectious_now_Permutation (w : world) (l l' : list agent_ref) :
  l ≡ₚ l' -> infectious_now w l = infectious_now w l'.
Proof.
  intros H. unfold infectious_now. apply np_sum_Permutation.
  by apply Permutation_map.
Qed.

Lemma infectious_le_sick (w : world) (l : list agent_ref) :
  (infectious_now w l <= sick_so_far w l)%Z.
Proof.
  apply np_sum_le. intros a. unfold infectious, have_been_sick.
  by destruct (state (deref w a)).
Qed.

Lemma contagion_rel_sick (w w' : world) (l : list agent_ref) :
  contagion_rel w w' -> sick_so_far w' l = sick_so_far w l.
Proof.
  intros R. apply np_sum_ext. intros a. unfold have_been_sick.
  by rewrite (cr_state _ _ R).
Qed.

Lemma contagion_rel_infectious_now (w w' : world) (l : list agent_ref) :
  contagion_rel w w' -> infectious_now w' l = infectious_now w l.
Proof.
  intros R. apply np_sum_ext. intros a. by apply contagion_rel_infectious.
Qed.

Lemma contagion_rel_wf (w w' : world) :
  contagion_rel w w' -> Forall agent_wf (w_agents w) ->
  Forall agent_wf (w_agents w').
Proof.
  intros R HF. apply Forall_lookup. intros i x Hx.
  pose proof (deref_wf w i HF) as Hwf.
  pose proof (cr_state _ _ R i) as Hs. pose proof (cr_end _ _ R i) as He.
  unfold deref at 1 in Hs. unfold deref at 1 in He.
  rewrite (agent_at_lt _ _ _ Hx) in Hs, He.
  unfold agent_wf in *. rewrite Hs, He. done.
Qed.

(** What [simulate_disease] can make of an agent. *)
Lemma disease_step_inv (day : Z) (a a' : StudentAgent) :
  disease_step day a a' ->
  step_ok (state a) (state a') /\ _infected a' = _infected a.
Proof.
  intros (g & g' & E). unfold simulate_disease in E.
  destruct a as [s f e]. simpl in E. unfold step_ok. simpl.
  destruct s.
  - destruct f.
    + destruct (generate_infectious_time g). injection E as <- _. simpl. auto.
    + injection E as <- _. auto.
  - destruct e as [e|]; [|discriminate].
    destruct (day =? e)%Z; injection E as <- _; simpl; auto.
  - injection E as <- _. auto.
Qed.

Lemma advanced_step_ok (day : Z) (students : list agent_ref) (w w' : world)
    (a : agent_ref) :
  advanced day students w w' ->
  step_ok (state (deref w a)) (state (deref w' a)).
Proof.
  intros Adv. destruct (decide (a ∈ students)) as [Hin|Hout].
  - by apply (disease_step_inv day), (adv_in _ _ _ _ Adv).
  - rewrite (adv_out _ _ _ _ Adv a Hout). by left.
Qed.

Lemma advanced_sick (day : Z) (students l : list agent_ref) (w w' : world) :
  advanced day students w w' ->
  (sick_so_far w l <= sick_so_far w' l)%Z.
Proof.
  intros Adv. apply np_sum_le. intros a. unfold have_been_sick.
  pose proof (advanced_step_ok day students w w' a Adv) as Hs.
  destruct Hs as [-> | [[-> ->] | [-> ->]]]; done.
Qed.

Lemma nondecreasing_snoc (l : list Z) (c : Z) :
  nondecreasing l -> Forall (fun x => (x <= c)%Z) l ->
  nondecreasing (l ++ [c]).
Proof.
  intros Hm Hb i x y Hx Hy.
  destruct (decide (S i < length l)) as [Hlt|Hge].
  - rewrite lookup_app_l in Hx by lia. rewrite lookup_app_l in Hy by lia.
    by eapply Hm.
  - pose proof (lookup_lt_Some _ _ _ Hy) as Hlen.
    rewrite length_app in Hlen. simpl in Hlen.
    assert (S i = length l) as Hi by lia.
    rewrite lookup_app_l in Hx by lia.
    rewrite lookup_app_r in Hy by lia.
    rewrite Hi, Nat.sub_diag in Hy. simpl in Hy. injection Hy as <-.
    by eapply (proj1 (Forall_lookup _ _) Hb).
Qed.

(** A day that returns keeps the invariant. *)
Lemma simulate_day_metrics (K_module : nat) (apartments : list Apartment)
    (K : nat) (p q : Q) (day : Days) (l l' : locals) (w w' : world) :
  metrics_inv l w ->
  simulate_day K_module apartments K p q day l w = (Ok l', w') ->
  metrics_inv l' w'.
Proof.
  intros [Hnd HF Hb Hm Hbd] E. unfold simulate_day in E.
  apply bind_Ok_inv in E as (st1 & w1 & E1 & E2).
  destruct (contagion_rounds_spec K_module apartments K p q day (students l) w)
    as (st1' & w1' & HP & R & _ & E1').
  rewrite E1 in E1'.
  destruct (day_raises K_module K day); [discriminate|].
  injection E1' as <- <-.
  assert (NoDup st1) as Hnd1 by by rewrite HP.
  pose proof (contagion_rel_wf _ _ R HF) as HF1.
  destruct (record_and_advance_spec l st1 w1 HF1 Hnd1) as (w2 & E2' & Adv).
  rewrite E2 in E2'. injection E2' as -> <-.
  assert (sick_so_far w1 st1 = sick_so_far w (students l)) as Hc.
  { rewrite (contagion_rel_sick _ _ _ R). by apply sick_so_far_Permutation. }
  constructor; cbn [students infected_count sick_count].
  - done.
  - apply (adv_wf _ _ _ _ Adv).
  - apply Forall2_app; [done|]. constructor; [|constructor].
    apply infectious_le_sick.
  - apply nondecreasing_snoc; [done|]. by rewrite Hc.
  - pose proof (advanced_sick _ _ st1 _ _ Adv) as Hle.
    apply Forall_app. split.
    + eapply Forall_impl; [exact Hbd|]. intros x Hx. simpl in Hx. lia.
    + constructor; [done|constructor].
Qed.

Lemma simulate_weeks_metrics (K_module : nat) (apartments : list Apartment)
    (K : nat) (p q : Q) (weeks : list nat) (l l' : locals) (w w' : world) :
  metrics_inv l w ->
  for_fold weeks
    (fun _week l => simulate_week K_module apartments K p q l) l w
  = (Ok l', w') ->
  metrics_inv l' w'.
Proof.
  intros Hinv E.
  eapply (for_fold_partial metrics_inv); [|exact Hinv|exact E].
  intros week s1 w1 s2 w2 _ Hinv1 E1. unfold simulate_week in E1.
  eapply (for_fold_partial metrics_inv); [|exact Hinv1|exact E1].
  intros day s3 w3 s4 w4 _ Hinv3 E3.
  by eapply simulate_day_metrics.
Qed.

End Metrics.

(** C10.  In every run that returns, the cumulative series never
    decreases from one day to the next, the two series have the same
    length, and the infectious count of a day is at most the cumulative
    count of that day. *)
Theorem sick_series_monotone_and_above_infectious :
  forall (K_module N M B K : nat) (p q : Q) (g : rng)
         (out : outputs) (w' : world),
    run_simulation K_module N M B K p q (init_world g) = (Ok out, w') ->
    nondecreasing (out_sick_count out) /\
    length (out_infected_count out) = length (out_sick_count out) /\
    (forall i x y,
        out_infected_count out !! i = Some x ->
        out_sick_count out !! i = Some y -> (x <= y)%Z).
Proof.
  intros K_module N M B K p q g out w' E. unfold run_simulation in E.
  apply bind_Ok_inv in E as (sa & w1 & Es & E).
  apply bind_Ok_inv in E as (l & w2 & El & E).
  unfold summarize in E. apply bind_Ok_inv in E as (total & w3 & _ & E).
  unfold ret in E. injection E as <- _. cbn [out_sick_count out_infected_count].
  destruct (setup_Ok_inv _ _ _ _ _ _ Es) as (_ & _ & Hag & _ & HP & _ & _).
  assert (metrics_inv l w2) as [Hnd HF Hb Hm Hbd].
  { eapply simulate_weeks_metrics; [|exact El].
    constructor; cbn [students infected_count sick_count].
    - rewrite HP. apply NoDup_seq.
    - rewrite Hag. apply seeded_store_wf.
    - constructor.
    - intros i x y Hx. done.
    - constructor. }
  split; [done|]. split; [by eapply Forall2_length|].
  intros i x y Hx Hy. by eapply (Forall2_lookup_lr _ _ _ _ _ _ Hb).
Qed.

Lemma sick_series_monotone_and_above_infectious_witness :
  match run_simulation 3 12 4 3 3 (1 # 2) (1 # 3) (init_world demo_rng) with
  | (Ok out, _) =>
      nondecreasing (out_sick_count out) /\
      length (out_infected_count out) = length (out_sick_count out) /\
      (forall i x y,
          out_infected_count out !! i = Some x ->
          out_sick_count out !! i = Some y -> (x <= y)%Z)
  | (Raise _, _) => False
  end.
Proof.
  destruct (run_simulation 3 12 4 3 3 (1 # 2) (1 # 3) (init_world demo_rng))
    as [[out|e] w'] eqn:E.
  - exact (sick_series_monotone_and_above_infectious
             3 12 4 3 3 (1 # 2) (1 # 3) demo_rng out w' E).
  - vm_compute in E. discriminate E.
Defined.

(** ** Certain and impossible infection *)

Section Probabilities.

Lemma random_range (g : rng) :
  (0 <= mant (fst (random g)) < 2 ^ 53)%Z /\
  expo (fst (random g)) = (-53)%Z /\
  snd (random g) = mkRng (tape g) (S (pos g)).
Proof.
  unfold random, getrand. cbn [fst snd mant expo].
  split; [|done].
  assert (2 ^ 53 <> 0)%N as Hnz by (vm_compute; discriminate).
  pose proof (N.mod_lt (tape g (pos g)) (2 ^ 53) Hnz) as H.
  assert (2 ^ 53 = Z.of_N (2 ^ 53))%Z as -> by reflexivity.
  clear Hnz. revert H. generalize (2 ^ 53)%N. intros D.
  generalize (tape g (pos g) mod D)%N. intros r H. lia.
Qed.

Lemma py_round_bounds (x : Q) (lo hi : Z) :
  (lo * Zpos (Qden x) <= Qnum x <= hi * Zpos (Qden x))%Z ->
  (lo <= py_round x <= hi)%Z.
Proof.
  destruct x as [n d]. cbn [Qnum Qden]. intros H.
  unfold py_round. cbn [Qnum Qden].
  pose proof (Z.div_mod n (Z.pos d) ltac:(lia)) as Hdm.
  pose proof (Z.mod_pos_bound n (Z.pos d) ltac:(lia)) as Hmod.
  set (f := (n / Z.pos d)%Z) in *. set (r := (n mod Z.pos d)%Z) in *.
  assert (lo <= f)%Z by nia.
  assert (f <= hi)%Z by nia.
  destruct (2 * r <? Z.pos d)%Z eqn:E1; [lia|].
  apply Z.ltb_ge in E1.
  assert (f < hi)%Z by nia.
  destruct (Z.pos d <? 2 * r)%Z; [lia|]. destruct (Z.even f); lia.
Qed.

(** *** Rounding to 53 bits *)

(** A result of at most 53 bits is exact. *)
Lemma round53_small (x : float) :
  (Z.abs (mant x) < 2 ^ 53)%Z -> round53 x = x.
Proof. intros H. unfold round53. apply Z.ltb_lt in H. by rewrite H. Qed.

(** Rounding never crosses an integer: a float between two integers
    below 2^53 is rounded to a float between them. *)
Lemma round53_between (x : float) (lo hi : Z) :
  (0 <= lo)%Z -> (hi < 2 ^ 53)%Z -> (expo x <= 0)%Z ->
  (lo * 2 ^ (- expo x) <= mant x <= hi * 2 ^ (- expo x))%Z ->
  (expo (round53 x) <= 0)%Z /\
  (lo * 2 ^ (- expo (round53 x)) <= mant (round53 x)
   <= hi * 2 ^ (- expo (round53 x)))%Z.
Proof.
  destruct x as [m e]. cbn [mant expo]. intros Hlo Hhi He Hm.
  unfold round53. cbn [mant expo].
  destruct (Z.abs m <? 2 ^ 53)%Z eqn:E; [done|].
  apply Z.ltb_ge in E.
  assert (0 < 2 ^ (- e))%Z as Hpe by (apply Z.pow_pos_nonneg; lia).
  assert (0 <= m)%Z as Hm0 by nia.
  rewrite (Z.abs_eq m Hm0) in *.
  assert (0 < m)%Z as Hmpos.
  { assert (0 < 2 ^ 53)%Z by (apply Z.pow_pos_nonneg; lia). lia. }
  assert (53 <= Z.log2 m)%Z as HL1 by (apply Z.log2_le_pow2; lia).
  assert (Z.log2 m < 53 - e)%Z as HL2.
  { apply Z.log2_lt_pow2; [done|].
    replace (53 - e)%Z with (53 + - e)%Z by lia.
    rewrite Z.pow_add_r by lia. nia. }
  set (s := (Z.log2 m - 52)%Z) in *.
  set (t := (- e - s)%Z).
  assert (0 <= t)%Z by (unfold t, s; lia).
  assert (0 < 2 ^ s)%Z as Hps by (apply Z.pow_pos_nonneg; unfold s; lia).
  assert (0 < 2 ^ t)%Z as Hpt by (apply Z.pow_pos_nonneg; lia).
  assert (2 ^ (- e) = 2 ^ t * 2 ^ s)%Z as Hsplit.
  { rewrite <- Z.pow_add_r by (unfold s; lia). f_equal. unfold t. lia. }
  cbn [mant expo]. split; [unfold t in *; lia|].
  replace (- (e + s))%Z with t by (unfold t; lia).
  apply py_round_bounds. cbn [Qnum Qden].
  rewrite Z2Pos.id by done. rewrite Hsplit in Hm.
  rewrite <- !Z.mul_assoc. done.
Qed.

(** The same bounds, read on the rational the float denotes. *)
Lemma F2Q_between (x : float) (lo hi : Z) :
  (expo x <= 0)%Z ->
  (lo * 2 ^ (- expo x) <= mant x <= hi * 2 ^ (- expo x))%Z ->
  (lo * Zpos (Qden (F2Q x)) <= Qnum (F2Q x) <= hi * Zpos (Qden (F2Q x)))%Z.
Proof.
  destruct x as [m e]. cbn [mant expo]. intros He Hm.
  unfold F2Q. cbn [mant expo Qnum Qden].
  rewrite (Z.max_l 0 e) by done. rewrite (Z.max_r 0 (- e)) by lia.
  rewrite Z2Pos.id by (apply Z.pow_pos_nonneg; lia).
  rewrite Z.pow_0_r, Z.mul_1_r. done.
Qed.

(** [uniform(0, 1)] is [random()]: neither operation rounds. *)
Lemma uniform_0_1 (g : rng) : uniform 0 1 g = random g.
Proof.
  unfold uniform. destruct (random_range g) as (Hk & He & _).
  destruct (random g) as [[k e] g']. cbn [fst mant expo] in *. subst e.
  f_equal. change (Fof_Z 0) with (mkFloat 0 0).
  change (Fof_Z (1 - 0)) with (mkFloat 1 0).
  unfold Fmul. cbn [mant expo].
  rewrite Z.mul_1_l, Z.add_0_l. rewrite round53_small by (cbn [mant]; lia).
  unfold Fadd. cbn [mant expo].
  change (Z.min 0 (-53)) with (-53)%Z.
  rewrite Z.mul_0_l, Z.add_0_l, Z.sub_diag, Z.pow_0_r, Z.mul_1_r.
  apply round53_small. cbn [mant]. lia.
Qed.

Lemma Qltb_lt (x y : Q) : Qltb x y = true <-> (x < y)%Q.
Proof. unfold Qltb, Qlt. apply Z.ltb_lt. Qed.

(** [uniform(0, 1)] lies in the half-open unit interval and takes one
    draw. *)
Lemma uniform_0_1_range (g : rng) :
  (0 <= F2Q (fst (uniform 0 1 g)))%Q /\ (F2Q (fst (uniform 0 1 g)) < 1)%Q /\
  snd (uniform 0 1 g) = mkRng (tape g) (S (pos g)).
Proof.
  rewrite uniform_0_1. destruct (random_range g) as (Hk & He & Hs).
  destruct (random g) as [[k e] g']. cbn [fst snd mant expo] in *. subst e.
  pose proof (F2Q_between (mkFloat k (-53)) 0 1 ltac:(done)) as H.
  cbn [mant expo] in H.
  change (- -53)%Z with 53%Z in H.
  split; [|split; [|done]].
  - unfold Qle. cbn [Qnum Qden]. lia.
  - unfold Qlt. cbn [Qnum Qden].
    assert (Qnum (F2Q (mkFloat k (-53))) = k) as -> by
      (unfold F2Q; cbn [mant expo Qnum]; change (Z.max 0 (-53)) with 0%Z; lia).
    change (Z.pos (Qden (F2Q (mkFloat k (-53))))) with (2 ^ 53)%Z. lia.
Qed.

(** [uniform(0, 1) < 1] always holds. *)
Lemma bernoulli_1 (w : world) :
  exists g',
    bernoulli 1 w = (Ok true, mkWorld g' (w_agents w) (EvTrial :: w_log w)).
Proof.
  unfold bernoulli.
  destruct (uniform_0_1_range (w_rng w)) as (_ & H1 & _).
  destruct (uniform 0 1 (w_rng w)) as [u g']. cbn [fst] in H1.
  exists g'. f_equal. f_equal. by apply Qltb_lt.
Qed.

(** [uniform(0, 1) < 0] never holds. *)
Lemma bernoulli_0 (w : world) :
  exists g',
    bernoulli 0 w = (Ok false, mkWorld g' (w_agents w) (EvTrial :: w_log w)).
Proof.
  unfold bernoulli.
  destruct (uniform_0_1_range (w_rng w)) as (H0 & _ & _).
  destruct (uniform 0 1 (w_rng w)) as [u g']. cbn [fst] in H0.
  exists g'. f_equal. f_equal. destruct (Qltb (F2Q u) 0) eqn:E; [|done].
  apply Qltb_lt in E. exfalso. apply (Qlt_irrefl 0).
  by eapply Qle_lt_trans.
Qed.

(** The infectious time is 7, 8, 9 or 10 days: the product lies between
    0 and 3, the sum between 7 and 10, and neither rounding nor [round]
    leaves the interval. *)
Lemma generate_infectious_time_range (g : rng) :
  (7 <= fst (generate_infectious_time g) <= 10)%Z.
Proof.
  unfold generate_infectious_time, uniform.
  destruct (random_range g) as (Hk & He & _).
  destruct (random g) as [[k e] g']. cbn [fst mant expo] in *. subst e.
  change (Fof_Z 7) with (mkFloat 7 0).
  change (Fof_Z (10 - 7)) with (mkFloat 3 0).
  unfold Fmul. cbn [mant expo]. rewrite Z.add_0_l.
  destruct (round53_between (mkFloat (3 * k) (-53)) 0 3)
    as (Hey & Hmy); [done|done|done|cbn [mant expo]; lia|].
  set (y := round53 (mkFloat (3 * k) (-53))) in *.
  unfold Fadd. cbn [mant expo].
  rewrite (Z.min_r 0 (expo y)) by done.
  rewrite Z.sub_diag, Z.pow_0_r, Z.mul_1_r, Z.sub_0_l.
  assert (0 < 2 ^ (- expo y))%Z as Hpe by (apply Z.pow_pos_nonneg; lia).
  destruct (round53_between
              (mkFloat (7 * 2 ^ (- expo y) + mant y) (expo y)) 7 10)
    as (Heu & Hmu); [done|done|done|cbn [mant expo]; lia|].
  apply py_round_bounds. by apply F2Q_between.
Qed.

(** Where the exact sum lies next to a tie the float decides: for the
    draw 1501199875790165 the product is 1/2 - 2^-53, the exact sum
    7.5 - 2^-53 is not a float and is rounded to 7.5, and [round] gives
    8, where the exact sum would give 7. *)
Lemma generate_infectious_time_rounds_the_sum :
  fst (generate_infectious_time (mkRng (fun _ => 1501199875790165%N) 0))
  = 8%Z /\
  py_round (7 + 3 * (1501199875790165 # 2 ^ 53)) = 7%Z.
Proof. split; vm_compute; reflexivity. Qed.

Lemma infection_event_certain (a1 a2 : agent_ref) (w : world) :
  infectious (deref w a1) = true -> infectious (deref w a2) = false ->
  a2 < length (w_agents w) ->
  exists w', infection_event 1 a1 a2 w = (Ok tt, w') /\
             _infected (deref w' a2) = true.
Proof.
  intros I1 I2 Hlt. unfold infection_event.
  rewrite (bind_Ok _ _ w w (infectious (deref w a1))) by reflexivity.
  rewrite I1.
  rewrite (bind_Ok _ _ w w (infectious (deref w a2))) by reflexivity.
  rewrite I2. cbn [negb].
  destruct (bernoulli_1 w) as (g' & Eb). rewrite (bind_Ok _ _ _ _ _ Eb).
  unfold call_infect. eexists. split; [reflexivity|].
  unfold deref. cbn [w_agents]. rewrite agent_at_insert.
  by rewrite decide_True.
Qed.

Lemma infection_event_never (a1 a2 : agent_ref) (w : world) :
  exists w', infection_event 0 a1 a2 w = (Ok tt, w') /\
             w_agents w' = w_agents w.
Proof.
  unfold infection_event.
  rewrite (bind_Ok _ _ w w (infectious (deref w a1))) by reflexivity.
  destruct (infectious (deref w a1)); [|by exists w].
  rewrite (bind_Ok _ _ w w (infectious (deref w a2))) by reflexivity.
  destruct (infectious (deref w a2)); cbn [negb]; [by exists w|].
  destruct (bernoulli_0 w) as (g' & Eb). rewrite (bind_Ok _ _ _ _ _ Eb).
  unfold ret. eexists. split; [reflexivity|]. done.
Qed.

(** With probability zero a contagion round leaves the store as it is. *)
Lemma randomly_infect_never (group : list agent_ref) (w : world) :
  exists w', randomly_infect group 0 w = (Ok tt, w') /\
             w_agents w' = w_agents w.
Proof.
  unfold randomly_infect.
  apply (for_each_total (fun w' => w_agents w' = w_agents w)); [|done].
  intros a1 w1 _ H1.
  apply (for_each_total (fun w' => w_agents w' = w_agents w)); [|done].
  intros a2 w2 _ H2.
  destruct (infection_event_never a1 a2 w2) as (w3 & E & H3).
  exists w3. split; [done|congruence].
Qed.

(** With probability one, one infectious [agent1] gets every member that
    is not infectious flagged. *)
Lemma inner_loop_certain (group : list agent_ref) (w0 w : world)
    (a1 : agent_ref) :
  contagion_rel w0 w -> infectious (deref w0 a1) = true ->
  exists w', for_each group (infection_event 1 a1) w = (Ok tt, w') /\
    contagion_rel w w' /\
    forall b, b ∈ group -> infectious (deref w0 b) = false ->
              b < length (w_agents w0) -> _infected (deref w' b) = true.
Proof.
  intros R0 I1.
  destruct (for_each_visited
              (fun w1 => contagion_rel w w1)
              (fun b w1 => infectious (deref w0 b) = false ->
                           b < length (w_agents w0) ->
                           _infected (deref w1 b) = true)
              group (infection_event 1 a1)) with (w := w)
    as (w' & E & R & V & _).
  - intros b w1 _ R1.
    destruct (infection_event_spec 1 a1 b w1) as (w2 & E2 & R2 & _).
    exists w2. split; [done|]. split; [by eapply contagion_rel_trans|].
    assert (contagion_rel w0 w1) as R01 by by eapply contagion_rel_trans.
    split.
    + intros Ib Hlt.
      destruct (infection_event_certain a1 b w1) as (w2' & E2' & F).
      * by rewrite (contagion_rel_infectious _ _ _ R01).
      * by rewrite (contagion_rel_infectious _ _ _ R01).
      * by rewrite (cr_length _ _ R01).
      * congruence.
    + intros y Vy Iy Hy. apply (cr_flag _ _ R2). by apply Vy.
  - apply contagion_rel_refl.
  - exists w'. split; [done|]. split; [done|]. intros b Hb. by apply V.
Qed.

Lemma randomly_infect_certain (group : list agent_ref) (w : world) :
  exists w', randomly_infect group 1 w = (Ok tt, w') /\
    contagion_rel w w' /\
    forall a b, a ∈ group -> b ∈ group ->
      infectious (deref w a) = true -> infectious (deref w b) = false ->
      b < length (w_agents w) -> _infected (deref w' b) = true.
Proof.
  unfold randomly_infect.
  destruct (for_each_visited
              (fun w1 => contagion_rel w w1)
              (fun a w1 => infectious (deref w a) = true ->
                 forall b, b ∈ group -> infectious (deref w b) = false ->
                           b < length (w_agents w) ->
                           _infected (deref w1 b) = true)
              group (fun a1 => for_each group (infection_event 1 a1)))
    with (w := w) as (w' & E & R & V & _).
  - intros a1 w1 _ R1.
    destruct (inner_loop_spec 1 a1 group w1) as (w2 & E2 & R2 & _).
    exists w2. split; [done|]. split; [by eapply contagion_rel_trans|].
    split.
    + intros Ia b Hb Ib Hlt.
      destruct (inner_loop_certain group w w1 a1 R1 Ia) as (w2' & E2' & _ & F).
      assert (w2' = w2) as -> by congruence. by apply F.
    + intros y Vy Iy b Hb Ib Hlt. apply (cr_flag _ _ R2). by apply Vy.
  - apply contagion_rel_refl.
  - exists w'. split; [done|]. split; [done|].
    intros a b Ha Hb Ia Ib Hlt. by apply (V a Ha Ia b).
Qed.

(** The household rounds with probability one. *)
Lemma household_rounds_certain (apartments : list Apartment) (w : world) :
  exists w', household_rounds apartments 1 w = (Ok tt, w') /\
    contagion_rel w w' /\
    forall apt a b, apt ∈ apartments ->
      a ∈ occupants apt -> b ∈ occupants apt ->
      infectious (deref w a) = true -> infectious (deref w b) = false ->
      b < length (w_agents w) -> _infected (deref w' b) = true.
Proof.
  unfold household_rounds.
  destruct (for_each_visited
              (fun w1 => contagion_rel w w1)
              (fun apt w1 => forall a b,
                 a ∈ occupants apt -> b ∈ occupants apt ->
                 infectious (deref w a) = true ->
                 infectious (deref w b) = false ->
                 b < length (w_agents w) -> _infected (deref w1 b) = true)
              apartments (fun apt => randomly_infect (occupants apt) 1))
    with (w := w) as (w' & E & R & V & _).
  - intros apt w1 _ R1.
    destruct (randomly_infect_certain (occupants apt) w1) as (w2 & E2 & R2 & F).
    exists w2. split; [done|]. split; [by eapply contagion_rel_trans|].
    split.
    + intros a b Ha Hb Ia Ib Hlt. apply (F a b Ha Hb).
      * by rewrite (contagion_rel_infectious _ _ _ R1).
      * by rewrite (contagion_rel_infectious _ _ _ R1).
      * by rewrite (cr_length _ _ R1).
    + intros y Vy a b Ha Hb Ia Ib Hlt. apply (cr_flag _ _ R2).
      by apply (Vy a b).
  - apply contagion_rel_refl.
  - exists w'. split; [done|]. split; [done|].
    intros apt a b Hapt. by apply V.
Qed.

End Probabilities.

(** ** The whole run *)

Section Run.

Context {A S : Type}.

(** A loop whose body either returns keeping [I] or raises an exception
    in [P] does the same. *)
Lemma for_fold_outcome (I : S -> world -> Prop) (P : exn -> Prop)
    (l : list A) (body : A -> S -> Py S) :
  (forall x s w, x ∈ l -> I s w ->
     exists r w', body x s w = (r, w') /\
       match r with Ok s' => I s' w' | Raise e => P e end) ->
  forall s w, I s w ->
  exists r w', for_fold l body s w = (r, w') /\
    match r with Ok s' => I s' w' | Raise e => P e end.
Proof.
  induction l as [|x l IH]; intros Hbody s w Hw; simpl.
  - by exists (Ok s), w.
  - destruct (Hbody x s w) as ([s1|e] & w1 & E & H1); [by left|done| |].
    + rewrite (bind_Ok _ _ _ _ _ E).
      apply IH; [|done]. intros y s2 w2 Hy. apply Hbody. by right.
    + rewrite (bind_Raise _ _ _ _ _ E). by exists (Raise e), w1.
Qed.

Lemma for_fold_cons (x : A) (l : list A) (body : A -> S -> Py S) (s : S) :
  for_fold (x :: l) body s = bind (body x s) (for_fold l body).
Proof. reflexivity. Qed.

End Run.

Section Driver.

Variable K_module : nat.
Variable apartments : list Apartment.
Variable K : nat.
Variables p q : Q.

(** The whole of a day, in one statement: the contagion rounds keep
    states and only permute [students]; the day raises exactly on
    [day_raises]; otherwise it appends the two counts read after the
    rounds and steps every student. *)
Lemma simulate_day_spec (day : Days) (l : locals) (w : world) :
  Forall agent_wf (w_agents w) -> NoDup (students l) ->
  exists st' w1 w',
    st' ≡ₚ students l /\
    contagion_rounds K_module apartments K p q day (students l) w
    = (if day_raises K_module K day
       then Raise ValueError_slice_step else Ok st', w1) /\
    contagion_rel w w1 /\
    ((forall a, infectious (deref w a) = false) ->
       w_agents w1 = w_agents w /\ w_log w1 = w_log w) /\
    advanced (day_number l + 1) st' w1 w' /\
    simulate_day K_module apartments K p q day l w
    = (if day_raises K_module K day
       then Raise ValueError_slice_step
       else Ok {| students := st';
                  infected_count := infected_count l ++ [infectious_now w1 st'];
                  sick_count := sick_count l ++ [sick_so_far w1 st'];
                  day_number := (day_number l + 1)%Z |},
       if day_raises K_module K day then w1 else w').
Proof.
  intros HF Hnd.
  destruct (contagion_rounds_spec K_module apartments K p q day (students l) w)
    as (st' & w1 & HP & R & Qt & E1).
  assert (NoDup st') as Hnd1 by by rewrite HP.
  pose proof (contagion_rel_wf _ _ R HF) as HF1.
  destruct (record_and_advance_spec l st' w1 HF1 Hnd1) as (w' & E2 & Adv).
  exists st', w1, w'. split; [done|]. split; [done|]. split; [done|].
  split; [done|]. split; [done|].
  unfold simulate_day. revert E1.
  destruct (day_raises K_module K day); intros E1.
  - by rewrite (bind_Raise _ _ _ _ _ E1).
  - by rewrite (bind_Ok _ _ _ _ _ E1).
Qed.

Lemma day_raises_slice_step (day : Days) :
  day_raises K_module K day = true ->
  slice_step_error K_module ValueError_slice_step.
Proof.
  unfold day_raises. intros H. split; [done|].
  apply andb_true_iff in H as [H _]. apply andb_true_iff in H as [_ H].
  by apply Nat.eqb_eq.
Qed.

Lemma simulate_day_outcome (pre : list Z) (day : Days) (l : locals)
    (w : world) :
  days_inv pre l w ->
  exists r w', simulate_day K_module apartments K p q day l w = (r, w') /\
    match r with
    | Ok l' => days_inv pre l' w'
    | Raise e => slice_step_error K_module e
    end.
Proof.
  intros (Hnd & HF & ext & Hext).
  destruct (simulate_day_spec day l w HF Hnd)
    as (st' & w1 & w' & HP & _ & _ & _ & Adv & E).
  eexists _, _. split; [exact E|].
  destruct (day_raises K_module K day) eqn:Hr.
  - by apply (day_raises_slice_step day).
  - split; [|split]; cbn [students sick_count].
    + by rewrite HP.
    + apply (adv_wf _ _ _ _ Adv).
    + eexists. rewrite Hext, <- app_assoc. done.
Qed.

Lemma days_outcome (pre : list Z) (days : list Days) (l : locals) (w : world) :
  days_inv pre l w ->
  exists r w',
    for_fold days (simulate_day K_module apartments K p q) l w = (r, w') /\
    match r with
    | Ok l' => days_inv pre l' w'
    | Raise e => slice_step_error K_module e
    end.
Proof.
  apply (for_fold_outcome (days_inv pre) (slice_step_error K_module)).
  intros day s w1 _. apply simulate_day_outcome.
Qed.

Lemma weeks_outcome (pre : list Z) (weeks : list nat) (l : locals)
    (w : world) :
  days_inv pre l w ->
  exists r w',
    for_fold weeks
      (fun _week l => simulate_week K_module apartments K p q l) l w
    = (r, w') /\
    match r with
    | Ok l' => days_inv pre l' w'
    | Raise e => slice_step_error K_module e
    end.
Proof.
  apply (for_fold_outcome (days_inv pre) (slice_step_error K_module)).
  intros week s w1 _. apply days_outcome.
Qed.

(** The run from some day of the first week on, once the cumulative
    series has entries [pre]: it returns a series that starts with
    [pre], or raises the slice-step error. *)
Lemma rest_of_run (pre : list Z) (days : list Days) (l : locals) (w : world) :
  days_inv pre l w -> pre <> [] ->
  exists r w',
    (l2 <- (l1 <- for_fold days (simulate_day K_module apartments K p q) l ;;
            for_fold (seq 1 11)
              (fun _week l => simulate_week K_module apartments K p q l) l1) ;;
     summarize l2) w
    = (r, w') /\
    match r with
    | Ok out => exists ext, out_sick_count out = pre ++ ext
    | Raise e => slice_step_error K_module e
    end.
Proof.
  intros Hinv Hpre.
  destruct (days_outcome pre days l w Hinv) as ([l1|e] & w1 & E1 & H1).
  2:{ exists (Raise e), w1. split; [|done].
      by rewrite (bind_Raise _ _ _ _ _ (bind_Raise _ _ _ _ _ E1)). }
  destruct (weeks_outcome pre (seq 1 11) l1 w1 H1) as ([l2|e] & w2 & E2 & H2).
  2:{ exists (Raise e), w2. split; [|done].
      rewrite bind_assoc, (bind_Ok _ _ _ _ _ E1).
      by rewrite (bind_Raise _ _ _ _ _ E2). }
  rewrite bind_assoc, (bind_Ok _ _ _ _ _ E1), (bind_Ok _ _ _ _ _ E2).
  destruct H2 as (_ & _ & ext & Hext). unfold summarize.
  destruct (last (sick_count l2)) as [x|] eqn:Hlast.
  - rewrite bind_ret_l. unfold ret. eexists _, _. split; [reflexivity|].
    cbn [out_sick_count]. eauto.
  - apply last_None in Hlast. rewrite Hext in Hlast.
    destruct pre; [done|discriminate].
Qed.

End Driver.

Section WholeRun.

Lemma peel_day (K_module : nat) (apartments : list Apartment) (K : nat)
    (p q : Q) (day : Days) (days : list Days) (l : locals) (w : world) :
  (l2 <- (l1 <- for_fold (day :: days)
                  (simulate_day K_module apartments K p q) l ;;
          for_fold (seq 1 11)
            (fun _week l => simulate_week K_module apartments K p q l) l1) ;;
   summarize l2) w
  = (l' <- simulate_day K_module apartments K p q day l ;;
     l2 <- (l1 <- for_fold days (simulate_day K_module apartments K p q) l' ;;
            for_fold (seq 1 11)
              (fun _week l => simulate_week K_module apartments K p q l) l1) ;;
     summarize l2) w.
Proof.
  rewrite for_fold_cons. unfold bind.
  by destruct (simulate_day K_module apartments K p q day l w) as [[l'|e] w'].
Qed.

(** Once [setup] has returned, the run is the first Monday followed by
    the rest. *)
Lemma run_unfold (K_module N M B K : nat) (p q : Q) (g : rng)
    (students : list agent_ref) (apartments : list Apartment) (w0 : world) :
  setup N M B (init_world g) = (Ok (students, apartments), w0) ->
  run_simulation K_module N M B K p q (init_world g)
  = (l2 <- (l1 <- for_fold all_Days (simulate_day K_module apartments K p q)
                    {| students := students; infected_count := [];
                       sick_count := []; day_number := 0 |} ;;
            for_fold (seq 1 11)
              (fun _week l => simulate_week K_module apartments K p q l) l1) ;;
     summarize l2) w0.
Proof.
  intros Es. unfold run_simulation. rewrite (bind_Ok _ _ _ _ _ Es).
  cbn [fst snd]. change (seq 0 12) with (0 :: seq 1 11).
  rewrite for_fold_cons. reflexivity.
Qed.

(** With at least ten agents and room for all, the run returns or raises
    the slice-step error; it raises nothing else. *)
Lemma run_outcome (K_module N M B K : nat) (p q : Q) (g : rng) :
  10 <= N -> N <= M * B ->
  exists r w',
    run_simulation K_module N M B K p q (init_world g) = (r, w') /\
    match r with
    | Ok out => True
    | Raise e => slice_step_error K_module e
    end.
Proof.
  intros H10 Hcap.
  destruct (setup_ok N M B g H10 Hcap) as (st & apts & g' & Es & HP & _ & _).
  rewrite (run_unfold _ _ _ _ _ _ _ _ _ _ _ Es).
  unfold all_Days. rewrite peel_day.
  set (l0 := {| students := st; infected_count := [];
                sick_count := []; day_number := 0 |}).
  set (w0 := mkWorld g' (seeded_store N) []).
  destruct (simulate_day_spec K_module apts K p q MONDAY l0 w0)
    as (st' & w1 & w' & HP' & _ & _ & _ & Adv & E).
  { apply seeded_store_wf. }
  { change (NoDup st). rewrite HP. apply NoDup_seq. }
  revert E. destruct (day_raises K_module K MONDAY) eqn:Hr; intros E.
  - rewrite (bind_Raise _ _ _ _ _ E). eexists _, _. split; [reflexivity|].
    by apply (day_raises_slice_step K_module K MONDAY).
  - rewrite (bind_Ok _ _ _ _ _ E).
    destruct (rest_of_run K_module apts K p q [sick_so_far w1 st']
                [TUESDAY; WEDNESDAY; THURSDAY; FRIDAY; SATURDAY; SUNDAY]
                {| students := st';
                   infected_count := infected_count l0 ++ [infectious_now w1 st'];
                   sick_count := sick_count l0 ++ [sick_so_far w1 st'];
                   day_number := (day_number l0 + 1)%Z |} w')
      as (r & w2 & E2 & H2); [|done|].
    + split; [|split]; cbn [students sick_count].
      * rewrite HP'. change (NoDup st). rewrite HP. apply NoDup_seq.
      * apply (adv_wf _ _ _ _ Adv).
      * by exists [].
    + exists r, w2. split; [done|]. by destruct r.
Qed.

End WholeRun.

(** C2, as the code has it.  The code defines no capacity error: when
    the apartments cannot take everybody, [choice] is called on an empty
    list and raises its [IndexError].  With at least ten agents (fewer
    fail earlier, while seeding), [run_simulation] raises that error
    exactly when [M * B < N]; it is then raised during the allocation,
    with the seeded store untouched and nothing logged: no trial drawn,
    no metrics appended.  When [M * B >= N] the allocation returns, with
    every apartment within capacity and every student placed. *)
Theorem housing_failure_iff_capacity :
  forall (K_module N M B K : nat) (p q : Q) (g : rng),
    10 <= N ->
    (fst (run_simulation K_module N M B K p q (init_world g))
     = Raise IndexError_choice <-> M * B < N) /\
    (M * B < N ->
     exists g',
       setup N M B (init_world g)
       = (Raise IndexError_choice, mkWorld g' (seeded_store N) []) /\
       run_simulation K_module N M B K p q (init_world g)
       = (Raise IndexError_choice, mkWorld g' (seeded_store N) [])) /\
    (N <= M * B ->
     exists students apartments g',
       setup N M B (init_world g)
       = (Ok (students, apartments), mkWorld g' (seeded_store N) []) /\
       students ≡ₚ seq 0 N /\
       housing_inv B students apartments /\ length apartments = M).
Proof.
  intros K_module N M B K p q g H10.
  assert (M * B < N ->
          exists g',
            setup N M B (init_world g)
            = (Raise IndexError_choice, mkWorld g' (seeded_store N) []) /\
            run_simulation K_module N M B K p q (init_world g)
            = (Raise IndexError_choice, mkWorld g' (seeded_store N) []))
    as Hfail.
  { intros Hcap. destruct (setup_housing_fail N M B g H10 Hcap) as (g' & E).
    exists g'. split; [done|]. unfold run_simulation.
    by rewrite (bind_Raise _ _ _ _ _ E). }
  split; [|split; [exact Hfail|]].
  - split.
    + intros Hr. destruct (decide (M * B < N)) as [|Hge]; [done|].
      destruct (run_outcome K_module N M B K p q g H10) as (r & w' & E & H);
        [lia|].
      rewrite E in Hr. simpl in Hr. subst r. destruct H as [H _]. discriminate.
    + intros Hcap. destruct (Hfail Hcap) as (g' & _ & E). by rewrite E.
  - intros Hcap. by apply setup_ok.
Qed.

Lemma housing_failure_iff_capacity_witness :
  (fst (run_simulation K_notebook 12 3 3 4 (1 # 2) (1 # 3) (init_world demo_rng))
   = Raise IndexError_choice <-> 3 * 3 < 12) /\
  (3 * 3 < 12 ->
   exists g',
     setup 12 3 3 (init_world demo_rng)
     = (Raise IndexError_choice, mkWorld g' (seeded_store 12) []) /\
     run_simulation K_notebook 12 3 3 4 (1 # 2) (1 # 3) (init_world demo_rng)
     = (Raise IndexError_choice, mkWorld g' (seeded_store 12) [])) /\
  (12 <= 3 * 3 ->
   exists students apartments g',
     setup 12 3 3 (init_world demo_rng)
     = (Ok (students, apartments), mkWorld g' (seeded_store 12) []) /\
     students ≡ₚ seq 0 12 /\
     housing_inv 3 students apartments /\ length apartments = 3).
Proof.
  apply (housing_failure_iff_capacity
           K_notebook 12 3 3 4 (1 # 2) (1 # 3) demo_rng).
  lia.
Defined.

(** The claim as the specification words it fails for fewer than ten
    agents: with [N = 4], [M = 1], [B = 1] the apartments cannot take
    everybody, yet the failure is the list-index error of the seeding
    loop, not the failure of the allocation. *)
Lemma capacity_failure_counterexample :
  ~ (fst (run_simulation K_notebook 4 1 1 1 (1 # 2) (1 # 2) (init_world demo_rng))
     = Raise IndexError_choice <-> 1 * 1 < 4).
Proof.
  intros [_ H]. specialize (H ltac:(lia)). vm_compute in H. discriminate H.
Qed.

(** ** The first days *)

Section FirstDays.

Lemma seeded_store_length (N : nat) : length (seeded_store N) = N.
Proof. unfold seeded_store. rewrite length_app, !length_replicate. lia. Qed.

Lemma seeded_store_at (N : nat) (a : agent_ref) :
  agent_at (seeded_store N) a
  = if decide (a < N `min` 10) then infect StudentAgent_init
    else StudentAgent_init.
Proof.
  unfold seeded_store. case_decide as Hd.
  - apply agent_at_lt. rewrite lookup_app_l by (rewrite length_replicate; lia).
    by apply lookup_replicate_2.
  - destruct (decide (a < N)) as [Hlt|Hge].
    + apply agent_at_lt.
      rewrite lookup_app_r by (rewrite length_replicate; lia).
      apply lookup_replicate_2. rewrite length_replicate. lia.
    + apply agent_at_ge. rewrite length_app, !length_replicate. lia.
Qed.

Lemma np_sum_all_false (f : agent_ref -> bool) (l : list agent_ref) :
  (forall a, a ∈ l -> f a = false) -> np_sum (map f l) = 0%Z.
Proof.
  induction l as [|a l IH]; intros H; simpl; [done|].
  rewrite (H a) by by left. rewrite IH; [done|].
  intros b Hb. apply H. by right.
Qed.

Lemma np_sum_all_true (f : agent_ref -> bool) (l : list agent_ref) :
  (forall a, a ∈ l -> f a = true) -> np_sum (map f l) = Z.of_nat (length l).
Proof.
  induction l as [|a l IH]; intros H; [done|].
  cbn [map np_sum fold_right length]. rewrite (H a) by by left.
  fold (np_sum (map f l)). rewrite IH; [lia|].
  intros b Hb. apply H. by right.
Qed.

Lemma np_sum_app (l1 l2 : list bool) :
  np_sum (l1 ++ l2) = (np_sum l1 + np_sum l2)%Z.
Proof.
  induction l1 as [|b l1 IH]; simpl; [done|].
  fold (np_sum (l1 ++ l2)). fold (np_sum l1). rewrite IH. lia.
Qed.

(** A count over all [N] agents of a property that exactly the first ten
    have. *)
Lemma np_sum_first_ten (f : agent_ref -> bool) (st : list agent_ref) (N : nat) :
  st ≡ₚ seq 0 N -> 10 <= N ->
  (forall a, a < N -> f a = bool_decide (a < 10)) ->
  np_sum (map f st) = 10%Z.
Proof.
  intros HP H10 Hf.
  rewrite (np_sum_Permutation _ _ (Permutation_map f HP)).
  replace N with (10 + (N - 10)) by lia.
  rewrite seq_app, map_app, np_sum_app.
  rewrite np_sum_all_true, np_sum_all_false.
  - rewrite length_seq. lia.
  - intros a [Ha1 Ha2]%elem_of_seq. rewrite Hf by lia.
    apply bool_decide_eq_false. lia.
  - intros a [Ha1 Ha2]%elem_of_seq. rewrite Hf by lia.
    apply bool_decide_eq_true. lia.
Qed.

(** The three ways a call of [simulate_disease] can go on the first
    days. *)
Lemma disease_step_flagged (day : Z) (a a' : StudentAgent) :
  disease_step day a a' -> state a = HEALTHY -> _infected a = true ->
  state a' = INFECTIOUS /\ _infected a' = true /\
  exists e, infectious_end a' = Some e /\ (day + 7 <= e <= day + 10)%Z.
Proof.
  intros (g & g' & E) Hs Hf. unfold simulate_disease in E.
  rewrite Hs, Hf in E.
  pose proof (generate_infectious_time_range g) as Hr.
  destruct (generate_infectious_time g) as [t g1]. injection E as <- _.
  simpl in *. repeat split; try done. exists (day + t)%Z. split; [done|lia].
Qed.

Lemma disease_step_unflagged (day : Z) (a a' : StudentAgent) :
  disease_step day a a' -> state a = HEALTHY -> _infected a = false ->
  a' = a.
Proof.
  intros (g & g' & E) Hs Hf. unfold simulate_disease in E.
  rewrite Hs, Hf in E. by injection E as <- _.
Qed.

Lemma disease_step_still_infectious (day e : Z) (a a' : StudentAgent) :
  disease_step day a a' -> state a = INFECTIOUS ->
  infectious_end a = Some e -> day <> e -> a' = a.
Proof.
  intros (g & g' & E) Hs He Hne. unfold simulate_disease in E.
  rewrite Hs, He in E. apply Z.eqb_neq in Hne. rewrite Hne in E.
  by injection E as <- _.
Qed.

End FirstDays.

(** C5.  The seeding loop runs over the indices 0 to 9 of the list of
    created agents, whatever the arguments.  For [N < 10] it has set the
    flag of every agent created when [students[N]] raises the list-index
    error; that ends [run_simulation], with the generator untouched (no
    shuffle, no allocation) and nothing logged (no day simulated).  For
    [N >= 10] the part of [run_simulation] before the first day ends,
    returning or raising the error of [choice], in a store of [N]
    healthy agents of which exactly the first ten created are flagged;
    from that store the run goes on to the twelve weeks, or ends there
    with that error. *)
Theorem first_ten_seeded_or_IndexError :
  forall (K_module N M B K : nat) (p q : Q) (g : rng),
    (N < 10 ->
     exists w',
       run_simulation K_module N M B K p q (init_world g)
       = (Raise IndexError_subscript, w') /\
       w_rng w' = g /\ w_log w' = [] /\ length (w_agents w') = N /\
       forall a, a < N ->
         _infected (deref w' a) = true /\ state (deref w' a) = HEALTHY) /\
    (10 <= N ->
     exists r w1,
       setup N M B (init_world g) = (r, w1) /\
       run_simulation K_module N M B K p q (init_world g)
       = match r with
         | Ok sa =>
             (l <- for_fold (seq 0 12)
                     (fun _week l => simulate_week K_module (snd sa) K p q l)
                     {| students := fst sa; infected_count := [];
                        sick_count := []; day_number := 0 |} ;;
              summarize l) w1
         | Raise e => (Raise e, w1)
         end /\
       (forall e, r = Raise e -> e = IndexError_choice) /\
       length (w_agents w1) = N /\ w_log w1 = [] /\
       forall a,
         _infected (deref w1 a) = bool_decide (a < 10) /\
         state (deref w1 a) = HEALTHY).
Proof.
  intros K_module N M B K p q g. split.
  - intros HN. eexists. split.
    { unfold run_simulation.
      by rewrite (bind_Raise _ _ _ _ _ (setup_seed_fail N M B g HN)). }
    cbn [w_rng w_log w_agents]. split; [done|]. split; [done|].
    split; [apply length_replicate|].
    intros a Ha. unfold deref. cbn [w_agents].
    rewrite (agent_at_lt _ a (infect StudentAgent_init))
      by by apply lookup_replicate_2.
    done.
  - intros H10.
    assert (exists r g',
              setup N M B (init_world g) = (r, mkWorld g' (seeded_store N) []) /\
              forall e, r = Raise e -> e = IndexError_choice)
      as (r & g' & Es & Hr).
    { destruct (decide (M * B < N)) as [Hcap|Hcap].
      - destruct (setup_housing_fail N M B g H10 Hcap) as (g' & Es).
        exists (Raise IndexError_choice), g'. split; [done|]. congruence.
      - destruct (setup_ok N M B g H10) as (st & apts & g' & Es & _); [lia|].
        exists (Ok (st, apts)), g'. split; [done|]. discriminate. }
    exists r, (mkWorld g' (seeded_store N) []). split; [done|].
    split.
    { unfold run_simulation, bind at 1. rewrite Es. by destruct r. }
    split; [done|]. cbn [w_agents w_log].
    split; [apply seeded_store_length|]. split; [done|].
    intros a. unfold deref. cbn [w_agents]. rewrite seeded_store_at.
    case_decide; case_bool_decide; try lia; done.
Qed.

Lemma first_ten_seeded_or_IndexError_witness :
  (exists w',
     run_simulation K_notebook 4 1 4 1 1 0 (init_world demo_rng)
     = (Raise IndexError_subscript, w') /\
     w_rng w' = demo_rng /\ w_log w' = [] /\ length (w_agents w') = 4 /\
     forall a, a < 4 ->
       _infected (deref w' a) = true /\ state (deref w' a) = HEALTHY) /\
  (exists r w1,
     setup 12 4 3 (init_world demo_rng) = (r, w1) /\
     run_simulation K_notebook 12 4 3 3 (1 # 2) (1 # 3) (init_world demo_rng)
     = match r with
       | Ok sa =>
           (l <- for_fold (seq 0 12)
                   (fun _week l =>
                      simulate_week K_notebook (snd sa) 3 (1 # 2) (1 # 3) l)
                   {| students := fst sa; infected_count := [];
                      sick_count := []; day_number := 0 |} ;;
            summarize l) w1
       | Raise e => (Raise e, w1)
       end /\
     (forall e, r = Raise e -> e = IndexError_choice) /\
     length (w_agents w1) = 12 /\ w_log w1 = [] /\
     forall a,
       _infected (deref w1 a) = bool_decide (a < 10) /\
       state (deref w1 a) = HEALTHY).
Proof.
  split.
  - apply (proj1 (first_ten_seeded_or_IndexError
                    K_notebook 4 1 4 1 1 0 demo_rng)). lia.
  - apply (proj2 (first_ten_seeded_or_IndexError
                    K_notebook 12 4 3 3 (1 # 2) (1 # 3) demo_rng)). lia.
Defined.

(** C3, as the code has it.  After [setup] the ten seeds are flagged but
    HEALTHY, so during the contagion rounds of the first day
    [infectious] answers false for every agent: the rounds change no
    agent and draw no trial, and the first entries of both series are 0.
    The seeds become INFECTIOUS when the agents are stepped at the end
    of that day, so they spread from the second day on. *)
Theorem seeds_pending_on_first_day :
  forall (K_module N M B K : nat) (p q : Q) (g : rng),
    10 <= N -> N <= M * B -> 0 < K_module ->
    exists students apartments w0,
      setup N M B (init_world g) = (Ok (students, apartments), w0) /\
      (forall a, a < 10 -> _infected (deref w0 a) = true) /\
      (forall a, infectious (deref w0 a) = false) /\
      exists students1 w1,
        contagion_rounds K_module apartments K p q MONDAY students w0
        = (Ok students1, w1) /\
        w_agents w1 = w_agents w0 /\ w_log w1 = [] /\
        exists l1 w2,
          simulate_day K_module apartments K p q MONDAY
            {| students := students; infected_count := [];
               sick_count := []; day_number := 0 |} w0
          = (Ok l1, w2) /\
          infected_count l1 = [0%Z] /\ sick_count l1 = [0%Z] /\
          forall a, a < 10 -> infectious (deref w2 a) = true.
Proof.
  intros K_module N M B K p q g H10 Hcap HK.
  destruct (setup_ok N M B g H10 Hcap) as (st & apts & g' & Es & HP & _ & _).
  set (w0 := mkWorld g' (seeded_store N) []).
  assert (forall a, state (deref w0 a) = HEALTHY) as Hh.
  { intros a. unfold deref. cbn [w0 w_agents]. rewrite seeded_store_at.
    by case_decide. }
  assert (forall a, infectious (deref w0 a) = false) as Hno.
  { intros a. unfold infectious. by rewrite Hh. }
  assert (forall a, a < 10 -> _infected (deref w0 a) = true) as Hfl.
  { intros a Ha. unfold deref. cbn [w0 w_agents]. rewrite seeded_store_at.
    rewrite decide_True by lia. done. }
  exists st, apts, w0. split; [done|]. split; [done|]. split; [done|].
  set (l0 := {| students := st; infected_count := [];
                sick_count := []; day_number := 0 |}).
  destruct (simulate_day_spec K_module apts K p q MONDAY l0 w0)
    as (st1 & w1 & w2 & HP1 & Ec & R & Qt & Adv & Ed).
  { apply seeded_store_wf. }
  { change (NoDup st). rewrite HP. apply NoDup_seq. }
  assert (day_raises K_module K MONDAY = false) as Hr.
  { unfold day_raises. destruct K_module; [lia|]. done. }
  rewrite Hr in Ec, Ed. destruct (Qt Hno) as [Hag Hlg].
  exists st1, w1. split; [exact Ec|]. split; [done|]. split; [done|].
  eexists _, w2. split; [exact Ed|]. cbn [infected_count sick_count l0].
  assert (forall a, state (deref w1 a) = HEALTHY) as Hh1.
  { intros a. by rewrite (cr_state _ _ R). }
  split; [|split].
  - unfold infectious_now. rewrite np_sum_all_false; [done|].
    intros a _. unfold infectious. by rewrite Hh1.
  - unfold sick_so_far. rewrite np_sum_all_false; [done|].
    intros a _. unfold have_been_sick. by rewrite Hh1.
  - intros a Ha.
    assert (a ∈ st1) as Hin.
    { rewrite HP1. change (a ∈ st). rewrite HP. apply elem_of_seq. lia. }
    pose proof (adv_in _ _ _ _ Adv a Hin) as Hstep.
    apply disease_step_flagged in Hstep as (Hs & _).
    + unfold infectious. by rewrite Hs.
    + apply Hh1.
    + apply (cr_flag _ _ R). by apply Hfl.
Qed.

Lemma seeds_pending_on_first_day_witness :
  exists students apartments w0,
    setup 12 4 3 (init_world demo_rng) = (Ok (students, apartments), w0) /\
    (forall a, a < 10 -> _infected (deref w0 a) = true) /\
    (forall a, infectious (deref w0 a) = false) /\
    exists students1 w1,
      contagion_rounds K_notebook apartments 3 (1 # 2) (1 # 3) MONDAY students w0
      = (Ok students1, w1) /\
      w_agents w1 = w_agents w0 /\ w_log w1 = [] /\
      exists l1 w2,
        simulate_day K_notebook apartments 3 (1 # 2) (1 # 3) MONDAY
          {| students := students; infected_count := [];
             sick_count := []; day_number := 0 |} w0
        = (Ok l1, w2) /\
        infected_count l1 = [0%Z] /\ sick_count l1 = [0%Z] /\
        forall a, a < 10 -> infectious (deref w2 a) = true.
Proof.
  apply (seeds_pending_on_first_day
           K_notebook 12 4 3 3 (1 # 2) (1 # 3) demo_rng).
  - lia.
  - lia.
  - unfold K_notebook. lia.
Defined.

(** The claim as the specification words it fails: on the first day the
    first seed is flagged and not infectious. *)
Lemma seeds_infectious_day_one_counterexample :
  match setup 12 4 3 (init_world demo_rng) with
  | (Ok (students, apartments), w0) =>
      _infected (deref w0 0) = true /\ infectious (deref w0 0) = false /\
      match contagion_rounds K_notebook apartments 3 (1 # 2) (1 # 3)
              MONDAY students w0 with
      | (Ok _, w1) => infectious (deref w1 0) = false
      | (Raise _, _) => False
      end
  | (Raise _, _) => False
  end.
Proof. vm_compute. repeat split; reflexivity. Qed.

(** ** One household, certain infection at home *)

Section OneHousehold.

Variable K_module K N : nat.
Variable q : Q.
Variable apt : Apartment.
Hypothesis HK : 0 < K_module.
Hypothesis H10 : 10 <= N.
Hypothesis Hocc : occupants apt ≡ₚ seq 0 N.

Lemma no_day_raises (day : Days) : day_raises K_module K day = false.
Proof using HK.
  unfold day_raises.
  assert ((K_module =? 0) = false) as ->
    by (apply Nat.eqb_neq; clear -HK; lia).
  by rewrite andb_false_r.
Qed.

(** With probability one at home, whoever shares an apartment with an
    infectious agent is flagged after the rounds. *)
Lemma contagion_rounds_certain (apartments : list Apartment) (day : Days)
    (students : list agent_ref) (w : world) :
  exists st' w1,
    contagion_rounds K_module apartments K 1 q day students w = (Ok st', w1) /\
    forall ap a b, ap ∈ apartments ->
      a ∈ occupants ap -> b ∈ occupants ap ->
      infectious (deref w a) = true -> infectious (deref w b) = false ->
      b < length (w_agents w) -> _infected (deref w1 b) = true.
Proof using HK.
  unfold contagion_rounds.
  destruct (classroom_rounds_spec K_module K q day students w)
    as (st' & wc & _ & R & _ & E).
  rewrite no_day_raises in E. rewrite (bind_Ok _ _ _ _ _ E).
  destruct (household_rounds_certain apartments wc) as (w1 & E1 & _ & F).
  rewrite (bind_Ok _ _ _ _ _ E1). unfold ret.
  exists st', w1. split; [done|].
  intros ap a b Hap Ha Hb Ia Ib Hlt. apply (F ap a b Hap Ha Hb).
  - by rewrite (contagion_rel_infectious _ _ _ R).
  - by rewrite (contagion_rel_infectious _ _ _ R).
  - by rewrite (cr_length _ _ R).
Qed.

(** Monday of the first week. *)
Lemma first_day (p : Q) (apartments : list Apartment) (l : locals) (g : rng) :
  students l ≡ₚ seq 0 N -> day_number l = 0%Z ->
  exists l1 w1,
    simulate_day K_module apartments K p q MONDAY l
      (mkWorld g (seeded_store N) [])
    = (Ok l1, w1) /\
    students l1 ≡ₚ seq 0 N /\
    sick_count l1 = sick_count l ++ [0%Z] /\
    day_number l1 = 1%Z /\
    after_day_one N w1.
Proof using HK H10.
  intros HP Hday. set (w0 := mkWorld g (seeded_store N) []).
  assert (forall a, state (deref w0 a) = HEALTHY) as Hh.
  { intros a. unfold deref. cbn [w0 w_agents]. rewrite seeded_store_at.
    by case_decide. }
  destruct (simulate_day_spec K_module apartments K p q MONDAY l w0)
    as (st1 & w1 & w2 & HP1 & _ & R & Qt & Adv & Ed).
  { apply seeded_store_wf. }
  { rewrite HP. apply NoDup_seq. }
  rewrite no_day_raises in Ed.
  eexists _, w2. split; [exact Ed|]. cbn [students sick_count day_number].
  destruct Qt as [Hag _].
  { intros a. unfold infectious. by rewrite Hh. }
  assert (forall a, deref w1 a = deref w0 a) as Hsame.
  { intros a. unfold deref. by rewrite Hag. }
  split; [by rewrite HP1|]. split; [|split; [lia|]].
  - f_equal. f_equal. unfold sick_so_far. rewrite np_sum_all_false; [done|].
    intros a _. unfold have_been_sick. by rewrite Hsame, Hh.
  - split; [|split].
    + rewrite (adv_length _ _ _ _ Adv), Hag. apply seeded_store_length.
    + apply (adv_wf _ _ _ _ Adv).
    + intros a Ha.
      assert (a ∈ st1) as Hin.
      { rewrite HP1, HP. apply elem_of_seq. lia. }
      pose proof (adv_in _ _ _ _ Adv a Hin) as Hstep.
      rewrite Hsame in Hstep. unfold deref at 1 in Hstep.
      cbn [w0 w_agents] in Hstep. rewrite seeded_store_at in Hstep.
      destruct (decide (a < 10)) as [Hd|Hd].
      * rewrite decide_True in Hstep by lia.
        apply disease_step_flagged in Hstep as (Hs & _ & e & He & Hr);
          [|done|done].
        split; [done|]. exists e. split; [done|]. lia.
      * rewrite decide_False in Hstep by lia.
        apply disease_step_unflagged in Hstep; [|done|done].
        by rewrite Hstep.
Qed.

(** Tuesday: the seeds are counted, and the household rounds flag
    everybody else. *)
Lemma second_day (l : locals) (w : world) :
  students l ≡ₚ seq 0 N -> day_number l = 1%Z -> after_day_one N w ->
  exists l2 w2,
    simulate_day K_module [apt] K 1 q TUESDAY l w = (Ok l2, w2) /\
    students l2 ≡ₚ seq 0 N /\
    sick_count l2 = sick_count l ++ [10%Z] /\
    all_infectious N w2.
Proof using HK H10 Hocc.
  intros HP Hday (Hlen & HF & Hst).
  destruct (simulate_day_spec K_module [apt] K 1 q TUESDAY l w)
    as (st1 & w1 & w2 & HP1 & Ec & R & _ & Adv & Ed); [done| |].
  { rewrite HP. apply NoDup_seq. }
  rewrite no_day_raises in Ec, Ed.
  destruct (contagion_rounds_certain [apt] TUESDAY (students l) w)
    as (st1' & w1' & Ec' & Hflag).
  rewrite Ec in Ec'. injection Ec' as <- <-.
  eexists _, w2. split; [exact Ed|]. cbn [students sick_count].
  split; [by rewrite HP1|]. split; [|split; [|split]].
  - f_equal. f_equal. unfold sick_so_far.
    apply (np_sum_first_ten _ st1 N); [by rewrite HP1|done|].
    intros a Ha. unfold have_been_sick. rewrite (cr_state _ _ R).
    specialize (Hst a Ha). case_decide as Hd.
    + destruct Hst as [-> _]. symmetry. by apply bool_decide_eq_true.
    + rewrite Hst. symmetry. by apply bool_decide_eq_false.
  - by rewrite (adv_length _ _ _ _ Adv), (cr_length _ _ R).
  - apply (adv_wf _ _ _ _ Adv).
  - intros a Ha.
    assert (a ∈ st1) as Hin.
    { rewrite HP1, HP. apply elem_of_seq. lia. }
    pose proof (adv_in _ _ _ _ Adv a Hin) as Hstep.
    pose proof (Hst a Ha) as Hsa. case_decide as Hd.
    + destruct Hsa as (Hs & e & He & Hr).
      apply (disease_step_still_infectious _ e) in Hstep.
      * rewrite Hstep, (cr_state _ _ R). done.
      * by rewrite (cr_state _ _ R).
      * by rewrite (cr_end _ _ R).
      * lia.
    + apply disease_step_flagged in Hstep as (Hs & _); [done| |].
      * by rewrite (cr_state _ _ R).
      * apply (Hflag apt 0 a).
        -- by left.
        -- rewrite Hocc. apply elem_of_seq. lia.
        -- rewrite Hocc. apply elem_of_seq. lia.
        -- unfold infectious. specialize (Hst 0 ltac:(lia)).
           rewrite decide_True in Hst by lia. by destruct Hst as [-> _].
        -- unfold infectious. by rewrite Hsa.
        -- lia.
Qed.

(** Wednesday: everybody is counted. *)
Lemma third_day (p : Q) (apartments : list Apartment) (l : locals)
    (w : world) :
  students l ≡ₚ seq 0 N -> all_infectious N w ->
  exists l3 w3,
    simulate_day K_module apartments K p q WEDNESDAY l w = (Ok l3, w3) /\
    sick_count l3 = sick_count l ++ [Z.of_nat N] /\
    days_inv (sick_count l ++ [Z.of_nat N]) l3 w3.
Proof using HK H10.
  intros HP (Hlen & HF & Hst).
  destruct (simulate_day_spec K_module apartments K p q WEDNESDAY l w)
    as (st1 & w1 & w2 & HP1 & _ & R & _ & Adv & Ed); [done| |].
  { rewrite HP. apply NoDup_seq. }
  rewrite no_day_raises in Ed.
  eexists _, w2. split; [exact Ed|]. cbn [students sick_count].
  assert (sick_so_far w1 st1 = Z.of_nat N) as ->.
  { unfold sick_so_far. rewrite np_sum_all_true.
    - by rewrite HP1, HP, length_seq.
    - intros a Ha. rewrite HP1, HP in Ha. apply elem_of_seq in Ha.
      unfold have_been_sick. rewrite (cr_state _ _ R), Hst by lia. done. }
  split; [done|]. split; [|split]; cbn [students sick_count].
  - rewrite HP1, HP. apply NoDup_seq.
  - apply (adv_wf _ _ _ _ Adv).
  - exists []. by rewrite app_nil_r.
Qed.

End OneHousehold.

(** C4, as the code has it.  The code seeds ten agents and runs twelve
    weeks whatever it is given, so the scenario needs at least ten
    agents.  With one apartment that takes all [N >= 10] agents, certain
    infection at home and none in class, the run returns (the module's
    [K] being positive) and the cumulative series starts 0, 10, [N]: the
    seeds are only flagged on the first day, they are the ten sick on
    the second day, and their housemates, all flagged that evening, are
    counted from the third day. *)
Theorem single_household_scenario :
  forall (K_module N K : nat) (g : rng),
    0 < K_module -> 10 <= N ->
    exists out w',
      run_simulation K_module N 1 N K 1 0 (init_world g) = (Ok out, w') /\
      out_sick_count out !! 0 = Some 0%Z /\
      out_sick_count out !! 1 = Some 10%Z /\
      out_sick_count out !! 2 = Some (Z.of_nat N).
Proof.
  intros K_module N K g HK H10.
  destruct (setup_ok N 1 N g H10) as (st & apts & g' & Es & HP & Hinv & Hlen);
    [lia|].
  destruct apts as [|apt [|? ?]]; try discriminate Hlen.
  assert (occupants apt ≡ₚ seq 0 N) as Hocc.
  { destruct Hinv as [_ Hc]. simpl in Hc. rewrite app_nil_r in Hc.
    by rewrite Hc. }
  rewrite (run_unfold _ _ _ _ _ _ _ _ _ _ _ Es).
  unfold all_Days. rewrite peel_day.
  destruct (first_day K_module K N 0 HK H10 1 [apt]
              {| students := st; infected_count := [];
                 sick_count := []; day_number := 0 |} g')
    as (l1 & w1 & E1 & HP1 & Hs1 & Hd1 & Hw1); [done|done|].
  rewrite (bind_Ok _ _ _ _ _ E1), peel_day.
  destruct (second_day K_module K N 0 apt HK H10 Hocc l1 w1 HP1 Hd1 Hw1)
    as (l2 & w2 & E2 & HP2 & Hs2 & Hw2).
  rewrite (bind_Ok _ _ _ _ _ E2), peel_day.
  destruct (third_day K_module K N 0 HK H10 1 [apt] l2 w2 HP2 Hw2)
    as (l3 & w3 & E3 & Hs3 & Hinv3).
  rewrite (bind_Ok _ _ _ _ _ E3).
  rewrite Hs2, Hs1 in Hinv3. simpl in Hinv3.
  destruct (rest_of_run K_module [apt] K 1 0 _
              [THURSDAY; FRIDAY; SATURDAY; SUNDAY] l3 w3 Hinv3)
    as ([out|e] & w' & E & H); [done| |].
  - exists out, w'. split; [exact E|]. destruct H as (ext & ->). done.
  - destruct H as [_ H]. lia.
Qed.

Lemma single_household_scenario_witness :
  exists out w',
    run_simulation K_notebook 12 1 12 1 1 0 (init_world demo_rng)
    = (Ok out, w') /\
    out_sick_count out !! 0 = Some 0%Z /\
    out_sick_count out !! 1 = Some 10%Z /\
    out_sick_count out !! 2 = Some (Z.of_nat 12).
Proof.
  apply (single_household_scenario K_notebook 12 1 demo_rng).
  - unfold K_notebook. lia.
  - lia.
Defined.

(** The scenario as the specification words it, with four agents, does
    not return: the seeding loop raises at the fifth agent. *)
Lemma four_agent_scenario_counterexample :
  ~ (exists out w',
       run_simulation K_notebook 4 1 4 1 1 0 (init_world demo_rng)
       = (Ok out, w') /\
       out_sick_count out !! 1 = Some 4%Z).
Proof.
  intros (out & w' & E & _). vm_compute in E. discriminate E.
Qed.

(** ** The classroom assignment *)

Section Classrooms.

Context {A : Type}.

Lemma every_kth_length (k : nat) (l : list A) :
  0 < k ->
  forall i, length (every_kth k i l) = (length l + k - 1 - i) / k.
Proof.
  intros Hk. induction l as [|x l IH]; intros i; cbn [every_kth length].
  - symmetry. apply Nat.div_small. lia.
  - destruct i as [|i]; cbn [length].
    + rewrite IH.
      replace (length l + k - 1 - (k - 1)) with (length l) by lia.
      replace (S (length l) + k - 1 - 0) with (length l + 1 * k) by lia.
      rewrite Nat.div_add by lia. lia.
    + rewrite IH. f_equal. lia.
Qed.

(** The slices that start at 0, ..., [k - 1] and step by [k] share the
    list out. *)
Lemma every_kth_partition (k : nat) (l : list A) :
  0 < k -> concat (map (fun i => every_kth k i l) (seq 0 k)) ≡ₚ l.
Proof.
  intros Hk. induction l as [|x l IH].
  - clear Hk. generalize 0. induction k as [|k IHk]; intros s; simpl; [done|].
    apply IHk.
  - destruct k as [|k]; [lia|].
    cbn [seq map concat every_kth].
    replace (S k - 1) with k by lia.
    rewrite <- seq_shift, map_map. cbn [app].
    apply Permutation_skip.
    rewrite seq_S, map_app, concat_app in IH. cbn [map concat] in IH.
    rewrite app_nil_r in IH. rewrite <- IH at 2.
    apply Permutation_app_comm.
Qed.

End Classrooms.

(** X20.  When the module's [K] is the number of classrooms asked for,
    the classrooms are that many, they share the students out and their
    sizes differ by at most one. *)
Lemma assign_to_classrooms_partition (K : nat) (students : list agent_ref)
    (w : world) :
  0 < K ->
  exists students' classrooms g',
    assign_to_classrooms K students K w
    = (Ok (students', classrooms), mkWorld g' (w_agents w) (w_log w)) /\
    length classrooms = K /\
    concat classrooms ≡ₚ students /\
    forall c1 c2, c1 ∈ classrooms -> c2 ∈ classrooms ->
                  length c1 <= length c2 + 1.
Proof.
  intros HK.
  destruct (assign_to_classrooms_spec K students K w) as (st & g' & HP & E).
  assert ((K =? 0) = false) as HK0 by (apply Nat.eqb_neq; lia).
  rewrite HK0 in E. cbn [andb] in E.
  eexists st, _, g'. split; [exact E|].
  split; [by rewrite length_map, length_seq|].
  split; [by rewrite every_kth_partition|].
  intros c1 c2 H1 H2.
  apply list_elem_of_In, in_map_iff in H1 as (i & <- & Hi).
  apply list_elem_of_In, in_map_iff in H2 as (j & <- & Hj).
  apply in_seq in Hi, Hj. rewrite !every_kth_length by done.
  transitivity ((length st + K - 1 - j + 1 * K) / K).
  - apply Nat.Div0.div_le_mono. lia.
  - rewrite Nat.div_add by lia. lia.
Qed.

(** C1 on the code.  The slices are stepped by the module's [K], not by
    the number of classrooms asked for.  Asked for one classroom while
    the module's [K] is more than one, the function returns one group,
    the slice [students[0::K]] of the shuffled students, which leaves
    students out as soon as there are two of them. *)
Theorem classrooms_sliced_by_module_K :
  forall (K_module : nat) (students : list agent_ref) (w : world),
    1 < K_module -> 1 < length students ->
    exists students' group w',
      assign_to_classrooms K_module students 1 w
      = (Ok (students', [group]), w') /\
      students' ≡ₚ students /\
      group = every_kth K_module 0 students' /\
      length (concat [group]) < length students.
Proof.
  intros K_module students w HK Hlen.
  destruct (assign_to_classrooms_spec K_module students 1 w)
    as (st & g' & HP & E).
  assert ((K_module =? 0) = false) as HK0 by (apply Nat.eqb_neq; lia).
  rewrite HK0 in E. cbn [andb] in E.
  eexists st, _, _. split; [exact E|]. split; [done|]. split; [done|].
  simpl. rewrite app_nil_r, every_kth_length by lia. rewrite HP.
  apply Nat.Div0.div_lt_upper_bound. nia.
Qed.

Lemma classrooms_sliced_by_module_K_witness :
  exists students' group w',
    assign_to_classrooms K_notebook [0; 1; 2] 1 (init_world demo_rng)
    = (Ok (students', [group]), w') /\
    students' ≡ₚ [0; 1; 2] /\
    group = every_kth K_notebook 0 students' /\
    length (concat [group]) < length [0; 1; 2].
Proof.
  apply (classrooms_sliced_by_module_K K_notebook [0; 1; 2]
           (init_world demo_rng)).
  - unfold K_notebook. lia.
  - simpl. lia.
Defined.

(** The same call, evaluated: of three students one is in the only
    classroom. *)
Example assign_to_classrooms_three_students :
  fst (assign_to_classrooms K_notebook [0; 1; 2] 1 (init_world demo_rng))
  = Ok ([1; 2; 0], [[1]]).
Proof. vm_compute. reflexivity. Qed.

(** * Further properties of the code *)

(** ** The random helpers *)

(** X1.  The infectious time drawn for an agent, [round] of a float sum
    of a float product, is a whole number of days between 7 and 10, and
    drawing it takes one draw from the generator. *)
Theorem infectious_time_between_7_and_10 :
  forall g : rng,
    (7 <= fst (generate_infectious_time g) <= 10)%Z /\
    snd (generate_infectious_time g) = mkRng (tape g) (S (pos g)).
Proof.
  intros g. split; [apply generate_infectious_time_range|].
  unfold generate_infectious_time, uniform.
  assert (snd (random g) = mkRng (tape g) (S (pos g))) as Hs by reflexivity.
  destruct (random g) as [r g']. done.
Qed.

(** X2.  [bernoulli(prob)] takes one draw and logs one trial.  It answers
    False whenever [prob <= 0] and True whenever [prob >= 1]; and on the
    same generator a trial that succeeds with [prob] succeeds with every
    larger probability. *)
Theorem bernoulli_threshold :
  forall (prob prob' : Q) (w : world),
    (exists b,
       bernoulli prob w
       = (Ok b, mkWorld (mkRng (tape (w_rng w)) (S (pos (w_rng w))))
                  (w_agents w) (EvTrial :: w_log w))) /\
    ((prob <= 0)%Q -> fst (bernoulli prob w) = Ok false) /\
    ((1 <= prob)%Q -> fst (bernoulli prob w) = Ok true) /\
    ((prob <= prob')%Q -> fst (bernoulli prob w) = Ok true ->
     fst (bernoulli prob' w) = Ok true).
Proof.
  intros prob prob' w. unfold bernoulli.
  destruct (uniform_0_1_range (w_rng w)) as (H0 & H1 & Hs).
  destruct (uniform 0 1 (w_rng w)) as [u g']. cbn [fst snd] in *. subst g'.
  split; [by eexists|]. split; [|split].
  - intros Hp. f_equal. destruct (Qltb (F2Q u) prob) eqn:E; [|done].
    apply Qltb_lt in E. exfalso.
    apply (Qlt_irrefl (F2Q u)). eapply Qlt_le_trans; [exact E|].
    by eapply Qle_trans.
  - intros Hp. f_equal. apply Qltb_lt. by eapply Qlt_le_trans.
  - intros Hp [= E]. f_equal. apply Qltb_lt. apply Qltb_lt in E.
    by eapply Qlt_le_trans.
Qed.

Lemma bernoulli_threshold_witness :
  fst (bernoulli (3 # 2) (init_world demo_rng)) = Ok true /\
  fst (bernoulli (-1 # 2) (init_world demo_rng)) = Ok false.
Proof.
  split.
  - destruct (bernoulli_threshold (3 # 2) 2 (init_world demo_rng))
      as (_ & _ & H & _).
    apply H. unfold Qle. simpl. lia.
  - destruct (bernoulli_threshold (-1 # 2) 0 (init_world demo_rng))
      as (_ & H & _).
    apply H. unfold Qle. simpl. lia.
Defined.

(** ** More on the disease automaton *)

Section Course.

Lemma immune_course (days : list Z) (a : StudentAgent) (g : rng) :
  state a = IMMUNE ->
  apply_ops (map OpSimulateDisease days) a g = (Ok a, g).
Proof.
  intros Hs. induction days as [|day days IH]; [done|].
  cbn [map apply_ops apply_op]. by rewrite simulate_disease_IMMUNE.
Qed.

(** An infectious agent stepped on the days [days] recovers exactly if
    its end day is among them. *)
Lemma infectious_course (days : list Z) :
  forall (a : StudentAgent) (g : rng) (e : Z),
    state a = INFECTIOUS -> infectious_end a = Some e ->
    exists a',
      apply_ops (map OpSimulateDisease days) a g = (Ok a', g) /\
      state a' = (if bool_decide (e ∈ days) then IMMUNE else INFECTIOUS) /\
      infectious_end a' = Some e /\ _infected a' = _infected a.
Proof.
  induction days as [|day days IH]; intros a g e Hs He.
  - exists a. by rewrite bool_decide_eq_false_2 by apply not_elem_of_nil.
  - cbn [map apply_ops apply_op]. unfold simulate_disease. rewrite Hs, He.
    destruct (day =? e)%Z eqn:Hd.
    + apply Z.eqb_eq in Hd. subst day. rewrite immune_course by done.
      eexists. split; [reflexivity|].
      rewrite bool_decide_eq_true_2 by by left. done.
    + apply Z.eqb_neq in Hd.
      destruct (IH a g e Hs He) as (a' & E & Hs' & He' & Hf').
      exists a'. split; [done|]. split; [|done].
      rewrite Hs'. destruct (decide (e ∈ days)) as [Hin|Hout].
      * rewrite !bool_decide_eq_true_2; [done|by right|done].
      * rewrite !bool_decide_eq_false_2; [done| |done].
        intros [->|?]%elem_of_cons; done.
Qed.


Lemma init_exposure_inv : exposure_inv StudentAgent_init.
Proof. split; [done|]. intros H. by destruct H. Qed.

Lemma exposure_inv_wf (a : StudentAgent) : exposure_inv a -> agent_wf a.
Proof. intros [_ H] Hs. apply H. by rewrite Hs. Qed.

(** Every call keeps [exposure_inv] and an end day once set. *)
Lemma apply_op_exposure (op : agent_op) (a : StudentAgent) (g : rng) :
  exposure_inv a ->
  exists a' g', apply_op op a g = (Ok a', g') /\ exposure_inv a' /\
    forall e, infectious_end a = Some e -> infectious_end a' = Some e.
Proof.
  intros [H1 H2]. destruct op as [|day]; cbn [apply_op].
  - eexists _, _. split; [reflexivity|]. split; [|done].
    split; [done|]. intros Hs. split; [done|]. by apply H2.
  - unfold simulate_disease. destruct a as [s f e]. simpl in *.
    destruct s.
    + destruct f.
      * destruct (generate_infectious_time g) as [t g'].
        eexists _, _. split; [reflexivity|]. split.
        -- split; [done|]. done.
        -- intros e' He'. rewrite H1 in He' by done. done.
      * eexists _, _. split; [reflexivity|]. split; [by split|done].
    + destruct (H2 ltac:(done)) as [Hf He].
      destruct e as [e|]; [|done].
      destruct (day =? e)%Z; eexists _, _; (split; [reflexivity|]);
        (split; [|done]); split; done.
    + eexists _, _. split; [reflexivity|]. split; [by split|done].
Qed.

Lemma apply_ops_exposure (ops : list agent_op) :
  forall (a : StudentAgent) (g : rng),
    exposure_inv a ->
    exists a' g', apply_ops ops a g = (Ok a', g') /\ exposure_inv a' /\
      forall e, infectious_end a = Some e -> infectious_end a' = Some e.
Proof.
  induction ops as [|op ops IH]; intros a g Hinv.
  - by exists a, g.
  - destruct (apply_op_exposure op a g Hinv) as (a1 & g1 & E1 & Hinv1 & K1).
    destruct (IH a1 g1 Hinv1) as (a2 & g2 & E2 & Hinv2 & K2).
    exists a2, g2. cbn [apply_ops]. rewrite E1. split; [done|].
    split; [done|]. auto.
Qed.

End Course.



(** X4.  An infectious agent recovers on its end day and on no other:
    stepped on the days [days], in any order, it is IMMUNE afterwards if
    its end day is among them and still INFECTIOUS if that day was left
    out, however late the other days are. *)
Theorem recovers_exactly_on_end_day :
  forall (days : list Z) (a : StudentAgent) (g : rng) (e : Z),
    state a = INFECTIOUS -> infectious_end a = Some e ->
    exists a',
      apply_ops (map OpSimulateDisease days) a g = (Ok a', g) /\
      state a' = (if bool_decide (e ∈ days) then IMMUNE else INFECTIOUS) /\
      infectious_end a' = Some e.
Proof.
  intros days a g e Hs He.
  destruct (infectious_course days a g e Hs He) as (a' & E & Hs' & He' & _).
  eauto.
Qed.

Lemma recovers_exactly_on_end_day_witness :
  exists a',
    apply_ops (map OpSimulateDisease [7; 9; 30]%Z)
      (mkAgent INFECTIOUS true (Some 8%Z)) demo_rng = (Ok a', demo_rng) /\
    state a' = (if bool_decide (8%Z ∈ [7; 9; 30]%Z) then IMMUNE else INFECTIOUS) /\
    infectious_end a' = Some 8%Z.
Proof.
  apply (recovers_exactly_on_end_day [7; 9; 30]%Z
           (mkAgent INFECTIOUS true (Some 8%Z)) demo_rng 8%Z);
    reflexivity.
Defined.

(** X5.  A flagged healthy agent stepped on [n] consecutive days, from
    day [d] on, is infectious after the first of them, still infectious
    after seven, and immune after eleven or more. *)
Theorem infectious_for_7_to_10_days :
  forall (d : Z) (n : nat) (a : StudentAgent) (g : rng),
    state a = HEALTHY -> _infected a = true ->
    exists a' g',
      apply_ops (map OpSimulateDisease (seqZ d (Z.of_nat n))) a g
      = (Ok a', g') /\
      (1 <= n <= 7 -> state a' = INFECTIOUS) /\
      (11 <= n -> state a' = IMMUNE).
Proof.
  intros d n a g Hs Hf. destruct n as [|n].
  { exists a, g. split; [done|]. split; lia. }
  rewrite seqZ_cons by lia. cbn [map apply_ops apply_op].
  unfold simulate_disease. rewrite Hs, Hf.
  pose proof (generate_infectious_time_range g) as Hr.
  destruct (generate_infectious_time g) as [t g']. cbn [fst] in Hr.
  set (a1 := {| state := INFECTIOUS; _infected := true;
                infectious_end := Some (d + t)%Z |}).
  destruct (infectious_course
              (seqZ (Z.succ d) (Z.pred (Z.of_nat (S n)))) a1 g' (d + t)%Z)
    as (a' & E & Hs' & _); [done|done|].
  exists a', g'. split; [exact E|]. rewrite Hs'. split.
  - intros Hn. rewrite bool_decide_eq_false_2; [done|].
    rewrite elem_of_seqZ. lia.
  - intros Hn. rewrite bool_decide_eq_true_2; [done|].
    rewrite elem_of_seqZ. lia.
Qed.

Lemma infectious_for_7_to_10_days_witness :
  exists a' g',
    apply_ops (map OpSimulateDisease (seqZ 1 (Z.of_nat 12)))
      (infect StudentAgent_init) demo_rng = (Ok a', g') /\
    (1 <= 12 <= 7 -> state a' = INFECTIOUS) /\
    (11 <= 12 -> state a' = IMMUNE).
Proof.
  apply (infectious_for_7_to_10_days 1 12 (infect StudentAgent_init) demo_rng);
    reflexivity.
Defined.

(** X6.  For an agent created by [StudentAgent()] and changed only by
    its methods: it has been sick exactly when its end day is set; it
    has been sick only if it was flagged; and an end day, once set, is
    never changed by later calls. *)
Theorem infectious_end_set_once :
  forall (ops1 ops2 : list agent_op) (g : rng),
  exists a1 g1 a2 g2,
    apply_ops ops1 StudentAgent_init g = (Ok a1, g1) /\
    apply_ops ops2 a1 g1 = (Ok a2, g2) /\
    (have_been_sick a1 = true <-> infectious_end a1 <> None) /\
    (have_been_sick a1 = true -> _infected a1 = true) /\
    (forall e, infectious_end a1 = Some e -> infectious_end a2 = Some e).
Proof.
  intros ops1 ops2 g.
  destruct (apply_ops_exposure ops1 _ g init_exposure_inv)
    as (a1 & g1 & E1 & [H1 H2] & _).
  destruct (apply_ops_exposure ops2 a1 g1 (conj H1 H2))
    as (a2 & g2 & E2 & _ & K).
  exists a1, g1, a2, g2. split; [done|]. split; [done|].
  unfold have_been_sick. split; [|split; [|done]].
  - destruct (state a1) eqn:Hs; simpl.
    + split; [done|]. intros Hn. by rewrite H1 in Hn.
    + split; [|done]. intros _. by apply H2.
    + split; [|done]. intros _. by apply H2.
  - destruct (state a1) eqn:Hs; simpl; [done| |]; intros _; by apply H2.
Qed.

(** ** The [Apartment] class *)

(** X7.  An apartment keeps its occupants in the order they were added
    and never changes its capacity; [is_full] answers True exactly when
    the number of occupants equals the capacity, so an apartment holding
    more than its capacity answers False again. *)
Theorem apartment_full_iff_exactly_capacity :
  forall (cap : nat) (os : list agent_ref),
    occupants (add_occupants os (Apartment_init cap)) = os /\
    capacity (add_occupants os (Apartment_init cap)) = cap /\
    (is_full (add_occupants os (Apartment_init cap)) = true
     <-> length os = cap).
Proof.
  intros cap os.
  assert (forall apt,
            occupants (add_occupants os apt) = occupants apt ++ os /\
            capacity (add_occupants os apt) = capacity apt) as H.
  { induction os as [|o os IH]; intros apt; simpl.
    - by rewrite app_nil_r.
    - destruct (IH (add_occupant o apt)) as [-> ->]. simpl.
      by rewrite <- app_assoc. }
  destruct (H (Apartment_init cap)) as [Ho Hc]. simpl in Ho, Hc.
  split; [done|]. split; [done|].
  unfold is_full. rewrite Ho, Hc. apply Nat.eqb_eq.
Qed.

(** ** More on the contagion step *)

Section ContagionEdges.

Lemma for_each_noop {A} (l : list A) (body : A -> Py unit) (w : world) :
  (forall x, x ∈ l -> body x w = (Ok tt, w)) ->
  for_each l body w = (Ok tt, w).
Proof.
  induction l as [|x l IH]; intros H; simpl; [done|].
  rewrite (bind_Ok _ _ _ _ _ (H x ltac:(by left))).
  apply IH. intros y Hy. apply H. by right.
Qed.

Lemma infection_event_noop (prob : Q) (a1 a2 : agent_ref) (w : world) :
  infectious (deref w a1) = false \/ infectious (deref w a2) = true ->
  infection_event prob a1 a2 w = (Ok tt, w).
Proof.
  intros H. unfold infection_event.
  rewrite (bind_Ok _ _ w w (infectious (deref w a1))) by reflexivity.
  destruct (infectious (deref w a1)); [|done].
  rewrite (bind_Ok _ _ w w (infectious (deref w a2))) by reflexivity.
  destruct H as [H|H]; [done|]. by rewrite H.
Qed.

Lemma agent_eq (a b : StudentAgent) :
  state a = state b -> _infected a = _infected b ->
  infectious_end a = infectious_end b -> a = b.
Proof. destruct a, b. simpl. congruence. Qed.

Variable prob : Q.

(** The two extremes of the probability, read off [bernoulli]. *)
Lemma bernoulli_sure (w : world) :
  (1 <= prob)%Q ->
  exists g',
    bernoulli prob w = (Ok true, mkWorld g' (w_agents w) (EvTrial :: w_log w)).
Proof.
  intros Hp. unfold bernoulli.
  destruct (uniform_0_1_range (w_rng w)) as (_ & H1 & _).
  destruct (uniform 0 1 (w_rng w)) as [u g']. cbn [fst] in H1.
  exists g'. f_equal. f_equal. apply Qltb_lt. by eapply Qlt_le_trans.
Qed.

Lemma bernoulli_impossible (w : world) :
  (prob <= 0)%Q ->
  exists g',
    bernoulli prob w = (Ok false, mkWorld g' (w_agents w) (EvTrial :: w_log w)).
Proof.
  intros Hp. unfold bernoulli.
  destruct (uniform_0_1_range (w_rng w)) as (H0 & _ & _).
  destruct (uniform 0 1 (w_rng w)) as [u g']. cbn [fst] in H0.
  exists g'. f_equal. f_equal. destruct (Qltb (F2Q u) prob) eqn:E; [|done].
  apply Qltb_lt in E. exfalso. apply (Qlt_irrefl (F2Q u)).
  eapply Qlt_le_trans; [exact E|]. by eapply Qle_trans.
Qed.

Lemma infection_event_sure (a1 a2 : agent_ref) (w : world) :
  (1 <= prob)%Q ->
  infectious (deref w a1) = true -> infectious (deref w a2) = false ->
  a2 < length (w_agents w) ->
  exists w', infection_event prob a1 a2 w = (Ok tt, w') /\
             _infected (deref w' a2) = true.
Proof.
  intros Hp I1 I2 Hlt. unfold infection_event.
  rewrite (bind_Ok _ _ w w (infectious (deref w a1))) by reflexivity.
  rewrite I1.
  rewrite (bind_Ok _ _ w w (infectious (deref w a2))) by reflexivity.
  rewrite I2. cbn [negb].
  destruct (bernoulli_sure w Hp) as (g' & Eb). rewrite (bind_Ok _ _ _ _ _ Eb).
  unfold call_infect. eexists. split; [reflexivity|].
  unfold deref. cbn [w_agents]. rewrite agent_at_insert.
  by rewrite decide_True.
Qed.

Lemma infection_event_impossible (a1 a2 : agent_ref) (w : world) :
  (prob <= 0)%Q ->
  exists w', infection_event prob a1 a2 w = (Ok tt, w') /\
             w_agents w' = w_agents w.
Proof.
  intros Hp. unfold infection_event.
  rewrite (bind_Ok _ _ w w (infectious (deref w a1))) by reflexivity.
  destruct (infectious (deref w a1)); [|by exists w].
  rewrite (bind_Ok _ _ w w (infectious (deref w a2))) by reflexivity.
  destruct (infectious (deref w a2)); cbn [negb]; [by exists w|].
  destruct (bernoulli_impossible w Hp) as (g' & Eb).
  rewrite (bind_Ok _ _ _ _ _ Eb).
  unfold ret. eexists. split; [reflexivity|]. done.
Qed.

Lemma randomly_infect_impossible (group : list agent_ref) (w : world) :
  (prob <= 0)%Q ->
  exists w', randomly_infect group prob w = (Ok tt, w') /\
             w_agents w' = w_agents w.
Proof.
  intros Hp. unfold randomly_infect.
  apply (for_each_total (fun w' => w_agents w' = w_agents w)); [|done].
  intros a1 w1 _ H1.
  apply (for_each_total (fun w' => w_agents w' = w_agents w)); [|done].
  intros a2 w2 _ H2.
  destruct (infection_event_impossible a1 a2 w2 Hp) as (w3 & E & H3).
  exists w3. split; [done|congruence].
Qed.

Lemma inner_loop_sure (group : list agent_ref) (w0 w : world)
    (a1 : agent_ref) :
  (1 <= prob)%Q ->
  contagion_rel w0 w -> infectious (deref w0 a1) = true ->
  exists w', for_each group (infection_event prob a1) w = (Ok tt, w') /\
    contagion_rel w w' /\
    forall b, b ∈ group -> infectious (deref w0 b) = false ->
              b < length (w_agents w0) -> _infected (deref w' b) = true.
Proof.
  intros Hp R0 I1.
  destruct (for_each_visited
              (fun w1 => contagion_rel w w1)
              (fun b w1 => infectious (deref w0 b) = false ->
                           b < length (w_agents w0) ->
                           _infected (deref w1 b) = true)
              group (infection_event prob a1)) with (w := w)
    as (w' & E & R & V & _).
  - intros b w1 _ R1.
    destruct (infection_event_spec prob a1 b w1) as (w2 & E2 & R2 & _).
    exists w2. split; [done|]. split; [by eapply contagion_rel_trans|].
    assert (contagion_rel w0 w1) as R01 by by eapply contagion_rel_trans.
    split.
    + intros Ib Hlt.
      destruct (infection_event_sure a1 b w1 Hp) as (w2' & E2' & F).
      * by rewrite (contagion_rel_infectious _ _ _ R01).
      * by rewrite (contagion_rel_infectious _ _ _ R01).
      * by rewrite (cr_length _ _ R01).
      * congruence.
    + intros y Vy Iy Hy. apply (cr_flag _ _ R2). by apply Vy.
  - apply contagion_rel_refl.
  - exists w'. split; [done|]. split; [done|]. intros b Hb. by apply V.
Qed.

Lemma randomly_infect_sure (group : list agent_ref) (w : world) :
  (1 <= prob)%Q ->
  exists w', randomly_infect group prob w = (Ok tt, w') /\
    forall a b, a ∈ group -> b ∈ group ->
      infectious (deref w a) = true -> infectious (deref w b) = false ->
      b < length (w_agents w) -> _infected (deref w' b) = true.
Proof.
  intros Hp. unfold randomly_infect.
  destruct (for_each_visited
              (fun w1 => contagion_rel w w1)
              (fun a w1 => infectious (deref w a) = true ->
                 forall b, b ∈ group -> infectious (deref w b) = false ->
                           b < length (w_agents w) ->
                           _infected (deref w1 b) = true)
              group (fun a1 => for_each group (infection_event prob a1)))
    with (w := w) as (w' & E & R & V & _).
  - intros a1 w1 _ R1.
    destruct (inner_loop_spec prob a1 group w1) as (w2 & E2 & R2 & _).
    exists w2. split; [done|]. split; [by eapply contagion_rel_trans|].
    split.
    + intros Ia b Hb Ib Hlt.
      destruct (inner_loop_sure group w w1 a1 Hp R1 Ia) as (w2' & E2' & _ & F).
      assert (w2' = w2) as -> by congruence. by apply F.
    + intros y Vy Iy b Hb Ib Hlt. apply (cr_flag _ _ R2). by apply Vy.
  - apply contagion_rel_refl.
  - exists w'. split; [done|].
    intros a b Ha Hb Ia Ib Hlt. by apply (V a Ha Ia b).
Qed.

End ContagionEdges.

(** X8.  A group in which nobody is infectious, or in which everybody
    is, has no pair to try: [randomly_infect] returns with the agents,
    the generator and the log exactly as they were.  This covers the
    empty group and every group of one. *)
Theorem randomly_infect_without_pair :
  forall (group : list agent_ref) (prob : Q) (w : world),
    (forall a, a ∈ group -> infectious (deref w a) = false) \/
    (forall a, a ∈ group -> infectious (deref w a) = true) ->
    randomly_infect group prob w = (Ok tt, w).
Proof.
  intros group prob w H. unfold randomly_infect.
  apply for_each_noop. intros a1 H1.
  apply for_each_noop. intros a2 H2.
  apply infection_event_noop. destruct H as [H|H]; [left|right]; auto.
Qed.

Lemma randomly_infect_without_pair_witness :
  randomly_infect [3] (1 # 2) (mkWorld demo_rng (seeded_store 12) [])
  = (Ok tt, mkWorld demo_rng (seeded_store 12) []).
Proof.
  apply (randomly_infect_without_pair [3] (1 # 2)
           (mkWorld demo_rng (seeded_store 12) [])).
  left. intros a Ha. apply list_elem_of_singleton in Ha. subst a.
  reflexivity.
Defined.

(** X9.  The extremes of the probability.  With [prob <= 0] a call of
    [randomly_infect] leaves every agent as it was.  With [prob >= 1]
    every member that is not infectious is flagged after the call, as
    soon as the group has an infectious member. *)
Theorem randomly_infect_extremes :
  forall (group : list agent_ref) (prob : Q) (w : world),
  exists w', randomly_infect group prob w = (Ok tt, w') /\
    ((prob <= 0)%Q -> w_agents w' = w_agents w) /\
    ((1 <= prob)%Q ->
     forall a b, a ∈ group -> b ∈ group ->
       infectious (deref w a) = true -> infectious (deref w b) = false ->
       b < length (w_agents w) -> _infected (deref w' b) = true).
Proof.
  intros group prob w.
  destruct (randomly_infect_rel group prob w) as (w' & E & _).
  exists w'. split; [done|]. split.
  - intros Hp. destruct (randomly_infect_impossible prob group w Hp)
      as (w2 & E2 & H2). congruence.
  - intros Hp. destruct (randomly_infect_sure prob group w Hp)
      as (w2 & E2 & H2). assert (w2 = w') as -> by congruence. done.
Qed.

(** X10.  What [randomly_infect] leaves alone: the store keeps its
    size, and every agent that is outside the group, or infectious at
    entry, or already flagged at entry, is left exactly as it was.  Of
    no agent at all is the state or the end day touched, and a flag is
    never cleared: all the call can do to an agent is set its flag. *)
Theorem randomly_infect_frame :
  forall (group : list agent_ref) (prob : Q) (w : world),
  exists w', randomly_infect group prob w = (Ok tt, w') /\
    length (w_agents w') = length (w_agents w) /\
    (forall b, b ∉ group \/ infectious (deref w b) = true \/
               _infected (deref w b) = true ->
               deref w' b = deref w b) /\
    (forall b, state (deref w' b) = state (deref w b)) /\
    (forall b, _infected (deref w b) = true -> _infected (deref w' b) = true) /\
    (forall b, infectious_end (deref w' b) = infectious_end (deref w b)) /\
    (forall b, deref w' b = deref w b \/ deref w' b = infect (deref w b)).
Proof.
  intros group prob w. unfold randomly_infect.
  destruct (outer_loop_spec prob group group w) as (w' & E & R & F & _).
  exists w'. split; [done|]. split; [apply (cr_length _ _ R)|].
  split; [|split; [apply (cr_state _ _ R)|
           split; [apply (cr_flag _ _ R)|split; [apply (cr_end _ _ R)|]]]].
  2:{ intros b. destruct (_infected (deref w' b)) eqn:Hf'.
      - destruct (_infected (deref w b)) eqn:Hf.
        + left. apply agent_eq;
            [apply (cr_state _ _ R)|congruence|apply (cr_end _ _ R)].
        + right. apply agent_eq; cbn [infect state _infected infectious_end];
            [apply (cr_state _ _ R)|done|apply (cr_end _ _ R)].
      - left. apply agent_eq;
          [apply (cr_state _ _ R)| |apply (cr_end _ _ R)].
        rewrite Hf'. destruct (_infected (deref w b)) eqn:Hf; [|done].
        by rewrite (cr_flag _ _ R b Hf) in Hf'. }
  intros b Hb. apply agent_eq.
  - apply (cr_state _ _ R).
  - destruct (bool_decide (_infected (deref w' b) = _infected (deref w b)))
      eqn:Hd.
    + by apply bool_decide_eq_true in Hd.
    + apply bool_decide_eq_false in Hd.
      destruct (F b Hd) as (Hin & Hni & _).
      destruct Hb as [Hb|[Hb|Hb]]; [done|congruence|].
      exfalso. apply Hd. rewrite Hb. by apply (cr_flag _ _ R).
  - apply (cr_end _ _ R).
Qed.

(** ** More on the classroom assignment *)

Section ClassroomEdges.

Lemma every_kth_subseteq {A} (k c : nat) (l : list A) (x : A) :
  x ∈ every_kth k c l -> x ∈ l.
Proof.
  revert c. induction l as [|y l IH]; intros c; simpl; [done|].
  destruct c as [|c].
  - intros [->|H]%elem_of_cons; [by left|]. right. by eapply IH.
  - intros H. right. by eapply IH.
Qed.

Lemma concat_classrooms_app {A} (k : nat) (l : list A) (n m : nat) :
  concat (map (fun i => every_kth k i l) (seq 0 (n + m)))
  = concat (map (fun i => every_kth k i l) (seq 0 n))
    ++ concat (map (fun i => every_kth k i l) (seq n m)).
Proof. by rewrite seq_app, map_app, concat_app. Qed.

End ClassroomEdges.

(** X11.  The outcome of [assign_to_classrooms].  It raises the
    slice-step error exactly when the module's [K] is zero and at least
    one classroom is asked for; asked for no classroom it returns the
    empty list even then.  When it returns, it returns as many groups as
    asked for, every member of a group is one of the students, and the
    students handed back are a permutation of those passed in.  The
    agents and the log are never touched. *)
Theorem assign_to_classrooms_outcome :
  forall (K_module : nat) (students : list agent_ref) (n : nat) (w : world),
  exists r g',
    assign_to_classrooms K_module students n w
    = (r, mkWorld g' (w_agents w) (w_log w)) /\
    (r = Raise ValueError_slice_step <-> K_module = 0 /\ n <> 0) /\
    (~ (K_module = 0 /\ n <> 0) ->
     exists students' classrooms,
       r = Ok (students', classrooms) /\
       students' ≡ₚ students /\ length classrooms = n /\
       forall c s, c ∈ classrooms -> s ∈ c -> s ∈ students).
Proof.
  intros K_module students n w.
  destruct (assign_to_classrooms_spec K_module students n w)
    as (st & g' & HP & E).
  eexists _, g'. split; [exact E|].
  destruct ((K_module =? 0) && negb (n =? 0)) eqn:Hc.
  - apply andb_true_iff in Hc as [HK Hn].
    apply Nat.eqb_eq in HK. apply negb_true_iff, Nat.eqb_neq in Hn.
    split; [done|]. intros H. by destruct H.
  - assert (~ (K_module = 0 /\ n <> 0)) as Hno.
    { intros [HK Hn]. apply Nat.eqb_eq in HK. apply Nat.eqb_neq in Hn.
      rewrite HK, Hn in Hc. discriminate. }
    split; [split; [discriminate|done]|]. intros _.
    eexists st, _. split; [reflexivity|]. split; [done|].
    split; [by rewrite length_map, length_seq|].
    intros c s Hcl Hs.
    apply list_elem_of_In, in_map_iff in Hcl as (i & <- & _).
    rewrite <- HP. by eapply every_kth_subseteq.
Qed.

(** X12.  How far the classrooms are from a partition when the module's
    [K] is not the number asked for.  With distinct students and a
    positive module [K]: asked for at most [K] classrooms, no student is
    in two of them nor twice in one (but some may be in none); asked for
    at least [K], every student is in some classroom (but some may be in
    several). *)
Theorem classrooms_disjoint_or_covering :
  forall (K_module : nat) (students : list agent_ref) (n : nat) (w : world),
    0 < K_module -> NoDup students ->
    exists students' classrooms w',
      assign_to_classrooms K_module students n w
      = (Ok (students', classrooms), w') /\
      (n <= K_module -> NoDup (concat classrooms)) /\
      (K_module <= n -> forall s, s ∈ students -> s ∈ concat classrooms).
Proof.
  intros K_module students n w HK Hnd.
  destruct (assign_to_classrooms_spec K_module students n w)
    as (st & g' & HP & E).
  assert ((K_module =? 0) = false) as HK0 by (apply Nat.eqb_neq; lia).
  rewrite HK0 in E. cbn [andb] in E.
  eexists st, _, _. split; [exact E|].
  pose proof (every_kth_partition K_module st HK) as Hpart.
  split.
  - intros Hle.
    assert (seq 0 K_module = seq 0 (n + (K_module - n))) as Hseq
      by (f_equal; lia).
    rewrite Hseq, concat_classrooms_app in Hpart.
    assert (NoDup (concat (map (fun i => every_kth K_module i st) (seq 0 n))
                   ++ concat (map (fun i => every_kth K_module i st)
                                (seq n (K_module - n))))) as Hnd'.
    { rewrite Hpart, HP. done. }
    by apply NoDup_app in Hnd' as [? _].
  - intros Hle s Hs. replace n with (K_module + (n - K_module)) by lia.
    rewrite concat_classrooms_app. apply elem_of_app. left.
    by rewrite Hpart, HP.
Qed.

Lemma classrooms_disjoint_or_covering_witness :
  exists students' classrooms w',
    assign_to_classrooms 3 [0; 1; 2; 3; 4] 2 (init_world demo_rng)
    = (Ok (students', classrooms), w') /\
    (2 <= 3 -> NoDup (concat classrooms)) /\
    (3 <= 2 -> forall s, s ∈ [0; 1; 2; 3; 4] -> s ∈ concat classrooms).
Proof.
  apply (classrooms_disjoint_or_covering 3 [0; 1; 2; 3; 4] 2
           (init_world demo_rng)).
  - lia.
  - apply (bool_decide_unpack (NoDup [0; 1; 2; 3; 4])). vm_compute. exact I.
Defined.

Lemma assign_to_classrooms_partition_witness :
  exists students' classrooms g',
    assign_to_classrooms 3 [0; 1; 2; 3; 4; 5; 6] 3 (init_world demo_rng)
    = (Ok (students', classrooms), mkWorld g' [] []) /\
    length classrooms = 3 /\
    concat classrooms ≡ₚ [0; 1; 2; 3; 4; 5; 6] /\
    forall c1 c2, c1 ∈ classrooms -> c2 ∈ classrooms ->
                  length c1 <= length c2 + 1.
Proof.
  apply (assign_to_classrooms_partition 3 [0; 1; 2; 3; 4; 5; 6]
           (init_world demo_rng)).
  lia.
Defined.

(** ** More on the housing allocation *)

Section HousingEdges.

Lemma all_full (B : nat) (apts : list Apartment) :
  Forall (fun a => capacity a = B /\ length (occupants a) <= B) apts ->
  length (concat (map occupants apts)) = length apts * B ->
  Forall (fun a => length (occupants a) = B /\ is_full a = true) apts.
Proof.
  induction 1 as [|a apts [Hc Ha] HF IH]; intros Hlen; [done|].
  simpl in Hlen. rewrite length_app in Hlen.
  pose proof (occupants_le B apts HF) as Hle.
  assert (length (occupants a) = B) as Hfull by lia.
  constructor.
  - split; [done|]. unfold is_full. apply Nat.eqb_eq. congruence.
  - apply IH. lia.
Qed.

End HousingEdges.

(** X13.  When the students are exactly as many as the apartments have
    places ([len(students) == M * B]), the allocation returns and every
    apartment ends up full, with exactly [B] occupants. *)
Theorem exact_capacity_fills_every_apartment :
  forall (M B : nat) (students : list agent_ref) (w : world),
    length students = M * B ->
    exists apartments g',
      allocate_students students
        (map (fun _ => Apartment_init B) (seq 0 M)) w
      = (Ok apartments, mkWorld g' (w_agents w) (w_log w)) /\
      length apartments = M /\
      Forall (fun a => length (occupants a) = B /\ is_full a = true)
        apartments.
Proof.
  intros M B students w Hlen.
  destruct (allocate_students_ok B students [] _ w (housing_inv_init B M))
    as (apts & g' & E & [HF HP] & HM).
  { rewrite length_init_apartments. simpl. lia. }
  rewrite app_nil_r in HP. rewrite length_init_apartments in HM.
  exists apts, g'. split; [exact E|]. split; [exact HM|].
  apply all_full; [done|]. rewrite HP, HM. done.
Qed.

Lemma exact_capacity_fills_every_apartment_witness :
  exists apartments g',
    allocate_students [0; 1; 2; 3; 4; 5]
      (map (fun _ => Apartment_init 3) (seq 0 2)) (init_world demo_rng)
    = (Ok apartments, mkWorld g' [] []) /\
    length apartments = 2 /\
    Forall (fun a => length (occupants a) = 3 /\ is_full a = true) apartments.
Proof.
  apply (exact_capacity_fills_every_apartment 2 3 [0; 1; 2; 3; 4; 5]
           (init_world demo_rng)).
  reflexivity.
Defined.

(** ** The series of a whole run *)

Section Series.

Context {A S : Type}.

(** A loop whose body moves an invariant indexed by the number of turns
    one step on, or raises an exception in [P]. *)
Lemma for_fold_indexed (I : nat -> S -> world -> Prop) (P : exn -> Prop)
    (l : list A) (body : A -> S -> Py S) :
  (forall x k s w, I k s w ->
     exists r w', body x s w = (r, w') /\
       match r with Ok s' => I (Datatypes.S k) s' w' | Raise e => P e end) ->
  forall k s w, I k s w ->
  exists r w', for_fold l body s w = (r, w') /\
    match r with Ok s' => I (k + length l) s' w' | Raise e => P e end.
Proof.
  intros Hbody. induction l as [|x l IH]; intros k s w Hw; simpl.
  - exists (Ok s), w. by rewrite Nat.add_0_r.
  - destruct (Hbody x k s w Hw) as ([s1|e] & w1 & E & H1).
    + rewrite (bind_Ok _ _ _ _ _ E).
      destruct (IH (Datatypes.S k) s1 w1 H1) as (r & w' & E' & H').
      exists r, w'. split; [done|]. destruct r; [|done].
      by replace (k + Datatypes.S (length l)) with (Datatypes.S k + length l)
        by lia.
    + rewrite (bind_Raise _ _ _ _ _ E). by exists (Raise e), w1.
Qed.

End Series.

Section SeriesFacts.

Lemma np_sum_nonneg (l : list bool) : (0 <= np_sum l)%Z.
Proof. induction l as [|[|] l IH]; simpl; lia. Qed.

Lemma np_sum_le_length (l : list bool) : (np_sum l <= Z.of_nat (length l))%Z.
Proof. induction l as [|[|] l IH]; simpl length; simpl np_sum; lia. Qed.

Lemma np_sum_ge_ten (f : agent_ref -> bool) (st : list agent_ref) (N : nat) :
  st ≡ₚ seq 0 N -> 10 <= N ->
  (forall a, a < 10 -> f a = true) ->
  (10 <= np_sum (map f st))%Z.
Proof.
  intros HP H10 Hf.
  rewrite (np_sum_Permutation _ _ (Permutation_map f HP)).
  replace N with (10 + (N - 10)) by lia.
  rewrite seq_app, map_app, np_sum_app.
  rewrite np_sum_all_true.
  - rewrite length_seq. pose proof (np_sum_nonneg (map f (seq (0 + 10) (N - 10)))).
    lia.
  - intros a [Ha1 Ha2]%elem_of_seq. apply Hf. lia.
Qed.

Lemma day_raises_zero_step (K_module K : nat) (day : Days) :
  day_raises K_module K day = true -> zero_step K_module K.
Proof.
  unfold day_raises. intros H.
  apply andb_true_iff in H as [H Hk]. apply andb_true_iff in H as [_ H].
  apply Nat.eqb_eq in H. apply negb_true_iff, Nat.eqb_neq in Hk. by split.
Qed.

Lemma advanced_flag (day : Z) (students : list agent_ref) (w w' : world)
    (a : agent_ref) :
  advanced day students w w' ->
  _infected (deref w' a) = _infected (deref w a).
Proof.
  intros Adv. destruct (decide (a ∈ students)) as [Hin|Hout].
  - by apply (disease_step_inv day), (adv_in _ _ _ _ Adv).
  - by rewrite (adv_out _ _ _ _ Adv a Hout).
Qed.

Variable N K_module K : nat.
Variable apartments : list Apartment.
Variables p q : Q.
Hypothesis H10 : 10 <= N.

(** One day moves [series_inv] one day on, or raises because of the
    zero step. *)
Lemma simulate_day_series (day : Days) (k : nat) (l : locals) (w : world) :
  series_inv N k l w ->
  exists r w',
    simulate_day K_module apartments K p q day l w = (r, w') /\
    match r with
    | Ok l' => series_inv N (S k) l' w'
    | Raise e => zero_step K_module K
    end.
Proof using H10.
  intros [HP HF Hst Hday Hli Hls Hb Hfi Hla Hfl Hfr Hse].
  destruct (simulate_day_spec K_module apartments K p q day l w HF)
    as (st1 & w1 & w2 & HP1 & _ & R & _ & Adv & Ed).
  { rewrite HP. apply NoDup_seq. }
  eexists _, _. split; [exact Ed|].
  destruct (day_raises K_module K day) eqn:Hr.
  { by apply (day_raises_zero_step _ _ day). }
  assert (st1 ≡ₚ seq 0 N) as HP1' by by rewrite HP1.
  assert (length st1 = N) as Hlen1 by by rewrite HP1', length_seq.
  constructor; cbn [students infected_count sick_count day_number].
  - done.
  - apply (adv_wf _ _ _ _ Adv).
  - by rewrite (adv_length _ _ _ _ Adv), (cr_length _ _ R).
  - lia.
  - rewrite length_app. simpl. lia.
  - rewrite length_app. simpl. lia.
  - apply Forall2_app; [done|]. constructor; [|constructor].
    split; [split|].
    + apply np_sum_nonneg.
    + apply infectious_le_sick.
    + unfold sick_so_far.
      pose proof (np_sum_le_length
                    (map (fun a => have_been_sick (deref w1 a)) st1)) as Hle.
      rewrite length_map, Hlen1 in Hle. done.
  - intros x Hx. destruct (sick_count l) as [|y ys] eqn:Hsc.
    + simpl in Hx. injection Hx as <-. simpl in Hls. subst k.
      unfold sick_so_far. apply np_sum_all_false. intros a _.
      unfold have_been_sick. rewrite (cr_state _ _ R), Hfr; done.
    + simpl in Hx. injection Hx as <-. by apply Hfi.
  - intros i x Hx.
    destruct (decide (S i < length (sick_count l))) as [Hlt|Hge].
    + rewrite lookup_app_l in Hx by done. by eapply Hla.
    + pose proof (lookup_lt_Some _ _ _ Hx) as Hlen.
      rewrite length_app in Hlen. simpl in Hlen.
      rewrite lookup_app_r in Hx by lia.
      replace (S i - length (sick_count l)) with 0 in Hx by lia.
      simpl in Hx. injection Hx as <-.
      unfold sick_so_far. apply (np_sum_ge_ten _ st1 N); [done|done|].
      intros a Ha. unfold have_been_sick. rewrite (cr_state _ _ R).
      apply Hse; [lia|done].
  - intros a Ha. rewrite (advanced_flag _ _ _ _ a Adv).
    apply (cr_flag _ _ R). by apply Hfl.
  - discriminate.
  - intros _ a Ha.
    assert (a ∈ st1) as Hin by (rewrite HP1'; apply elem_of_seq; lia).
    pose proof (adv_in _ _ _ _ Adv a Hin) as Hstep.
    pose proof (cr_flag _ _ R a (Hfl a Ha)) as Hflag.
    unfold have_been_sick.
    destruct (state (deref w1 a)) eqn:Hs1.
    + apply disease_step_flagged in Hstep as (-> & _); done.
    + apply disease_step_inv in Hstep as [Hstep _]. rewrite Hs1 in Hstep.
      destruct Hstep as [-> | [[? ?] | [_ ->]]]; done.
    + apply disease_step_inv in Hstep as [Hstep _]. rewrite Hs1 in Hstep.
      destruct Hstep as [-> | [[? ?] | [? ?]]]; done.
Qed.

End SeriesFacts.

Section RunSeries.

Lemma np_diff_length (l : list Z) : length (np_diff l) = length l - 1.
Proof.
  induction l as [|x [|y l] IH]; [done|done|].
  change (np_diff (x :: y :: l)) with ((y - x)%Z :: np_diff (y :: l)).
  simpl length in *. lia.
Qed.

(** The differences of a series add up to its last entry less its
    first. *)
Lemma np_diff_telescope (l : list Z) :
  forall x z, last (x :: l) = Some z -> sumZ (np_diff (x :: l)) = (z - x)%Z.
Proof.
  induction l as [|y l IH]; intros x z Hl.
  - simpl in *. injection Hl as <-. lia.
  - change (np_diff (x :: y :: l)) with ((y - x)%Z :: np_diff (y :: l)).
    change (last (x :: y :: l)) with (last (y :: l)) in Hl.
    unfold sumZ in *. rewrite foldr_cons, (IH y z Hl). lia.
Qed.

Lemma np_diff_nonneg (l : list Z) :
  nondecreasing l -> Forall (fun d => (0 <= d)%Z) (np_diff l).
Proof.
  induction l as [|x [|y l] IH]; intros Hm; [done|done|].
  change (np_diff (x :: y :: l)) with ((y - x)%Z :: np_diff (y :: l)).
  constructor.
  - specialize (Hm 0 x y eq_refl eq_refl). lia.
  - apply IH. intros i a b Ha Hb. by apply (Hm (S i) a b).
Qed.

Lemma seeded_series_inv (N M B : nat) (g : rng) sa (w1 : world) :
  setup N M B (init_world g) = (Ok sa, w1) ->
  10 <= N /\
  series_inv N 0 {| students := fst sa; infected_count := [];
                    sick_count := []; day_number := 0 |} w1.
Proof.
  intros Es.
  destruct (setup_Ok_inv _ _ _ _ _ _ Es) as (H10 & _ & Hag & _ & HP & _ & _).
  split; [done|].
  constructor; cbn [students infected_count sick_count day_number].
  - done.
  - rewrite Hag. apply seeded_store_wf.
  - rewrite Hag. apply seeded_store_length.
  - done.
  - done.
  - done.
  - constructor.
  - done.
  - done.
  - intros a Ha. unfold deref. rewrite Hag, seeded_store_at.
    by rewrite decide_True by lia.
  - intros _ a. unfold deref. rewrite Hag, seeded_store_at. by case_decide.
  - lia.
Qed.

Variable N K_module K : nat.
Variable apartments : list Apartment.
Variables p q : Q.
Hypothesis H10 : 10 <= N.

(** The twelve weeks move [series_inv] from day 0 to day 84. *)
Lemma weeks_series (l : locals) (w : world) :
  series_inv N 0 l w ->
  exists r w',
    for_fold (seq 0 12)
      (fun _week l => simulate_week K_module apartments K p q l) l w
    = (r, w') /\
    match r with
    | Ok l' => series_inv N 84 l' w'
    | Raise e => zero_step K_module K
    end.
Proof using H10.
  intros Hinv.
  destruct (for_fold_indexed
              (fun j l w => series_inv N (7 * j) l w)
              (fun _ => zero_step K_module K)
              (seq 0 12)
              (fun _week l => simulate_week K_module apartments K p q l))
    with (k := 0) (s := l) (w := w) as (r & w' & E & H); [|done|].
  - intros week j l1 w1 H1. unfold simulate_week.
    destruct (for_fold_indexed
                (fun k l w => series_inv N k l w)
                (fun _ => zero_step K_module K)
                all_Days (simulate_day K_module apartments K p q))
      with (k := 7 * j) (s := l1) (w := w1) as (r & w' & E & H); [|done|].
    + intros day k l2 w2 H2. by apply simulate_day_series.
    + exists r, w'. split; [done|]. destruct r; [|done].
      by replace (7 * S j) with (7 * j + length all_Days) by (simpl; lia).
  - exists r, w'. split; [done|]. by destruct r.
Qed.

End RunSeries.

Section RunFacts.

(** Every run that returns went through 84 days that kept the two
    invariants. *)
Lemma run_series (K_module N M B K : nat) (p q : Q) (g : rng)
    (out : outputs) (w' : world) :
  run_simulation K_module N M B K p q (init_world g) = (Ok out, w') ->
  exists l,
    10 <= N /\ series_inv N 84 l w' /\ metrics_inv l w' /\
    last (sick_count l) = Some (total_sick out) /\
    out_infected_count out = infected_count l /\
    out_sick_count out = sick_count l /\
    infected_count_daily_change out = np_diff (infected_count l) /\
    sick_count_daily_change out = np_diff (sick_count l).
Proof.
  intros E. unfold run_simulation in E.
  apply bind_Ok_inv in E as (sa & w1 & Es & E).
  apply bind_Ok_inv in E as (l & w2 & El & E).
  destruct (seeded_series_inv _ _ _ _ _ _ Es) as (H10 & Hinv0).
  destruct (weeks_series N K_module K (snd sa) p q H10 _ w1 Hinv0)
    as (r & w2' & El' & Hinv).
  rewrite El in El'. injection El' as <- <-.
  assert (metrics_inv l w2) as Hm.
  { eapply simulate_weeks_metrics; [|exact El].
    destruct Hinv0 as [HP HF _ _ _ _ _ _ _ _ _ _].
    constructor; cbn [students infected_count sick_count] in *.
    - rewrite HP. apply NoDup_seq.
    - done.
    - constructor.
    - intros i x y Hx. done.
    - constructor. }
  unfold summarize in E. apply bind_Ok_inv in E as (total & w3 & Et & E).
  unfold ret in E. injection E as <- <-.
  destruct (last (sick_count l)) as [x|] eqn:Hlast; [|discriminate].
  unfold ret in Et. injection Et as <- <-.
  exists l. do 3 (split; [done|]). cbn. by rewrite Hlast.
Qed.

(** With at least ten agents, room for all and a usable slicing step,
    the run returns. *)
Lemma run_returns (K_module N M B K : nat) (p q : Q) (g : rng) :
  10 <= N -> N <= M * B -> ~ zero_step K_module K ->
  exists out w',
    run_simulation K_module N M B K p q (init_world g) = (Ok out, w').
Proof.
  intros H10 Hcap Hz.
  destruct (setup_ok N M B g H10 Hcap) as (st & apts & g' & Es & _).
  destruct (seeded_series_inv _ _ _ _ _ _ Es) as (_ & Hinv0).
  destruct (weeks_series N K_module K apts p q H10 _ _ Hinv0)
    as ([l|e] & w2 & El & Hinv); [|done].
  unfold run_simulation. rewrite (bind_Ok _ _ _ _ _ Es).
  cbn [fst snd] in *. rewrite (bind_Ok _ _ _ _ _ El).
  unfold summarize.
  destruct (last (sick_count l)) as [x|] eqn:Hlast.
  - rewrite bind_ret_l. unfold ret. by eexists _, _.
  - apply last_None in Hlast. pose proof (si_len_sick _ _ _ _ Hinv) as Hlen.
    rewrite Hlast in Hlen. discriminate.
Qed.

(** With a zero step and a classroom asked for, the first Monday
    raises, before anything is recorded. *)
Lemma run_zero_step (K_module N M B K : nat) (p q : Q) (g : rng) :
  10 <= N -> N <= M * B -> zero_step K_module K ->
  exists w',
    run_simulation K_module N M B K p q (init_world g)
    = (Raise ValueError_slice_step, w') /\
    w_agents w' = seeded_store N /\ w_log w' = [].
Proof.
  intros H10 Hcap [HK0 HK].
  destruct (setup_ok N M B g H10 Hcap) as (st & apts & g' & Es & HP & _).
  rewrite (run_unfold _ _ _ _ _ _ _ _ _ _ _ Es).
  unfold all_Days. rewrite peel_day.
  set (l0 := {| students := st; infected_count := [];
                sick_count := []; day_number := 0 |}).
  set (w0 := mkWorld g' (seeded_store N) []).
  destruct (simulate_day_spec K_module apts K p q MONDAY l0 w0)
    as (st' & w1 & w' & _ & _ & R & Qt & _ & E).
  { apply seeded_store_wf. }
  { change (NoDup st). rewrite HP. apply NoDup_seq. }
  assert (day_raises K_module K MONDAY = true) as Hr.
  { unfold day_raises. subst K_module. simpl.
    apply negb_true_iff, Nat.eqb_neq. done. }
  rewrite Hr in E. rewrite (bind_Raise _ _ _ _ _ E).
  exists w1. split; [done|]. apply Qt. intros a.
  unfold infectious, deref. cbn [w0 w_agents]. rewrite seeded_store_at.
  by case_decide.
Qed.

End RunFacts.

(** X14.  Every run that returns simulated 84 days: both series have 84
    entries and both difference series 83, the total returned is the
    last entry of the cumulative series, and the store holds the [N]
    agents created at the start, no more and no fewer. *)
Theorem series_have_one_entry_per_day :
  forall (K_module N M B K : nat) (p q : Q) (g : rng)
         (out : outputs) (w' : world),
    run_simulation K_module N M B K p q (init_world g) = (Ok out, w') ->
    length (out_infected_count out) = 84 /\
    length (out_sick_count out) = 84 /\
    length (infected_count_daily_change out) = 83 /\
    length (sick_count_daily_change out) = 83 /\
    out_sick_count out !! 83 = Some (total_sick out) /\
    length (w_agents w') = N.
Proof.
  intros K_module N M B K p q g out w' E.
  destruct (run_series _ _ _ _ _ _ _ _ _ _ E)
    as (l & _ & Hs & _ & Hlast & -> & -> & -> & ->).
  pose proof (si_len_inf _ _ _ _ Hs) as Hli.
  pose proof (si_len_sick _ _ _ _ Hs) as Hls.
  rewrite !np_diff_length, Hli, Hls.
  repeat split; try done.
  - rewrite last_lookup, Hls in Hlast. done.
  - apply (si_store _ _ _ _ Hs).
Qed.

Lemma series_have_one_entry_per_day_witness :
  match run_simulation 3 12 4 3 3 (1 # 2) (1 # 3) (init_world demo_rng) with
  | (Ok out, w') =>
      length (out_infected_count out) = 84 /\
      length (out_sick_count out) = 84 /\
      length (infected_count_daily_change out) = 83 /\
      length (sick_count_daily_change out) = 83 /\
      out_sick_count out !! 83 = Some (total_sick out) /\
      length (w_agents w') = 12
  | (Raise _, _) => False
  end.
Proof.
  destruct (run_simulation 3 12 4 3 3 (1 # 2) (1 # 3) (init_world demo_rng))
    as [[out|e] w'] eqn:E.
  - exact (series_have_one_entry_per_day
             3 12 4 3 3 (1 # 2) (1 # 3) demo_rng out w' E).
  - vm_compute in E. discriminate E.
Defined.

(** X15.  In every run that returns, on every day the infectious count
    lies between 0 and the cumulative count of that day, and the
    cumulative count is at most the number of agents; both series start
    at 0, because the seeds are only flagged on the first day; every
    later cumulative entry is at least 10, the seeds; so the total
    returned is between 10 and [N]. *)
Theorem counts_within_population :
  forall (K_module N M B K : nat) (p q : Q) (g : rng)
         (out : outputs) (w' : world),
    run_simulation K_module N M B K p q (init_world g) = (Ok out, w') ->
    (forall i x y, out_infected_count out !! i = Some x ->
                   out_sick_count out !! i = Some y ->
                   (0 <= x <= y)%Z /\ (y <= Z.of_nat N)%Z) /\
    (forall i x, out_infected_count out !! i = Some x ->
                 (0 <= x <= Z.of_nat N)%Z) /\
    (forall i y, out_sick_count out !! i = Some y ->
                 (0 <= y <= Z.of_nat N)%Z) /\
    out_infected_count out !! 0 = Some 0%Z /\
    out_sick_count out !! 0 = Some 0%Z /\
    (forall i y, out_sick_count out !! (S i) = Some y -> (10 <= y)%Z) /\
    (10 <= total_sick out <= Z.of_nat N)%Z.
Proof.
  intros K_module N M B K p q g out w' E.
  destruct (run_series _ _ _ _ _ _ _ _ _ _ E)
    as (l & _ & Hs & _ & Hlast & -> & -> & _ & _).
  destruct Hs as [_ _ _ _ Hli Hls Hb Hfi Hla _ _ _].
  assert (forall i y, sick_count l !! i = Some y -> (0 <= y <= Z.of_nat N)%Z)
    as Hsick.
  { intros i y Hy.
    destruct (Forall2_lookup_r _ _ _ _ _ Hb Hy) as (x & _ & Hxy). lia. }
  assert (sick_count l !! 0 = Some 0%Z) as Hs0.
  { destruct (lookup_lt_is_Some_2 (sick_count l) 0) as [y Hy]; [lia|].
    by rewrite Hy, (Hfi y Hy). }
  split; [|split; [|split; [done|split; [|split; [done|split; [done|]]]]]].
  - intros i x y Hx Hy.
    destruct (Forall2_lookup_lr _ _ _ _ _ _ Hb Hx Hy). lia.
  - intros i x Hx.
    destruct (Forall2_lookup_l _ _ _ _ _ Hb Hx) as (y & _ & Hxy). lia.
  - destruct (lookup_lt_is_Some_2 (infected_count l) 0) as [x Hx]; [lia|].
    destruct (Forall2_lookup_lr _ _ _ _ _ _ Hb Hx Hs0) as [? _].
    rewrite Hx. f_equal. lia.
  - rewrite last_lookup, Hls in Hlast. simpl in Hlast.
    pose proof (Hla _ _ Hlast). pose proof (Hsick _ _ Hlast). lia.
Qed.

Lemma counts_within_population_witness :
  match run_simulation 3 12 4 3 3 (1 # 2) (1 # 3) (init_world demo_rng) with
  | (Ok out, w') =>
      (forall i x y, out_infected_count out !! i = Some x ->
                     out_sick_count out !! i = Some y ->
                     (0 <= x <= y)%Z /\ (y <= Z.of_nat 12)%Z) /\
      (forall i x, out_infected_count out !! i = Some x ->
                   (0 <= x <= Z.of_nat 12)%Z) /\
      (forall i y, out_sick_count out !! i = Some y ->
                   (0 <= y <= Z.of_nat 12)%Z) /\
      out_infected_count out !! 0 = Some 0%Z /\
      out_sick_count out !! 0 = Some 0%Z /\
      (forall i y, out_sick_count out !! (S i) = Some y -> (10 <= y)%Z) /\
      (10 <= total_sick out <= Z.of_nat 12)%Z
  | (Raise _, _) => False
  end.
Proof.
  destruct (run_simulation 3 12 4 3 3 (1 # 2) (1 # 3) (init_world demo_rng))
    as [[out|e] w'] eqn:E.
  - exact (counts_within_population
             3 12 4 3 3 (1 # 2) (1 # 3) demo_rng out w' E).
  - vm_compute in E. discriminate E.
Defined.

(** X16.  In every run that returns, the daily changes of the
    cumulative series are never negative and add up to the total
    returned; the daily changes of the infectious series add up to the
    number infectious on the last day. *)
Theorem daily_changes_add_up :
  forall (K_module N M B K : nat) (p q : Q) (g : rng)
         (out : outputs) (w' : world),
    run_simulation K_module N M B K p q (init_world g) = (Ok out, w') ->
    Forall (fun d => (0 <= d)%Z) (sick_count_daily_change out) /\
    sumZ (sick_count_daily_change out) = total_sick out /\
    Some (sumZ (infected_count_daily_change out))
    = last (out_infected_count out).
Proof.
  intros K_module N M B K p q g out w' E.
  destruct (run_series _ _ _ _ _ _ _ _ _ _ E)
    as (l & _ & Hs & Hm & Hlast & -> & _ & -> & ->).
  destruct Hs as [_ _ _ _ Hli Hls Hb Hfi _ _ _ _].
  split; [apply np_diff_nonneg, (mi_mono _ _ Hm)|].
  split.
  - destruct (sick_count l) as [|x ys] eqn:Hsc; [discriminate|].
    rewrite (np_diff_telescope ys x _ Hlast).
    rewrite (Hfi x eq_refl). lia.
  - destruct (infected_count l) as [|x ys] eqn:Hic; [discriminate|].
    destruct (sick_count l) as [|y zs] eqn:Hsc; [discriminate|].
    apply Forall2_cons in Hb as [[Hx _] _].
    rewrite (Hfi y eq_refl) in Hx. assert (x = 0%Z) as -> by lia.
    destruct (last (0%Z :: ys)) as [z|] eqn:Hl.
    + rewrite (np_diff_telescope ys 0%Z z Hl). f_equal. lia.
    + by apply last_None in Hl.
Qed.

Lemma daily_changes_add_up_witness :
  match run_simulation 3 12 4 3 3 (1 # 2) (1 # 3) (init_world demo_rng) with
  | (Ok out, w') =>
      Forall (fun d => (0 <= d)%Z) (sick_count_daily_change out) /\
      sumZ (sick_count_daily_change out) = total_sick out /\
      Some (sumZ (infected_count_daily_change out))
      = last (out_infected_count out)
  | (Raise _, _) => False
  end.
Proof.
  destruct (run_simulation 3 12 4 3 3 (1 # 2) (1 # 3) (init_world demo_rng))
    as [[out|e] w'] eqn:E.
  - exact (daily_changes_add_up
             3 12 4 3 3 (1 # 2) (1 # 3) demo_rng out w' E).
  - vm_compute in E. discriminate E.
Defined.

(** X17.  What decides the outcome of [run_simulation], in this order:
    fewer than ten agents raise the list-index error of the seeding
    loop; otherwise too few places raise the error of [choice];
    otherwise a zero module [K] with a classroom asked for raises the
    slice-step error on the first Monday, before anything is recorded;
    otherwise the run returns. *)
Theorem run_simulation_outcome :
  forall (K_module N M B K : nat) (p q : Q) (g : rng),
    (N < 10 ->
     fst (run_simulation K_module N M B K p q (init_world g))
     = Raise IndexError_subscript) /\
    (10 <= N -> M * B < N ->
     fst (run_simulation K_module N M B K p q (init_world g))
     = Raise IndexError_choice) /\
    (10 <= N -> N <= M * B -> K_module = 0 /\ K <> 0 ->
     exists w',
       run_simulation K_module N M B K p q (init_world g)
       = (Raise ValueError_slice_step, w') /\
       w_agents w' = seeded_store N /\ w_log w' = []) /\
    (10 <= N -> N <= M * B -> ~ (K_module = 0 /\ K <> 0) ->
     exists out w',
       run_simulation K_module N M B K p q (init_world g) = (Ok out, w')).
Proof.
  intros K_module N M B K p q g. split; [|split; [|split]].
  - intros HN. unfold run_simulation.
    by rewrite (bind_Raise _ _ _ _ _ (setup_seed_fail N M B g HN)).
  - intros H10 Hcap.
    destruct (setup_housing_fail N M B g H10 Hcap) as (g' & E).
    unfold run_simulation. by rewrite (bind_Raise _ _ _ _ _ E).
  - intros H10 Hcap Hz. by apply run_zero_step.
  - intros H10 Hcap Hz. by apply run_returns.
Qed.

Lemma run_simulation_outcome_witness :
  (exists w',
     run_simulation 0 12 4 3 3 (1 # 2) (1 # 3) (init_world demo_rng)
     = (Raise ValueError_slice_step, w') /\
     w_agents w' = seeded_store 12 /\ w_log w' = []) /\
  (exists out w',
     run_simulation 0 12 4 3 0 (1 # 2) (1 # 3) (init_world demo_rng)
     = (Ok out, w')).
Proof.
  split.
  - destruct (run_simulation_outcome 0 12 4 3 3 (1 # 2) (1 # 3) demo_rng)
      as (_ & _ & H & _).
    apply H; [lia|lia|]. split; [reflexivity|discriminate].
  - destruct (run_simulation_outcome 0 12 4 3 0 (1 # 2) (1 # 3) demo_rng)
      as (_ & _ & _ & H).
    apply H; [lia|lia|]. intros [_ H0]. by apply H0.
Defined.

(** ** Runs without transmission, and the recovered count *)

Section Frames.

Lemma keeps_ret {A} (x : A) : keeps_agents (ret x).
Proof. by intros w. Qed.

Lemma keeps_bind {A B} (m : Py A) (k : A -> Py B) :
  keeps_agents m -> (forall a, keeps_agents (k a)) -> keeps_agents (bind m k).
Proof.
  intros Hm Hk w. unfold bind. specialize (Hm w).
  destruct (m w) as [[a|e] w1]; simpl in *; [|done].
  by rewrite Hk.
Qed.

Lemma keeps_for_each {A} (l : list A) (body : A -> Py unit) :
  (forall x, keeps_agents (body x)) -> keeps_agents (for_each l body).
Proof.
  intros H. induction l as [|x l IH]; simpl; [apply keeps_ret|].
  apply keeps_bind; [done|]. by intros _.
Qed.

Lemma keeps_randomly_infect (group : list agent_ref) (prob : Q) :
  (prob <= 0)%Q -> keeps_agents (randomly_infect group prob).
Proof.
  intros Hp w.
  destruct (randomly_infect_impossible prob group w Hp) as (w' & E & H).
  by rewrite E.
Qed.

Lemma keeps_assign_to_classrooms (K_module : nat)
    (students : list agent_ref) (K : nat) :
  keeps_agents (assign_to_classrooms K_module students K).
Proof.
  intros w.
  destruct (assign_to_classrooms_spec K_module students K w)
    as (st & g' & _ & E).
  by rewrite E.
Qed.

(** With both probabilities at most zero the contagion rounds of a day
    leave every agent as it is, whether they return or raise. *)
Lemma keeps_contagion_rounds (K_module : nat) (apartments : list Apartment)
    (K : nat) (p q : Q) (day : Days) (students : list agent_ref) :
  (p <= 0)%Q -> (q <= 0)%Q ->
  keeps_agents (contagion_rounds K_module apartments K p q day students).
Proof.
  intros Hp Hq. unfold contagion_rounds, classroom_rounds, household_rounds.
  apply keeps_bind.
  - destruct (not_weekend day); [|apply keeps_ret].
    apply keeps_bind; [apply keeps_assign_to_classrooms|].
    intros sc. apply keeps_bind; [|intros _; apply keeps_ret].
    apply keeps_for_each. intros c. by apply keeps_randomly_infect.
  - intros st. apply keeps_bind; [|intros _; apply keeps_ret].
    apply keeps_for_each. intros c. by apply keeps_randomly_infect.
Qed.

(** What a returned run was made of. *)
Lemma run_locals (K_module N M B K : nat) (p q : Q) (g : rng)
    (out : outputs) (w' : world) :
  run_simulation K_module N M B K p q (init_world g) = (Ok out, w') ->
  exists sa w1 l,
    setup N M B (init_world g) = (Ok sa, w1) /\
    for_fold (seq 0 12)
      (fun _week l => simulate_week K_module (snd sa) K p q l)
      {| students := fst sa; infected_count := [];
         sick_count := []; day_number := 0 |} w1 = (Ok l, w') /\
    last (sick_count l) = Some (total_sick out) /\
    out_infected_count out = infected_count l /\
    out_sick_count out = sick_count l /\
    infected_count_daily_change out = np_diff (infected_count l) /\
    sick_count_daily_change out = np_diff (sick_count l).
Proof.
  intros E. unfold run_simulation in E.
  apply bind_Ok_inv in E as (sa & w1 & Es & E).
  apply bind_Ok_inv in E as (l & w2 & El & E).
  unfold summarize in E. apply bind_Ok_inv in E as (total & w3 & Et & E).
  unfold ret in E. injection E as <- <-.
  destruct (last (sick_count l)) as [x|] eqn:Hlast; [|discriminate].
  unfold ret in Et. injection Et as <- <-.
  exists sa, w1, l. cbn. by rewrite Hlast.
Qed.

(** What every returning day keeps, every returning run of weeks
    keeps. *)
Lemma weeks_partial (K_module : nat) (apartments : list Apartment)
    (K : nat) (p q : Q) (I : locals -> world -> Prop) :
  (forall day l w l' w', I l w ->
     simulate_day K_module apartments K p q day l w = (Ok l', w') ->
     I l' w') ->
  forall (weeks : list nat) l w l' w', I l w ->
    for_fold weeks
      (fun _week l => simulate_week K_module apartments K p q l) l w
    = (Ok l', w') ->
    I l' w'.
Proof.
  intros Hday weeks l w l' w' Hinv E.
  eapply (for_fold_partial I); [|exact Hinv|exact E].
  intros week s1 w1 s2 w2 _ Hinv1 E1. unfold simulate_week in E1.
  eapply (for_fold_partial I); [|exact Hinv1|exact E1].
  intros day s3 w3 s4 w4 _ Hinv3 E3. by eapply Hday.
Qed.

End Frames.

Section NoSpread.

Variable N K_module K : nat.
Variable apartments : list Apartment.
Variables p q : Q.
Hypothesis H10 : 10 <= N.
Hypothesis Hp : (p <= 0)%Q.
Hypothesis Hq : (q <= 0)%Q.

Lemma simulate_day_only_seeds (day : Days) (k : nat) (l l' : locals)
    (w w' : world) :
  series_inv N k l w -> only_seeds l w ->
  simulate_day K_module apartments K p q day l w = (Ok l', w') ->
  only_seeds l' w'.
Proof using H10 Hp Hq.
  intros Hs [Ho Hse] E.
  assert (NoDup (students l)) as Hnd.
  { rewrite (si_students _ _ _ _ Hs). apply NoDup_seq. }
  destruct (simulate_day_spec K_module apartments K p q day l w
              (si_wf _ _ _ _ Hs) Hnd)
    as (st1 & w1 & w2 & HP & E1 & R & _ & Adv & Ed).
  rewrite E in Ed.
  destruct (day_raises K_module K day); [discriminate|].
  injection Ed as -> ->.
  pose proof (keeps_contagion_rounds K_module apartments K p q day
                (students l) Hp Hq w) as Hk.
  rewrite E1 in Hk. cbn [snd] in Hk.
  assert (forall a, deref w1 a = deref w a) as Hd.
  { intros a. unfold deref. by rewrite Hk. }
  assert (st1 ≡ₚ seq 0 N) as HP1.
  { by rewrite HP, (si_students _ _ _ _ Hs). }
  constructor; cbn [sick_count].
  - intros a Ha. destruct (Ho a Ha) as [Hst Hfl].
    assert (deref w2 a = deref w1 a) as ->.
    { destruct (decide (a ∈ st1)) as [Hin|Hout].
      - apply (disease_step_unflagged _ _ _ (adv_in _ _ _ _ Adv a Hin));
          by rewrite Hd.
      - by apply (adv_out _ _ _ _ Adv). }
    by rewrite Hd.
  - intros i y Hy.
    destruct (decide (S i < length (sick_count l))) as [Hlt|Hge].
    + rewrite lookup_app_l in Hy by done. by eapply Hse.
    + pose proof (lookup_lt_Some _ _ _ Hy) as Hlen.
      rewrite length_app in Hlen. simpl in Hlen.
      rewrite lookup_app_r in Hy by lia.
      replace (S i - length (sick_count l)) with 0 in Hy by lia.
      simpl in Hy. injection Hy as <-.
      unfold sick_so_far. apply (np_sum_first_ten _ st1 N); [done|done|].
      intros a Ha. rewrite Hd. case_bool_decide as Hlt.
      * apply (si_seeds _ _ _ _ Hs); [|done].
        rewrite (si_len_sick _ _ _ _ Hs) in Hlen, Hge. lia.
      * unfold have_been_sick. destruct (Ho a) as [-> _]; [lia|done].
Qed.

Lemma weeks_only_seeds (weeks : list nat) (l l' : locals) (w w' : world) :
  series_inv N 0 l w -> only_seeds l w ->
  for_fold weeks
    (fun _week l => simulate_week K_module apartments K p q l) l w
  = (Ok l', w') ->
  only_seeds l' w'.
Proof using H10 Hp Hq.
  intros Hs Ho E.
  assert (exists k, series_inv N k l' w' /\ only_seeds l' w') as (k & _ & H);
    [|done].
  apply (weeks_partial K_module apartments K p q
           (fun l w => exists k, series_inv N k l w /\ only_seeds l w))
    with (weeks := weeks) (l := l) (w := w); [|by exists 0|done].
  intros day l1 w1 l2 w2 (k & Hs1 & Ho1) E1. exists (S k). split.
  - destruct (simulate_day_series N K_module K apartments p q H10 day k l1 w1
                Hs1) as (r & w3 & E3 & H3).
    rewrite E1 in E3. by injection E3 as <- <-.
  - by eapply simulate_day_only_seeds.
Qed.

End NoSpread.

Section Recovered.

Lemma recovered_now (w : world) (st : list agent_ref) :
  (sick_so_far w st - infectious_now w st = immune_now w st)%Z.
Proof.
  unfold sick_so_far, infectious_now, immune_now, np_sum.
  induction st as [|a st IH]; [done|].
  cbn [map fold_right]. unfold have_been_sick at 1, infectious at 1.
  destruct (state (deref w a)); cbn [State_eqb negb]; lia.
Qed.

Lemma immune_now_Permutation (w : world) (l l' : list agent_ref) :
  l ≡ₚ l' -> immune_now w l = immune_now w l'.
Proof.
  intros H. unfold immune_now. apply np_sum_Permutation.
  by apply Permutation_map.
Qed.

Lemma contagion_rel_immune (w w' : world) (l : list agent_ref) :
  contagion_rel w w' -> immune_now w' l = immune_now w l.
Proof.
  intros R. apply np_sum_ext. intros a. by rewrite (cr_state _ _ R).
Qed.

(** Immunity is never lost. *)
Lemma advanced_immune (day : Z) (students l : list agent_ref) (w w' : world) :
  advanced day students w w' ->
  (immune_now w l <= immune_now w' l)%Z.
Proof.
  intros Adv. apply np_sum_le. intros a.
  pose proof (advanced_step_ok day students w w' a Adv) as Hs.
  destruct Hs as [-> | [[-> ->] | [-> ->]]]; done.
Qed.

Lemma simulate_day_recovered (K_module : nat) (apartments : list Apartment)
    (K : nat) (p q : Q) (day : Days) (l l' : locals) (w w' : world) :
  recovered_inv l w ->
  simulate_day K_module apartments K p q day l w = (Ok l', w') ->
  recovered_inv l' w'.
Proof.
  intros [Hnd HF Hlen Hm Hbd] E.
  destruct (simulate_day_spec K_module apartments K p q day l w HF Hnd)
    as (st1 & w1 & w2 & HP & _ & R & _ & Adv & Ed).
  rewrite E in Ed.
  destruct (day_raises K_module K day); [discriminate|].
  injection Ed as -> ->.
  assert (immune_now w1 st1 = immune_now w (students l)) as Hc.
  { rewrite (contagion_rel_immune _ _ _ R). by apply immune_now_Permutation. }
  pose proof (advanced_immune _ _ st1 _ _ Adv) as Hle.
  constructor; cbn [students infected_count sick_count].
  - by rewrite HP.
  - apply (adv_wf _ _ _ _ Adv).
  - rewrite !length_app. simpl. lia.
  - rewrite zip_with_app by done. cbn [zip_with].
    apply nondecreasing_snoc; [done|]. by rewrite recovered_now, Hc.
  - rewrite zip_with_app by done. cbn [zip_with].
    apply Forall_app. split.
    + eapply Forall_impl; [exact Hbd|]. intros x Hx. simpl in Hx. lia.
    + constructor; [|constructor]. by rewrite recovered_now.
Qed.

End Recovered.

(** X18.  With both probabilities at most zero nothing spreads: a run
    that returns reports 0 on the first day and exactly the ten seeds on
    each of the 83 days after it, so the total is 10 and the only
    nonzero daily change is the first. *)
Theorem no_spread_without_probability :
  forall (K_module N M B K : nat) (p q : Q) (g : rng)
         (out : outputs) (w' : world),
    (p <= 0)%Q -> (q <= 0)%Q ->
    run_simulation K_module N M B K p q (init_world g) = (Ok out, w') ->
    out_sick_count out = 0%Z :: replicate 83 10%Z /\
    sick_count_daily_change out = 10%Z :: replicate 82 0%Z /\
    total_sick out = 10%Z.
Proof.
  intros K_module N M B K p q g out w' Hp Hq E.
  destruct (run_locals _ _ _ _ _ _ _ _ _ _ E)
    as (sa & w1 & l & Es & El & Hlast & _ & Hsc & _ & Hd).
  destruct (seeded_series_inv _ _ _ _ _ _ Es) as (H10 & Hinv0).
  assert (series_inv N 84 l w') as Hs.
  { destruct (weeks_series N K_module K (snd sa) p q H10 _ w1 Hinv0)
      as (r & w2 & El' & Hs).
    rewrite El in El'. by injection El' as <- <-. }
  destruct (setup_Ok_inv _ _ _ _ _ _ Es) as (_ & _ & Hag & _).
  assert (only_seeds l w') as [_ Hten].
  { apply (weeks_only_seeds N K_module K (snd sa) p q H10 Hp Hq
             _ _ _ _ _ Hinv0) in El; [done|].
    constructor; cbn [sick_count]; [|done].
    intros a Ha. unfold deref. rewrite Hag, seeded_store_at.
    rewrite decide_False by lia. done. }
  assert (sick_count l = 0%Z :: replicate 83 10%Z) as Hser.
  { apply list_eq. intros [|i].
    - destruct (lookup_lt_is_Some_2 (sick_count l) 0) as [y Hy].
      { rewrite (si_len_sick _ _ _ _ Hs). lia. }
      by rewrite Hy, (si_first _ _ _ _ Hs y Hy).
    - change ((0%Z :: replicate 83 10%Z) !! S i)
        with (replicate 83 10%Z !! i).
      destruct (decide (i < 83)) as [Hlt|Hge].
      + destruct (lookup_lt_is_Some_2 (sick_count l) (S i)) as [y Hy].
        { rewrite (si_len_sick _ _ _ _ Hs). lia. }
        rewrite Hy, (Hten i y Hy).
        symmetry. by apply lookup_replicate_2.
      + rewrite lookup_ge_None_2.
        * symmetry. apply lookup_ge_None_2. rewrite length_replicate. lia.
        * rewrite (si_len_sick _ _ _ _ Hs). lia. }
  rewrite Hd, Hsc. rewrite Hser in Hlast |- *.
  split; [done|]. split; [by vm_compute|].
  vm_compute in Hlast. by injection Hlast as ->.
Qed.

Lemma no_spread_without_probability_witness :
  match run_simulation 3 12 4 3 3 0 0 (init_world demo_rng) with
  | (Ok out, w') =>
      out_sick_count out = 0%Z :: replicate 83 10%Z /\
      sick_count_daily_change out = 10%Z :: replicate 82 0%Z /\
      total_sick out = 10%Z
  | (Raise _, _) => False
  end.
Proof.
  destruct (run_simulation 3 12 4 3 3 0 0 (init_world demo_rng))
    as [[out|e] w'] eqn:E.
  - apply (no_spread_without_probability 3 12 4 3 3 0 0 demo_rng out w');
      [unfold Qle; simpl; lia | unfold Qle; simpl; lia | exact E].
  - vm_compute in E. discriminate E.
Defined.

(** X19.  In every run that returns, the number recovered on a day, the
    cumulative count less the infectious count, never goes down from one
    day to the next, and it never exceeds the number of agents that are
    IMMUNE when the run ends. *)
Theorem recovered_count_never_decreases :
  forall (K_module N M B K : nat) (p q : Q) (g : rng)
         (out : outputs) (w' : world),
    run_simulation K_module N M B K p q (init_world g) = (Ok out, w') ->
    nondecreasing
      (zip_with Z.sub (out_sick_count out) (out_infected_count out)) /\
    Forall (fun x => (0 <= x <= immune_now w' (seq 0 N))%Z)
      (zip_with Z.sub (out_sick_count out) (out_infected_count out)).
Proof.
  intros K_module N M B K p q g out w' E.
  destruct (run_locals _ _ _ _ _ _ _ _ _ _ E)
    as (sa & w1 & l & Es & El & _ & -> & -> & _ & _).
  destruct (seeded_series_inv _ _ _ _ _ _ Es) as (H10 & Hinv0).
  assert (recovered_inv l w') as [Hnd HF Hlen Hm Hbd].
  { apply (weeks_partial K_module (snd sa) K p q recovered_inv
             (fun day l w l' w' => simulate_day_recovered
                K_module (snd sa) K p q day l l' w w'))
      with (weeks := seq 0 12) (w := w1)
           (l := {| students := fst sa; infected_count := [];
                    sick_count := []; day_number := 0 |}); [|done].
    destruct Hinv0 as [HP HF _ _ _ _ _ _ _ _ _ _].
    constructor; cbn [students infected_count sick_count] in *.
    - rewrite HP. apply NoDup_seq.
    - done.
    - done.
    - intros i x y Hx. done.
    - constructor. }
  split; [done|].
  destruct (weeks_series N K_module K (snd sa) p q H10 _ w1 Hinv0)
    as (r & w2 & El' & Hs).
  rewrite El in El'. injection El' as <- <-.
  rewrite <- (immune_now_Permutation w' _ _ (si_students _ _ _ _ Hs)).
  apply Forall_lookup. intros i x Hx.
  split; [|by apply (proj1 (Forall_lookup _ _) Hbd i x)].
  apply lookup_zip_with_Some in Hx as (s & c & -> & Hs' & Hc').
  destruct (Forall2_lookup_lr _ _ _ _ _ _ (si_bounds _ _ _ _ Hs) Hc' Hs').
  lia.
Qed.

Lemma recovered_count_never_decreases_witness :
  match run_simulation 3 12 4 3 3 (1 # 2) (1 # 3) (init_world demo_rng) with
  | (Ok out, w') =>
      nondecreasing
        (zip_with Z.sub (out_sick_count out) (out_infected_count out)) /\
      Forall (fun x => (0 <= x <= immune_now w' (seq 0 12))%Z)
        (zip_with Z.sub (out_sick_count out) (out_infected_count out))
  | (Raise _, _) => False
  end.
Proof.
  destruct (run_simulation 3 12 4 3 3 (1 # 2) (1 # 3) (init_world demo_rng))
    as [[out|e] w'] eqn:E.
  - exact (recovered_count_never_decreases
             3 12 4 3 3 (1 # 2) (1 # 3) demo_rng out w' E).
  - vm_compute in E. discriminate E.
Defined.
